(** * PipelineExplorer: the pipeline tree model of vscode-jx-tools

    A shallow embedding of [src/PipelineExplorer.ts]: the node classes
    [StageNode], [BuildNode], [RepoNode], [OwnerNode] and [PipelineModel],
    the watch callback of [PipelineModel.connect], and the helper functions
    [addChildUrl], [mapValuesInKeyOrder], [nodeForUri], [stringCapitalise]
    and [elapsedTime].

    Modelling conventions.
    - A JavaScript string is a [string]; a value that is a string or
      [undefined] is an [option string].  Text is taken to be ASCII.
    - The raw pipeline activity (typed [any] in the source) is a record with
      one optional field per property the code reads; an absent property is
      [None].
    - Objects compared with [===] carry an allocation identity: a [Uri] has a
      [uid], drawn from a counter ([Heap]) that every [uri.with(...)] call
      advances.
    - A [Map] is a [gmap] where only lookups, the size and the sorted keys
      are observed ([PipelineModel.nodes], [OwnerNode.nodes]), and a list of
      entries in insertion order where the iteration order reaches the
      result ([RepoNode.nodes], whose values are sorted with a comparator
      that leaves some of them unordered).
    - A method that mutates [this] is a function on the receiver's state; an
      exception leaves the mutations made so far in place, so a completion
      is paired with the state reached.
    - Parent references ([StageNode.build], [BuildNode.repo], ...) are not
      stored: no modelled operation reads them. *)

From Stdlib Require Import ZArith Ascii String List Bool Lia Permutation Sorted.
From stdpp Require Import base option list sorting strings gmap fin_maps.

Local Open Scope string_scope.
Local Open Scope list_scope.

(** ** JavaScript primitives *)

Module Js.

(** [if (s)] on a string: the empty string is falsy. *)
Definition truthy (s : string) : bool := negb (String.eqb s "").

(** [if (v)] on a string-or-undefined. *)
Definition truthy_opt (v : option string) : bool :=
  match v with
  | Some s => truthy s
  | None => false
  end.

(** String concatenation of a string-or-undefined operand. *)
Definition to_str (v : option string) : string :=
  match v with
  | Some s => s
  | None => "undefined"
  end.

(** [v || d], for a string-or-undefined [v]. *)
Definition or_default (v : option string) (d : string) : string :=
  if truthy_opt v then to_str v else d.

(** Numbers, as far as the build comparator needs them: the integers and
    [NaN]. *)
Inductive number : Type :=
  | NaN
  | Num (z : Z).

Definition sub (a b : number) : number :=
  match a, b with
  | Num x, Num y => Num (x - y)%Z
  | _, _ => NaN
  end.

(** [v > 0]; every comparison with [NaN] is false. *)
Definition gt0 (v : number) : bool :=
  match v with
  | Num z => (0 <? z)%Z
  | NaN => false
  end.

Definition digit_value (c : ascii) : option Z :=
  let n := Z.of_nat (nat_of_ascii c) in
  if ((48 <=? n) && (n <=? 57))%Z then Some (n - 48)%Z else None.

Fixpoint digits_value (s : string) (acc : Z) : option Z :=
  match s with
  | EmptyString => Some acc
  | String c s' =>
      match digit_value c with
      | Some d => digits_value s' (10 * acc + d)%Z
      | None => None
      end
  end.

(** Unary plus on a string.  The empty string is [0], a run of decimal
    digits is its value, anything else is [NaN].  (Signs, fractions,
    exponents, radix prefixes and surrounding white space, which JavaScript
    also reads as numbers, are outside this model; values are exact below
    2^53.) *)
Definition to_number (s : string) : number :=
  match digits_value s 0 with
  | Some z => Num z
  | None => NaN
  end.

(** [Array.prototype.sort(comparefn)], as an insertion sort: each element
    moves left past every neighbour [tmp] with [comparefn(tmp, element) > 0]
    and stops at the first one without.  The sorted prefix is kept
    nearest-neighbour first.  Where the comparator is a consistent order,
    every engine returns this list up to the order of elements that compare
    equal; where it is not (it yields [NaN] for some pairs) the order is the
    engine's own, and what is proved of such lists holds of this algorithm
    only. *)
Fixpoint sort_insert {A : Type} (comparefn : A -> A -> number)
    (element : A) (prefix_rev : list A) : list A :=
  match prefix_rev with
  | [] => [element]
  | tmp :: rest =>
      if gt0 (comparefn tmp element)
      then tmp :: sort_insert comparefn element rest
      else element :: tmp :: rest
  end.

Definition sort {A : Type} (comparefn : A -> A -> number) (a : list A) : list A :=
  rev (fold_left (fun prefix_rev element => sort_insert comparefn element prefix_rev) a []).

(** The comparator of [sort()] without an argument, on strings. *)
Definition default_compare (x y : string) : number :=
  match String.compare x y with
  | Lt => Num (-1)%Z
  | Eq => Num 0
  | Gt => Num 1
  end.

(** [toUpperCase] on one character: exact on ASCII, where the letters a to z
    have capitals and nothing else changes.  (Characters from 128 on, some of
    which JavaScript capitalises, also into two characters, are left as they
    are and are outside this model.) *)
Definition toUpperCase_char (c : ascii) : ascii :=
  let n := nat_of_ascii c in
  if (Nat.leb 97 n) && (Nat.leb n 122) then ascii_of_nat (n - 32) else c.

Fixpoint toUpperCase (s : string) : string :=
  match s with
  | EmptyString => EmptyString
  | String c s' => String (toUpperCase_char c) (toUpperCase s')
  end.

(** [s.substring(i)] *)
Fixpoint substring_from (i : nat) (s : string) : string :=
  match i, s with
  | O, _ => s
  | S i', String _ s' => substring_from i' s'
  | S _, EmptyString => EmptyString
  end.

(** [s.substring(i, j)] for [i <= j] *)
Definition substring (i j : nat) (s : string) : string :=
  String.substring i (j - i) s.

Fixpoint lastIndexOf_from (c : ascii) (s : string) (i : Z) (found : Z) : Z :=
  match s with
  | EmptyString => found
  | String d s' => lastIndexOf_from c s' (i + 1)%Z (if Ascii.eqb c d then i else found)
  end.

(** [s.lastIndexOf(c)] for a one-character pattern; [-1] when absent. *)
Definition lastIndexOf (c : ascii) (s : string) : Z :=
  lastIndexOf_from c s 0 (-1).

Fixpoint split_from (sep : ascii) (s : string) (current : string) : list string :=
  match s with
  | EmptyString => [current]
  | String c s' =>
      if Ascii.eqb c sep
      then current :: split_from sep s' ""
      else split_from sep s' (current +:+ String c "")
  end.

(** [s.split(sep)] for a one-character separator. *)
Definition split (sep : ascii) (s : string) : list string :=
  split_from sep s "".

Inductive error : Type :=
  | TypeError (message : string).

(** How a call ends. *)
Inductive completion (A : Type) : Type :=
  | Normal (value : A)
  | Throw (e : error).
Arguments Normal {A} value.
Arguments Throw {A} e.

(** A computation over a mutable state [S].  The state reached is returned
    with either kind of completion. *)
Definition M (S A : Type) : Type := S -> completion A * S.

Definition ret {S A : Type} (a : A) : M S A := fun s => (Normal a, s).

Definition bind {S A B : Type} (m : M S A) (k : A -> M S B) : M S B :=
  fun s =>
    match m s with
    | (Normal a, s') => k a s'
    | (Throw e, s') => (Throw e, s')
    end.

Definition throw {S A : Type} (e : error) : M S A := fun s => (Throw e, s).

Definition modify {S : Type} (f : S -> S) : M S unit := fun s => (Normal tt, f s).

(** [for (const x of l) body] *)
Fixpoint for_of {S X : Type} (l : list X) (body : X -> M S unit) : M S unit :=
  match l with
  | [] => ret tt
  | x :: l' => bind (body x) (fun _ => for_of l' body)
  end.

(** Whether a call returned rather than threw. *)
Definition is_normal {A S : Type} (r : completion A * S) : bool :=
  match r with
  | (Normal _, _) => true
  | (Throw _, _) => false
  end.

End Js.

Notation "'do' x <- c1 ; c2" := (Js.bind c1 (fun x => c2))
  (at level 10, x name, c1 at level 100, c2 at level 200).
Notation "'run' c1 ; c2" := (Js.bind c1 (fun _ => c2))
  (at level 10, c1 at level 100, c2 at level 200).

(** ** The raw pipeline activity object *)

Module GitStatus.
Record t : Type := mk { url : option string; status : option string }.
End GitStatus.

Module Update.
Record t : Type := mk {
  statuses : option (list GitStatus.t);
  status : option string;
  startedTimestamp : option string;
  completedTimestamp : option string
}.
End Update.

Module PullRequest.
Record t : Type := mk {
  pullRequestURL : option string;
  status : option string;
  startedTimestamp : option string;
  completedTimestamp : option string
}.
End PullRequest.

Module Promote.
Record t : Type := mk {
  environment : option string;
  applicationURL : option string;
  pullRequest : option PullRequest.t;
  update : option Update.t;
  status : option string;
  startedTimestamp : option string;
  completedTimestamp : option string
}.
End Promote.

Module Stage.
Record t : Type := mk {
  name : option string;
  status : option string;
  startedTimestamp : option string;
  completedTimestamp : option string
}.
End Stage.

Module Step.
Record t : Type := mk { stage : option Stage.t; promote : option Promote.t }.
End Step.

Module Spec.
Record t : Type := mk {
  build : option string;
  gitOwner : option string;
  gitRepository : option string;
  pipeline : option string;
  status : option string;
  buildLogsUrl : option string;
  buildUrl : option string;
  gitUrl : option string;
  startedTimestamp : option string;
  completedTimestamp : option string;
  steps : option (list (option Step.t))
}.

(** The object literal [{}]. *)
Definition empty : t :=
  mk None None None None None None None None None None None.
End Spec.

Module Metadata.
Record t : Type := mk { name : option string }.
End Metadata.

Module Activity.
Record t : Type := mk { metadata : option Metadata.t; spec : option Spec.t }.
End Activity.

(** The value handed to a [StageNode] as its [step]: one of the sub-records
    of a step, or [undefined]. *)
Inductive step_value : Type :=
  | StageValue (stage : Stage.t)
  | PromoteValue (promote : Promote.t)
  | PullRequestValue (pullRequest : PullRequest.t)
  | UpdateValue (update : Update.t)
  | UndefinedValue.

(** A variable read from an optional pull-request property. *)
Definition pull_request_value (pullRequest : option PullRequest.t) : step_value :=
  match pullRequest with
  | Some pr => PullRequestValue pr
  | None => UndefinedValue
  end.

(** ** Resources *)

(** The next free object identity. *)
Definition Heap : Type := nat.

Module Uri.
(** Every resource has the scheme [pipeline]; only the path varies. *)
Record t : Type := mk { uid : nat; path : string }.

(** [a === b] on two [Uri] objects *)
Definition same_object (a b : t) : bool := Nat.eqb (uid a) (uid b).
End Uri.

(** [uri.with({ path: uri.path + "/" + path })]: a new object. *)
Definition addChildUrl (uri : Uri.t) (path : option string) (h : Heap) : Uri.t * Heap :=
  (Uri.mk h (Uri.path uri +:+ "/" +:+ Js.to_str path), S h).

(** ** Capitalisation *)

Definition stringCapitalise (text : option string) : string :=
  match text with
  | Some text =>
      if Js.truthy text
      then Js.toUpperCase (Js.substring 0 1 text) +:+ Js.substring_from 1 text
      else ""
  | None => ""
  end.

(** * Tree nodes *)

Module StageNode.

Record t : Type := mk {
  resource : Uri.t;
  name : option string;
  pipeline : option Activity.t;
  step : step_value;
  contextValue : string;
  url : option string
}.

Definition title (this : t) : string := "Stage".

Definition label (this : t) : option string := name this.

Definition isDirectory (this : t) : bool := false.

(** [(this.step || {}).status] *)
Definition step_status (v : step_value) : option string :=
  match v with
  | StageValue s => Stage.status s
  | PromoteValue p => Promote.status p
  | PullRequestValue pr => PullRequest.status pr
  | UpdateValue u => Update.status u
  | UndefinedValue => None
  end.

Definition status (this : t) : string :=
  Js.or_default (step_status (step this)) "Unknown".

Definition iconPath (this : t) : string :=
  let s := status this in
  if String.eqb s "Succeeded" then "images/atomist_build_passed.png"
  else if String.eqb s "Failed" || String.eqb s "Error" then "images/atomist_build_failed.png"
  else if String.eqb s "Running" then "images/spinner.gif"
  else if String.eqb s "Aborted" then "images/circle-64.png"
  else "".

End StageNode.

Module BuildNode.

Record t : Type := mk {
  resource : Uri.t;
  buildNumber : string;
  _pipeline : option Activity.t;
  _children : list StageNode.t
}.

(** [new BuildNode(resource, repo, buildNumber)] *)
Definition new (resource : Uri.t) (buildNumber : string) : t :=
  mk resource buildNumber None [].

Definition getChildren (this : t) : list StageNode.t :=
  fold_left (fun answer value => answer ++ [value]) (_children this) [].

Definition title (this : t) : string := "Build".

Definition label (this : t) : string := buildNumber this.

Definition pipeline (this : t) : option Activity.t := _pipeline this.

Definition pipelineSpec (this : t) : Spec.t :=
  match pipeline this with
  | Some pipeline =>
      match Activity.spec pipeline with
      | Some spec => spec
      | None => Spec.empty
      end
  | None => Spec.empty
  end.

Definition status (this : t) : string :=
  let status :=
    match pipeline this with
    | Some pipeline =>
        match Activity.spec pipeline with
        | Some spec => Spec.status spec
        | None => Some ""
        end
    | None => Some ""
    end in
  Js.or_default status "Unknown".

Definition buildLogsUrl (this : t) : string := Js.or_default (Spec.buildLogsUrl (pipelineSpec this)) "".
Definition buildUrl (this : t) : string := Js.or_default (Spec.buildUrl (pipelineSpec this)) "".
Definition gitUrl (this : t) : string := Js.or_default (Spec.gitUrl (pipelineSpec this)) "".
Definition pipelineName (this : t) : string := Js.or_default (Spec.pipeline (pipelineSpec this)) "".

Definition contextValue (this : t) : string :=
  let suffix := if String.eqb (status this) "Running" then ".Running" else "" in
  if Js.truthy (buildLogsUrl this) && Js.truthy (buildUrl this) && Js.truthy (gitUrl this)
  then "vsJenkinsX.pipelines.build.hasUrls" +:+ suffix
  else "vsJenkinsX.pipelines.build" +:+ suffix.

(** The receiver of the setter together with the heap. *)
Definition state : Type := t * Heap.

Definition this_ : Js.M state t := fun s => (Js.Normal (fst s), s).

(** [addChildUrl(this.resource, name)] *)
Definition childUrl (name : option string) : Js.M state Uri.t :=
  fun s =>
    let '(uri, h) := addChildUrl (resource (fst s)) name (snd s) in
    (Js.Normal uri, (fst s, h)).

(** [this._children.push(child)] *)
Definition push (child : StageNode.t) : Js.M state unit :=
  Js.modify (fun s : state =>
    (mk (resource (fst s)) (buildNumber (fst s)) (_pipeline (fst s))
        (_children (fst s) ++ [child]), snd s)).

(** The loop over [update.statuses]: [updateUrl] is overwritten by every
    status visited and the loop leaves at the first truthy one. *)
Fixpoint scan_statuses (statuses : list GitStatus.t) (updateUrl : option string) : option string :=
  match statuses with
  | [] => updateUrl
  | status :: rest =>
      let updateUrl := GitStatus.url status in
      if Js.truthy_opt updateUrl then updateUrl else scan_statuses rest updateUrl
  end.

(** The name of the pull-request stage. *)
Definition pullRequestName_of (name : string) (prUrl : string) : string :=
  let pullRequestName := name +:+ " Pull Request" in
  if Js.truthy prUrl then
    let idx := Js.lastIndexOf "/" prUrl in
    if (0 <? idx)%Z
    then pullRequestName +:+ " #" +:+ Js.substring_from (Z.to_nat (idx + 1)) prUrl
    else pullRequestName
  else pullRequestName.

(** The part of the loop body run for a [promote] sub-record. *)
Definition promote_body (promote : Promote.t) : Js.M state unit :=
  let envName := stringCapitalise (Promote.environment promote) in
  let name := "Promote to " +:+ envName +:+ "" in
  let appUrl := Promote.applicationURL promote in
  let stageContextValue :=
    if Js.truthy_opt appUrl then "vsJenkinsX.pipelines.stage.app" else "vsJenkinsX.pipelines.stage" in
  do uri <- childUrl (Some name);
  do this <- this_;
  run push (StageNode.mk uri (Some name) (pipeline this) (PromoteValue promote) stageContextValue appUrl);
  let pullRequest := Promote.pullRequest promote in
  run match pullRequest with
      | Some pr =>
          let prUrl := Js.or_default (PullRequest.pullRequestURL pr) "" in
          let pullRequestName := pullRequestName_of name prUrl in
          do uri <- childUrl (Some name);
          do this <- this_;
          push (StageNode.mk uri (Some pullRequestName) (pipeline this) (PullRequestValue pr)
                  "vsJenkinsX.pipelines.stage.pullRequest" (Some prUrl))
      | None => Js.ret tt
      end;
  run match Promote.update promote with
      | Some update =>
          let updatetName := name +:+ " Update" in
          match Update.statuses update with
          | Some statuses =>
              let updateUrl := scan_statuses statuses (Some "") in
              do uri <- childUrl (Some name);
              do this <- this_;
              push (StageNode.mk uri (Some updatetName) (pipeline this) (pull_request_value pullRequest)
                      "vsJenkinsX.pipelines.stage.update" updateUrl)
          | None => Js.throw (Js.TypeError "statuses is not iterable")
          end
      | None => Js.ret tt
      end;
  if Js.truthy_opt appUrl then
    let appName := "App promoted to " +:+ envName in
    do uri <- childUrl (Some name);
    do this <- this_;
    push (StageNode.mk uri (Some appName) (pipeline this) (PromoteValue promote)
            "vsJenkinsX.pipelines.stage.app" appUrl)
  else Js.ret tt.

(** The body of [for (const step of steps)]. *)
Definition step_body (step : option Step.t) : Js.M state unit :=
  match step with
  | Some step =>
      run match Step.stage step with
          | Some stage =>
              let name := Stage.name stage in
              do uri <- childUrl name;
              do this <- this_;
              push (StageNode.mk uri name (pipeline this) (StageValue stage)
                      "vsJenkinsX.pipelines.stage" (Some ""))
          | None => Js.ret tt
          end;
      match Step.promote step with
      | Some promote => promote_body promote
      | None => Js.ret tt
      end
  | None => Js.ret tt
  end.

(** [set pipeline(that)] *)
Definition set_pipeline (that : Activity.t) : Js.M state unit :=
  run Js.modify (fun s : state =>
        (mk (resource (fst s)) (buildNumber (fst s)) (Some that) [], snd s));
  do this <- this_;
  let spec := pipelineSpec this in
  match Spec.steps spec with
  | Some steps => Js.for_of steps step_body
  | None => Js.ret tt
  end.

End BuildNode.

(** A [Map<string, V>] whose iteration order is observed: the entries in
    insertion order. *)
Module JsMap.
Section Ordered.
Context {V : Type}.

Definition t : Type := list (string * V).

Definition empty : t := [].

Fixpoint get (key : string) (m : t) : option V :=
  match m with
  | [] => None
  | (k, v) :: m' => if String.eqb key k then Some v else get key m'
  end.

(** An existing key keeps its place; a new key goes last. *)
Fixpoint set (key : string) (value : V) (m : t) : t :=
  match m with
  | [] => [(key, value)]
  | (k, v) :: m' =>
      if String.eqb key k then (key, value) :: m' else (k, v) :: set key value m'
  end.

Fixpoint delete (key : string) (m : t) : t :=
  match m with
  | [] => []
  | (k, v) :: m' => if String.eqb key k then m' else (k, v) :: delete key m'
  end.

Definition size (m : t) : nat := length m.

(** The values in [forEach] order. *)
Definition values (m : t) : list V := map snd m.

Definition keys (m : t) : list string := map fst m.
End Ordered.
Arguments t V : clear implicits.
End JsMap.

Module RepoNode.

Record t : Type := mk {
  resource : Uri.t;
  repoName : string;
  nodes : JsMap.t BuildNode.t
}.

(** [new RepoNode(resource, owner, repoName)] *)
Definition new (resource : Uri.t) (repoName : string) : t :=
  mk resource repoName JsMap.empty.

Definition isEmpty (this : t) : bool := Nat.eqb (JsMap.size (nodes this)) 0.

Definition title (this : t) : string := "Repository".

Definition label (this : t) : string := repoName this.

Definition contextValue (this : t) : string := "vsJenkinsX.pipelines.repo".

(** The comparator handed to [answer.sort]. *)
Definition compareBuilds (n1 n2 : BuildNode.t) : Js.number :=
  if Js.truthy (BuildNode.buildNumber n1) && negb (Js.truthy (BuildNode.buildNumber n2))
  then Js.Num 1
  else if negb (Js.truthy (BuildNode.buildNumber n1)) && Js.truthy (BuildNode.buildNumber n2)
  then Js.Num (-1)
  else Js.sub (Js.to_number (BuildNode.buildNumber n2)) (Js.to_number (BuildNode.buildNumber n1)).

Definition getChildren (this : t) : list BuildNode.t :=
  let answer := fold_left (fun answer value => answer ++ [value]) (JsMap.values (nodes this)) [] in
  Js.sort compareBuilds answer.

Definition state : Type := t * Heap.

(** [this.nodes.get(buildNumber)], creating and registering the node when
    there is none. *)
Definition get_or_create (buildNumber : string) : Js.M state BuildNode.t :=
  fun s =>
    match JsMap.get buildNumber (nodes (fst s)) with
    | Some build => (Js.Normal build, s)
    | None =>
        let '(uri, h) := addChildUrl (resource (fst s)) (Some buildNumber) (snd s) in
        let build := BuildNode.new uri buildNumber in
        (Js.Normal build,
         (mk (resource (fst s)) (repoName (fst s)) (JsMap.set buildNumber build (nodes (fst s))), h))
    end.

(** A method call on the build registered under [buildNumber]: the map
    holds the object itself, so the map sees whatever the call did to it,
    also when the call throws. *)
Definition on_build {A : Type} (buildNumber : string) (build : BuildNode.t)
    (call : Js.M BuildNode.state A) : Js.M state A :=
  fun s =>
    let '(c, (build', h)) := call (build, snd s) in
    (c, (mk (resource (fst s)) (repoName (fst s)) (JsMap.set buildNumber build' (nodes (fst s))), h)).

Definition upsertPipeline (buildNumber : string) (pipeline : Activity.t) : Js.M state unit :=
  if Js.truthy buildNumber then
    do build <- get_or_create buildNumber;
    on_build buildNumber build (BuildNode.set_pipeline pipeline)
  else Js.ret tt.

Definition deletePipeline (buildNumber : string) (pipeline : Activity.t) (this : t) : t :=
  if Js.truthy buildNumber
  then mk (resource this) (repoName this) (JsMap.delete buildNumber (nodes this))
  else this.

End RepoNode.

(** [mapValuesInKeyOrder(nodes)], for a map whose iteration order is
    sorted away. *)
Definition mapValuesInKeyOrder {V : Type} (nodes : gmap string V) : list V :=
  let keys := fold_left (fun keys entry => keys ++ [fst entry]) (map_to_list nodes) [] in
  let keys := Js.sort Js.default_compare keys in
  fold_left
    (fun answer key =>
       match nodes !! key with
       | Some value => answer ++ [value]
       | None => answer
       end)
    keys [].

Module OwnerNode.

Record t : Type := mk {
  resource : Uri.t;
  folder : string;
  nodes : gmap string RepoNode.t
}.

(** [new OwnerNode(resource, model, folder)] *)
Definition new (resource : Uri.t) (folder : string) : t :=
  mk resource folder ∅.

Definition isEmpty (this : t) : bool := Nat.eqb (size (nodes this)) 0.

Definition title (this : t) : string := "Organisation".

Definition label (this : t) : string := folder this.

Definition contextValue (this : t) : string := "vsJenkinsX.pipelines.owner".

Definition getChildren (this : t) : list RepoNode.t := mapValuesInKeyOrder (nodes this).

Definition state : Type := t * Heap.

Definition get_or_create (repoName : string) : Js.M state RepoNode.t :=
  fun s =>
    match nodes (fst s) !! repoName with
    | Some repo => (Js.Normal repo, s)
    | None =>
        let '(uri, h) := addChildUrl (resource (fst s)) (Some repoName) (snd s) in
        let repo := RepoNode.new uri repoName in
        (Js.Normal repo, (mk (resource (fst s)) (folder (fst s)) (<[repoName := repo]> (nodes (fst s))), h))
    end.

(** A method call on the repo registered under [repoName]. *)
Definition on_repo {A : Type} (repoName : string) (repo : RepoNode.t)
    (call : Js.M RepoNode.state A) : Js.M state A :=
  fun s =>
    let '(c, (repo', h)) := call (repo, snd s) in
    (c, (mk (resource (fst s)) (folder (fst s)) (<[repoName := repo']> (nodes (fst s))), h)).

Definition upsertPipeline (repoName buildNumber : string) (pipeline : Activity.t) : Js.M state unit :=
  if Js.truthy repoName then
    do repo <- get_or_create repoName;
    on_repo repoName repo (RepoNode.upsertPipeline buildNumber pipeline)
  else Js.ret tt.

Definition deletePipeline (repoName buildNumber : string) (pipeline : Activity.t) (this : t) : t :=
  if Js.truthy repoName then
    match nodes this !! repoName with
    | Some repo =>
        mk (resource this) (folder this)
           (<[repoName := RepoNode.deletePipeline buildNumber pipeline repo]> (nodes this))
    | None => this
    end
  else this.

End OwnerNode.

Module PipelineModel.

Record t : Type := mk {
  nodes : gmap string OwnerNode.t;
  resource : Uri.t
}.

(** [new PipelineModel()]: the resource is [Uri.parse("pipeline:localhost")]. *)
Definition new (h : Heap) : t * Heap :=
  (mk ∅ (Uri.mk h "localhost"), S h).

Definition title (this : t) : string := "Pipelines".

Definition label (this : t) : string := "Pipelines".

Definition contextValue (this : t) : string := "vsJenkinsX.pipelines".

Definition getChildren (this : t) : list OwnerNode.t := mapValuesInKeyOrder (nodes this).

Definition state : Type := t * Heap.

Definition get_or_create (folder : string) : Js.M state OwnerNode.t :=
  fun s =>
    match nodes (fst s) !! folder with
    | Some owner => (Js.Normal owner, s)
    | None =>
        let '(uri, h) := addChildUrl (resource (fst s)) (Some folder) (snd s) in
        let owner := OwnerNode.new uri folder in
        (Js.Normal owner, (mk (<[folder := owner]> (nodes (fst s))) (resource (fst s)), h))
    end.

(** A method call on the owner registered under [folder]. *)
Definition on_owner {A : Type} (folder : string) (owner : OwnerNode.t)
    (call : Js.M OwnerNode.state A) : Js.M state A :=
  fun s =>
    let '(c, (owner', h)) := call (owner, snd s) in
    (c, (mk (<[folder := owner']> (nodes (fst s))) (resource (fst s)), h)).

Definition upsertPipeline (folder repoName buildNumber : string) (pipeline : Activity.t)
    : Js.M state unit :=
  if Js.truthy folder then
    do owner <- get_or_create folder;
    on_owner folder owner (OwnerNode.upsertPipeline repoName buildNumber pipeline)
  else Js.ret tt.

Definition deletePipeline (folder repoName buildNumber : string) (pipeline : Activity.t)
    (this : t) : t :=
  if Js.truthy folder then
    match nodes this !! folder with
    | Some owner =>
        let owner := OwnerNode.deletePipeline repoName buildNumber pipeline owner in
        if OwnerNode.isEmpty owner
        then mk (delete folder (nodes this)) (resource this)
        else mk (<[folder := owner]> (nodes this)) (resource this)
    | None => this
    end
  else this.

End PipelineModel.

(** ** The [ModelNode] interface *)

Inductive ModelNode : Type :=
  | StageN (node : StageNode.t)
  | BuildN (node : BuildNode.t)
  | RepoN (node : RepoNode.t)
  | OwnerN (node : OwnerNode.t)
  | ModelN (node : PipelineModel.t).

Definition resource (node : ModelNode) : Uri.t :=
  match node with
  | StageN n => StageNode.resource n
  | BuildN n => BuildNode.resource n
  | RepoN n => RepoNode.resource n
  | OwnerN n => OwnerNode.resource n
  | ModelN n => PipelineModel.resource n
  end.

Definition getChildren (node : ModelNode) : list ModelNode :=
  match node with
  | StageN n => []
  | BuildN n => map StageN (BuildNode.getChildren n)
  | RepoN n => map BuildN (RepoNode.getChildren n)
  | OwnerN n => map RepoN (OwnerNode.getChildren n)
  | ModelN n => map OwnerN (PipelineModel.getChildren n)
  end.

(** [getNodeChildren(element?)] *)
Definition getNodeChildren (this : PipelineModel.t) (element : option ModelNode) : list ModelNode :=
  match element with
  | Some element => getChildren element
  | None => getChildren (ModelN this)
  end.

(** The loop of [nodeForUri] over the children: the first answer wins. *)
Fixpoint first_answer {A B : Type} (f : A -> option B) (children : list A) : option B :=
  match children with
  | [] => None
  | child :: rest =>
      match f child with
      | Some answer => Some answer
      | None => first_answer f rest
      end
  end.

(** [nodeForUri(uri, node)], unfolded along the four levels below the
    root. *)
Definition nodeForUri_stage (uri : Uri.t) (node : StageNode.t) : option ModelNode :=
  if Uri.same_object (StageNode.resource node) uri then Some (StageN node) else None.

Definition nodeForUri_build (uri : Uri.t) (node : BuildNode.t) : option ModelNode :=
  if Uri.same_object (BuildNode.resource node) uri then Some (BuildN node)
  else first_answer (nodeForUri_stage uri) (BuildNode.getChildren node).

Definition nodeForUri_repo (uri : Uri.t) (node : RepoNode.t) : option ModelNode :=
  if Uri.same_object (RepoNode.resource node) uri then Some (RepoN node)
  else first_answer (nodeForUri_build uri) (RepoNode.getChildren node).

Definition nodeForUri_owner (uri : Uri.t) (node : OwnerNode.t) : option ModelNode :=
  if Uri.same_object (OwnerNode.resource node) uri then Some (OwnerN node)
  else first_answer (nodeForUri_repo uri) (OwnerNode.getChildren node).

Definition nodeForUri_model (uri : Uri.t) (node : PipelineModel.t) : option ModelNode :=
  if Uri.same_object (PipelineModel.resource node) uri then Some (ModelN node)
  else first_answer (nodeForUri_owner uri) (PipelineModel.getChildren node).

Definition nodeForUri (uri : Uri.t) (node : ModelNode) : option ModelNode :=
  match node with
  | StageN n => nodeForUri_stage uri n
  | BuildN n => nodeForUri_build uri n
  | RepoN n => nodeForUri_repo uri n
  | OwnerN n => nodeForUri_owner uri n
  | ModelN n => nodeForUri_model uri n
  end.

(** ** The watch callback of [PipelineModel.connect] *)

(** What the callback can touch: the model, the heap, the number of change
    events fired so far and the console. *)
Record World : Type := mkWorld {
  model : PipelineModel.t;
  heap : Heap;
  fired : nat;
  console : list string
}.

Definition console_log (message : string) : Js.M World unit :=
  Js.modify (fun w => mkWorld (model w) (heap w) (fired w) (console w ++ [message])).

(** [this.fireChangeEvent()] *)
Definition fireChangeEvent : Js.M World unit :=
  Js.modify (fun w => mkWorld (model w) (heap w) (S (fired w)) (console w)).

(** A mutating method call on [this]. *)
Definition on_model {A : Type} (call : Js.M PipelineModel.state A) : Js.M World A :=
  fun w =>
    let '(c, (m, h)) := call (model w, heap w) in
    (c, mkWorld m h (fired w) (console w)).

Definition upsertPipeline (folder repoName buildNumber : string) (pipeline : Activity.t)
    : Js.M World unit :=
  on_model (PipelineModel.upsertPipeline folder repoName buildNumber pipeline).

Definition deletePipeline (folder repoName buildNumber : string) (pipeline : Activity.t)
    : Js.M World unit :=
  Js.modify (fun w =>
    mkWorld (PipelineModel.deletePipeline folder repoName buildNumber pipeline (model w))
            (heap w) (fired w) (console w)).

(** [folder] and [repoName] after the fallback to [spec.pipeline]. *)
Definition folder_and_repo (spec : Spec.t) : option string * option string :=
  let folder := Spec.gitOwner spec in
  let repoName := Spec.gitRepository spec in
  if negb (Js.truthy_opt folder) || negb (Js.truthy_opt repoName) then
    let pipeline := Spec.pipeline spec in
    if Js.truthy_opt pipeline then
      let values := Js.split "/" (Js.to_str pipeline) in
      if Nat.ltb 2 (length values)
      then (Some (nth 0 values ""), Some (nth 1 values ""))
      else (folder, repoName)
    else (folder, repoName)
  else (folder, repoName).

(** [(type, obj) => { ... }] *)
Definition watch_callback (type : string) (obj : Activity.t) : Js.M World unit :=
  match Activity.metadata obj with
  | None => Js.throw (Js.TypeError "Cannot read property 'name' of undefined")
  | Some metadata =>
      let name := Metadata.name metadata in
      match Js.truthy_opt name, Activity.spec obj with
      | true, Some spec =>
          let buildNumber := Spec.build spec in
          if negb (Js.truthy_opt buildNumber) then
            console_log ("missing build number: " +:+ Js.to_str buildNumber +:+
                         " for name: " +:+ Js.to_str name)
          else
            let '(folder, repoName) := folder_and_repo spec in
            if negb (Js.truthy_opt folder) || negb (Js.truthy_opt repoName) then
              console_log ("missing data for pipeline folder: " +:+ Js.to_str folder +:+
                           " repo: " +:+ Js.to_str repoName +:+
                           " build: " +:+ Js.to_str buildNumber)
            else if String.eqb type "ADDED" || String.eqb type "MODIFIED" then
              run upsertPipeline (Js.to_str folder) (Js.to_str repoName) (Js.to_str buildNumber) obj;
              fireChangeEvent
            else if String.eqb type "DELETED" then
              run deletePipeline (Js.to_str folder) (Js.to_str repoName) (Js.to_str buildNumber) obj;
              fireChangeEvent
            else Js.ret tt
      | _, _ => Js.ret tt
      end
  end.

(** ** Elapsed time *)

Section ElapsedTime.
(** The [moment] library is outside the repository.  [moment_valid s] is
    the instant [moment(s)] denotes, in milliseconds, when
    [moment(s).isValid()], and [humanize d] is
    [moment.duration(d).humanize()]. *)
Variable moment_valid : string -> option Z.
Variable humanize : Z -> string.

Definition elapsedTime (prefix : string) (start completed : option string) : string :=
  if Js.truthy_opt start && Js.truthy_opt completed then
    match moment_valid (Js.to_str start), moment_valid (Js.to_str completed) with
    | Some m1, Some m2 =>
        let duration := (m1 - m2)%Z in
        let answer := humanize duration in
        if Js.truthy answer then prefix +:+ answer else ""
    | _, _ => ""
    end
  else "".

(** [StageNode.tooltip] *)
Definition StageNode_tooltip (this : StageNode.t) : string :=
  let started :=
    match StageNode.step this with
    | StageValue s => Stage.startedTimestamp s
    | PromoteValue p => Promote.startedTimestamp p
    | PullRequestValue pr => PullRequest.startedTimestamp pr
    | UpdateValue u => Update.startedTimestamp u
    | UndefinedValue => None
    end in
  let completed :=
    match StageNode.step this with
    | StageValue s => Stage.completedTimestamp s
    | PromoteValue p => Promote.completedTimestamp p
    | PullRequestValue pr => PullRequest.completedTimestamp pr
    | UpdateValue u => Update.completedTimestamp u
    | UndefinedValue => None
    end in
  Js.to_str (StageNode.name this) +:+ ": " +:+ StageNode.status this +:+
  elapsedTime " Duration: " started completed.

(** [BuildNode.tooltip] *)
Definition BuildNode_tooltip (this : BuildNode.t) : string :=
  let step := BuildNode.pipelineSpec this in
  "#" +:+ BuildNode.buildNumber this +:+ ": " +:+ BuildNode.status this +:+
  elapsedTime " Duration: " (Spec.startedTimestamp step) (Spec.completedTimestamp step).
End ElapsedTime.

(** * Notions used in the statements *)

(** The build registered under a key path, if any. *)
Definition find_build (m : PipelineModel.t) (folder repoName buildNumber : string)
    : option BuildNode.t :=
  match PipelineModel.nodes m !! folder with
  | Some owner =>
      match OwnerNode.nodes owner !! repoName with
      | Some repo => JsMap.get buildNumber (RepoNode.nodes repo)
      | None => None
      end
  | None => None
  end.

(** The names of the stages of the build under a key path. *)
Definition stage_names (m : PipelineModel.t) (folder repoName buildNumber : string)
    : option (list (option string)) :=
  option_map (fun b => map StageNode.name (BuildNode.getChildren b))
    (find_build m folder repoName buildNumber).

Definition update_context : string := "vsJenkinsX.pipelines.stage.update".

(** ** The order of builds *)

(** A build number that the comparator reads as a number. *)
Definition numeric (b : BuildNode.t) : Prop :=
  BuildNode.buildNumber b <> "" /\ Js.to_number (BuildNode.buildNumber b) <> Js.NaN.

(** A build whose number is a non-empty run of decimal digits with a value
    of at most 2^53 - 1: on these, unary plus and the subtraction of the
    comparator are exact. *)
Definition safe_numeric (b : BuildNode.t) : Prop :=
  BuildNode.buildNumber b <> "" /\
  exists z : Z,
    Js.digits_value (BuildNode.buildNumber b) 0 = Some z /\ (z <= 9007199254740991)%Z.

Definition number_of (b : BuildNode.t) : Z :=
  match Js.to_number (BuildNode.buildNumber b) with
  | Js.Num z => z
  | Js.NaN => 0%Z
  end.

Definition is_NaN (v : Js.number) : bool :=
  match v with
  | Js.NaN => true
  | Js.Num _ => false
  end.

(** Numeric build numbers in descending order, followed by the non-numeric
    ones. *)
Fixpoint numeric_descending_then_others (l : list string) : bool :=
  match l with
  | [] => true
  | x :: l' =>
      match Js.to_number x with
      | Js.NaN => forallb (fun y => is_NaN (Js.to_number y)) l'
      | Js.Num z =>
          forallb (fun y => match Js.to_number y with
                            | Js.Num w => (w <=? z)%Z
                            | Js.NaN => true
                            end) l'
          && numeric_descending_then_others l'
      end
  end.

(** ** The content of a tree

    Every upsert builds the stages of its build anew, so the resources of
    the stages are new objects each time.  Two trees have the same content
    when they agree on everything but the identities of the stages'
    resources. *)

Definition uri_content (u : Uri.t) : Uri.t := Uri.mk 0 (Uri.path u).

Definition stage_content (s : StageNode.t) : StageNode.t :=
  StageNode.mk (uri_content (StageNode.resource s)) (StageNode.name s) (StageNode.pipeline s)
    (StageNode.step s) (StageNode.contextValue s) (StageNode.url s).

Definition build_content (b : BuildNode.t) : BuildNode.t :=
  BuildNode.mk (BuildNode.resource b) (BuildNode.buildNumber b)
    (BuildNode._pipeline b) (map stage_content (BuildNode._children b)).

Definition repo_content (r : RepoNode.t) : RepoNode.t :=
  RepoNode.mk (RepoNode.resource r) (RepoNode.repoName r)
    (map (fun entry => (fst entry, build_content (snd entry))) (RepoNode.nodes r)).

Definition owner_content (o : OwnerNode.t) : OwnerNode.t :=
  OwnerNode.mk (OwnerNode.resource o) (OwnerNode.folder o)
    (repo_content <$> OwnerNode.nodes o).

Definition model_content (m : PipelineModel.t) : PipelineModel.t :=
  PipelineModel.mk (owner_content <$> PipelineModel.nodes m) (PipelineModel.resource m).

(** Two receivers of the setter with the same content. *)
Definition same_build_content (s s' : BuildNode.state) : Prop :=
  build_content (fst s) = build_content (fst s').

(** ** The setter *)

(** A stage created by a setter call that received [that] when the heap
    stood at [h0]. *)
Definition stage_of_call (that : Activity.t) (h0 : Heap) (stage : StageNode.t) : Prop :=
  StageNode.pipeline stage = Some that /\ h0 <= Uri.uid (StageNode.resource stage).

(** What holds of the receiver while the setter loops. *)
Definition setter_invariant (resource : Uri.t) (buildNumber : string) (that : Activity.t)
    (h0 : Heap) (s : BuildNode.state) : Prop :=
  BuildNode.resource (fst s) = resource /\
  BuildNode.buildNumber (fst s) = buildNumber /\
  BuildNode._pipeline (fst s) = Some that /\
  h0 <= snd s /\
  Forall (stage_of_call that h0) (BuildNode._children (fst s)).

(** Every [update] sub-record of the object carries a [statuses] list. *)
Definition step_has_statuses (step : option Step.t) : Prop :=
  match step with
  | Some step =>
      match Step.promote step with
      | Some promote =>
          match Promote.update promote with
          | Some update => Update.statuses update <> None
          | None => True
          end
      | None => True
      end
  | None => True
  end.

Definition has_statuses (that : Activity.t) : Prop :=
  match Activity.spec that with
  | Some spec =>
      match Spec.steps spec with
      | Some steps => Forall step_has_statuses steps
      | None => True
      end
  | None => True
  end.

(** * Sample inputs and runs *)

Definition stage_step (name : string) : option Step.t :=
  Some (Step.mk (Some (Stage.mk (Some name) None None None)) None).

Definition activity_of_steps (steps : list (option Step.t)) : Activity.t :=
  Activity.mk (Some (Metadata.mk (Some "activity")))
    (Some (Spec.mk (Some "1") None None None None None None None None None (Some steps))).

(** An event object that names owner, repo and build. *)
Definition sample_activity : Activity.t :=
  Activity.mk (Some (Metadata.mk (Some "jx-1")))
    (Some (Spec.mk (Some "1") (Some "jenkins-x") (Some "jx") None None None None None None None
             (Some [stage_step "Build"; stage_step "Test"]))).

(** A promote step whose update carries no [statuses]. *)
Definition update_without_statuses : Activity.t :=
  activity_of_steps
    [Some (Step.mk None
       (Some (Promote.mk (Some "staging") None None
                (Some (Update.mk None None None None)) None None None)))].

(** A promote step with a pull request and an update. *)
Definition sample_pullRequest : PullRequest.t :=
  PullRequest.mk (Some "http://git/pr/42") (Some "Succeeded") None None.

Definition sample_update : Update.t :=
  Update.mk (Some [GitStatus.mk None None; GitStatus.mk (Some "http://git/status/7") None])
    (Some "Running") None None.

Definition sample_promote : Promote.t :=
  Promote.mk (Some "staging") None (Some sample_pullRequest) (Some sample_update)
    None None None.

(** The world right after [new PipelineModel()]. *)
Definition world0 : World :=
  let '(m, h) := PipelineModel.new 0 in mkWorld m h 0 [].

(** One owner, one repo, one build. *)
Definition after_upsert : World :=
  snd (upsertPipeline "jenkins-x" "jx" "1" sample_activity world0).

(** ... and the build deleted again. *)
Definition after_delete : World :=
  snd (deletePipeline "jenkins-x" "jx" "1" sample_activity after_upsert).

(** An upsert that names no repo. *)
Definition after_upsert_without_repo : World :=
  snd (upsertPipeline "jenkins-x" "" "1" sample_activity world0).

(** Build 42 of the full-replacement scenario: first the stages Build and
    Test, then Build and Deploy. *)
Definition build_test : Activity.t := activity_of_steps [stage_step "Build"; stage_step "Test"].

Definition build_deploy : Activity.t := activity_of_steps [stage_step "Build"; stage_step "Deploy"].

Definition after_build_test : PipelineModel.state :=
  snd (PipelineModel.upsertPipeline "jenkins-x" "jx" "42" build_test
         (model world0, heap world0)).

Definition after_build_deploy : PipelineModel.state :=
  snd (PipelineModel.upsertPipeline "jenkins-x" "jx" "42" build_deploy after_build_test).

(** A repo that received upserts for the given build numbers, in order. *)
Definition repo_with_builds (buildNumbers : list string) : RepoNode.t :=
  fst (fold_left
         (fun s buildNumber => snd (RepoNode.upsertPipeline buildNumber sample_activity s))
         buildNumbers
         (RepoNode.new (Uri.mk 0 "localhost/jenkins-x/jx") "jx", 1%nat)).

(** A stand-in for [moment]: a run of digits is a valid instant, nothing
    else is; every duration reads the same. *)
Definition sample_moment_valid (s : string) : option Z :=
  if Js.truthy s then
    match Js.to_number s with
    | Js.Num z => Some z
    | Js.NaN => None
    end
  else None.

Definition sample_humanize (d : Z) : string := "a few seconds".


(** * Notions used in the further properties *)

(** [s] contains the character [c]. *)
Definition has_char (c : ascii) (s : string) : Prop := In c (list_ascii_of_string s).

(** A spec that names owner and repo only through its pipeline name. *)
Definition spec_with_pipeline : Spec.t :=
  Spec.mk (Some "7") None None (Some ("jenkins-x" +:+ "/" +:+ "jx" +:+ "/" +:+ "feature/x"))
    None None None None None None None.

(** ... and one whose pipeline name lacks the branch. *)
Definition spec_with_short_pipeline : Spec.t :=
  Spec.mk (Some "7") None None (Some ("jenkins-x" +:+ "/" +:+ "jx"))
    None None None None None None None.

(** ** Well-formed trees

    What every tree built by upserts and deletes satisfies: an owner, a
    repo and a build are registered under their own, non-empty name, and
    their resource extends the resource of the parent by that name; the
    builds of a repo have distinct keys; the resource of a stage extends the
    resource of its build by one segment (which need not be the name of the
    stage, and several stages of a build may share it); and all resources
    were allocated from the heap. *)

Definition wf_stage (h : Heap) (parent : Uri.t) (stage : StageNode.t) : Prop :=
  Uri.uid (StageNode.resource stage) < h /\
  exists segment : option string,
    Uri.path (StageNode.resource stage) = Uri.path parent +:+ "/" +:+ Js.to_str segment.

Definition wf_build (h : Heap) (parent : Uri.t) (key : string) (build : BuildNode.t) : Prop :=
  key <> "" /\
  BuildNode.buildNumber build = key /\
  Uri.path (BuildNode.resource build) = Uri.path parent +:+ "/" +:+ key /\
  Uri.uid (BuildNode.resource build) < h /\
  Forall (wf_stage h (BuildNode.resource build)) (BuildNode._children build).

Definition wf_repo (h : Heap) (parent : Uri.t) (key : string) (repo : RepoNode.t) : Prop :=
  key <> "" /\
  RepoNode.repoName repo = key /\
  Uri.path (RepoNode.resource repo) = Uri.path parent +:+ "/" +:+ key /\
  Uri.uid (RepoNode.resource repo) < h /\
  NoDup (JsMap.keys (RepoNode.nodes repo)) /\
  Forall (fun entry => wf_build h (RepoNode.resource repo) (fst entry) (snd entry))
    (RepoNode.nodes repo).

Definition wf_owner (h : Heap) (parent : Uri.t) (key : string) (owner : OwnerNode.t) : Prop :=
  key <> "" /\
  OwnerNode.folder owner = key /\
  Uri.path (OwnerNode.resource owner) = Uri.path parent +:+ "/" +:+ key /\
  Uri.uid (OwnerNode.resource owner) < h /\
  map_Forall (wf_repo h (OwnerNode.resource owner)) (OwnerNode.nodes owner).

Definition wf_model (h : Heap) (m : PipelineModel.t) : Prop :=
  Uri.uid (PipelineModel.resource m) < h /\
  map_Forall (wf_owner h (PipelineModel.resource m)) (PipelineModel.nodes m).

Definition wf_world (w : World) : Prop := wf_model (heap w) (model w).

(** The world after the callback has run on each event in turn. *)
Definition handle_events (events : list (string * Activity.t)) (w : World) : World :=
  fold_left (fun w event => snd (watch_callback (fst event) (snd event) w)) events w.

(** The build registered under a repo name and a build number of an owner. *)
Definition find_in_owner (owner : OwnerNode.t) (repoName buildNumber : string)
    : option BuildNode.t :=
  match OwnerNode.nodes owner !! repoName with
  | Some repo => JsMap.get buildNumber (RepoNode.nodes repo)
  | None => None
  end.

(** * Commands

    The commands of [PipelineExplorer] act on the host: they create
    terminals, send text to them and open URLs.  The host is modelled by
    what the commands can observe or cause: the terminals of the
    [TerminalCache], the identity of the next terminal object, and the
    calls made so far, in order. *)

Module Terminal.
Record t : Type := mk { id : nat; name : string }.
End Terminal.

Inductive host_call : Type :=
  | CreateTerminal (terminal : Terminal.t)
  | SendText (terminal : Terminal.t) (text : string)
  | ShowTerminal (terminal : Terminal.t)
  | OpenUrl (url : string)
  | ConsoleLog (message : string).

Record Host : Type := mkHost {
  terminals : gmap string Terminal.t;
  next_terminal : nat;
  calls : list host_call
}.

Module TerminalCache.

(** [getOrCreate(terminalName)]; [vscode.window.createTerminal] returns a
    new terminal object of that name. *)
Definition getOrCreate (terminalName : string) (host : Host) : Terminal.t * Host :=
  match terminals host !! terminalName with
  | Some terminal => (terminal, host)
  | None =>
      let terminal := Terminal.mk (next_terminal host) terminalName in
      (terminal,
       mkHost (<[terminalName := terminal]> (terminals host)) (S (next_terminal host))
         (calls host ++ [CreateTerminal terminal]))
  end.

(** The handler registered with [onDidCloseTerminal]. *)
Definition onDidCloseTerminal (terminal : Terminal.t) (host : Host) : Host :=
  let name := Terminal.name terminal in
  match terminals host !! name with
  | Some other =>
      mkHost (delete name (terminals host)) (next_terminal host)
        (calls host ++ [ConsoleLog ("Detected closing terminal " +:+ name)])
  | None => host
  end.

End TerminalCache.

(** [args.join(" ")] *)
Definition join (separator : string) (args : list string) : string :=
  String.concat separator args.

Definition runJXAsTerminal (args : list string) (terminalName : string) (host : Host)
    : Terminal.t * Host :=
  let '(terminal, host) := TerminalCache.getOrCreate terminalName host in
  (terminal,
   mkHost (terminals host) (next_terminal host)
     (calls host ++ [SendText terminal ("jx " +:+ join " " args); ShowTerminal terminal])).

Definition openUrl (u : option string) (host : Host) : Host :=
  if Js.truthy_opt u
  then mkHost (terminals host) (next_terminal host) (calls host ++ [OpenUrl (Js.to_str u)])
  else host.

(** [RepoNode.pipelineName]; [owner] is [this.owner]. *)
Definition RepoNode_pipelineName (owner : OwnerNode.t) (this : RepoNode.t) : string :=
  OwnerNode.folder owner +:+ "/" +:+ RepoNode.repoName this +:+ "/master".

(** The argument of [startPipeline]: a repo (with its owner) or a build. *)
Inductive start_resource : Type :=
  | StartRepo (owner : OwnerNode.t) (repo : RepoNode.t)
  | StartBuild (build : BuildNode.t).

Module PipelineExplorer.

Definition openStageNodeUrl (resource : option StageNode.t) (host : Host) : Host :=
  match resource with
  | Some resource => openUrl (StageNode.url resource) host
  | None => host
  end.

(** The shape shared by [openPipelineLogURL], [openRepositoryURL] and
    [openResource]: the URL is a field of [resource.pipeline.spec]. *)
Definition open_spec_url (field : Spec.t -> option string) (resource : option BuildNode.t)
    (host : Host) : Host :=
  match resource with
  | Some resource =>
      match BuildNode.pipeline resource with
      | Some pipeline =>
          match Activity.spec pipeline with
          | Some spec => openUrl (field spec) host
          | None => host
          end
      | None => host
      end
  | None => host
  end.

Definition openPipelineLogURL := open_spec_url Spec.buildLogsUrl.
Definition openRepositoryURL := open_spec_url Spec.gitUrl.
Definition openResource := open_spec_url Spec.buildUrl.

Definition watchBuildLog (resource : option BuildNode.t) (host : Host) : Host :=
  match resource with
  | Some resource =>
      match BuildNode.pipeline resource with
      | Some pipeline =>
          match Activity.spec pipeline with
          | Some spec =>
              let pipelineName := Spec.pipeline spec in
              if Js.truthy_opt pipelineName then
                let buildNumber := Js.or_default (Spec.build spec) "" in
                let terminalName :=
                  "Jenkins Log: " +:+ Js.to_str pipelineName +:+ " #" +:+ buildNumber in
                let args := ["get"; "build"; "log"; Js.to_str pipelineName] in
                let args :=
                  if Js.truthy buildNumber then args ++ ["--build"; buildNumber] else args in
                snd (runJXAsTerminal args terminalName host)
              else host
          | None => host
          end
      | None => host
      end
  | None => host
  end.

Definition startPipeline (resource : option start_resource) (host : Host) : Host :=
  match resource with
  | Some resource =>
      let pipelineName :=
        match resource with
        | StartRepo owner repo => RepoNode_pipelineName owner repo
        | StartBuild build => BuildNode.pipelineName build
        end in
      if Js.truthy pipelineName then
        let terminalName := "Jenkins X" in
        let args := ["start"; "pipeline"; pipelineName] in
        snd (runJXAsTerminal args terminalName host)
      else host
  | None => host
  end.

Definition stopPipeline (resource : option BuildNode.t) (host : Host) : Host :=
  match resource with
  | Some resource =>
      match BuildNode.pipeline resource with
      | Some pipeline =>
          match Activity.spec pipeline with
          | Some spec =>
              let pipelineName := Spec.pipeline spec in
              if Js.truthy_opt pipelineName then
                let buildNumber := Js.or_default (Spec.build spec) "" in
                if Js.truthy buildNumber then
                  let terminalName := "Jenkins X" in
                  let args := ["stop"; "pipeline"; Js.to_str pipelineName; "--build"; buildNumber] in
                  snd (runJXAsTerminal args terminalName host)
                else host
              else host
          | None => host
          end
      | None => host
      end
  | None => host
  end.

End PipelineExplorer.

(** A host on which nothing has happened yet. *)
Definition host0 : Host := mkHost ∅ 0 [].

(** A build whose spec names pipeline and build. *)
Definition sample_build : BuildNode.t :=
  BuildNode.mk (Uri.mk 3 "localhost/jenkins-x/jx/7") "7"
    (Some (Activity.mk (Some (Metadata.mk (Some "jx-7")))
             (Some (Spec.mk (Some "7") (Some "jenkins-x") (Some "jx")
                      (Some "jenkins-x/jx/master") (Some "Running") None None None None None
                      None))))
    [].


(** The terminal cache is consistent when every terminal is kept under its
    own name and was created by the host before now. *)
Definition cache_consistent (host : Host) : Prop :=
  map_Forall (fun name terminal =>
                Terminal.name terminal = name /\ Terminal.id terminal < next_terminal host)
    (terminals host).

(** What a call of [runJXAsTerminal] adds to the calls of the host, once the
    terminal is known. *)
Definition command_calls (terminal : Terminal.t) (text : string) : list host_call :=
  [SendText terminal text; ShowTerminal terminal].

(** The host after some more calls. *)
Definition with_calls (host : Host) (more : list host_call) : Host :=
  mkHost (terminals host) (next_terminal host) (calls host ++ more).

(** A build whose spec carries the three URLs. *)
Definition sample_build_with_urls : BuildNode.t :=
  BuildNode.mk (Uri.mk 3 "localhost/jenkins-x/jx/7") "7"
    (Some (Activity.mk (Some (Metadata.mk (Some "jx-7")))
             (Some (Spec.mk (Some "7") (Some "jenkins-x") (Some "jx")
                      (Some "jenkins-x/jx/master") (Some "Running") (Some "http://jenkins/logs/7")
                      (Some "http://jenkins/job/7") (Some "https://github.com/jenkins-x/jx") None None
                      None))))
    [].

(** A build whose spec names the pipeline but no build number. *)
Definition sample_build_without_number : BuildNode.t :=
  BuildNode.mk (Uri.mk 3 "localhost/jenkins-x/jx/7") "7"
    (Some (Activity.mk (Some (Metadata.mk (Some "jx-7")))
             (Some (Spec.mk None (Some "jenkins-x") (Some "jx")
                      (Some "jenkins-x/jx/master") (Some "Running") None None None None None
                      None))))
    [].

(** ** The stages of a step list

    What one run of the loop of the setter pushes, read off its body as a
    list: for every node the segment appended to the resource of the build,
    the name, the step payload, the context value and the URL, in the order
    of the pushes.  There is no list when the body throws, which it does on
    an update without statuses. *)

Module Derived.

Record entry : Type := mk {
  segment : option string;
  name : option string;
  step : step_value;
  contextValue : string;
  url : option string
}.

(** Lines 172-208: the nodes of a [promote] sub-record. *)
Definition promote_entries (promote : Promote.t) : option (list entry) :=
  let envName := stringCapitalise (Promote.environment promote) in
  let name := "Promote to " +:+ envName +:+ "" in
  let appUrl := Promote.applicationURL promote in
  let stageContextValue :=
    if Js.truthy_opt appUrl then "vsJenkinsX.pipelines.stage.app" else "vsJenkinsX.pipelines.stage" in
  let pullRequest := Promote.pullRequest promote in
  let promoted := [mk (Some name) (Some name) (PromoteValue promote) stageContextValue appUrl] in
  let requested :=
    match pullRequest with
    | Some pr =>
        let prUrl := Js.or_default (PullRequest.pullRequestURL pr) "" in
        [mk (Some name) (Some (BuildNode.pullRequestName_of name prUrl)) (PullRequestValue pr)
           "vsJenkinsX.pipelines.stage.pullRequest" (Some prUrl)]
    | None => []
    end in
  let promotedApp :=
    if Js.truthy_opt appUrl
    then [mk (Some name) (Some ("App promoted to " +:+ envName)) (PromoteValue promote)
            "vsJenkinsX.pipelines.stage.app" appUrl]
    else [] in
  match Promote.update promote with
  | Some update =>
      match Update.statuses update with
      | Some statuses =>
          Some (promoted ++ requested ++
                [mk (Some name) (Some (name +:+ " Update")) (pull_request_value pullRequest)
                   "vsJenkinsX.pipelines.stage.update"
                   (BuildNode.scan_statuses statuses (Some ""))] ++
                promotedApp)
      | None => None
      end
  | None => Some (promoted ++ requested ++ promotedApp)
  end.

(** Lines 162-210: the nodes of one step. *)
Definition step_entries (step : option Step.t) : option (list entry) :=
  match step with
  | Some step =>
      let staged :=
        match Step.stage step with
        | Some stage =>
            [mk (Stage.name stage) (Stage.name stage) (StageValue stage)
               "vsJenkinsX.pipelines.stage" (Some "")]
        | None => []
        end in
      match Step.promote step with
      | Some promote =>
          match promote_entries promote with
          | Some promoted => Some (staged ++ promoted)
          | None => None
          end
      | None => Some staged
      end
  | None => Some []
  end.

(** Lines 160-212: the nodes of a step list. *)
Fixpoint entries (steps : list (option Step.t)) : option (list entry) :=
  match steps with
  | [] => Some []
  | step :: rest =>
      match step_entries step, entries rest with
      | Some first, Some others => Some (first ++ others)
      | _, _ => None
      end
  end.

(** The nodes of an event object; an object without a spec or without
    steps has none. *)
Definition stages (that : Activity.t) : option (list entry) :=
  match Activity.spec that with
  | Some spec =>
      match Spec.steps spec with
      | Some steps => entries steps
      | None => Some []
      end
  | None => Some []
  end.

(** The content of the stage node of an entry, below the resource [parent]
    of its build and for the event object [pipeline]. *)
Definition stage_at (parent : Uri.t) (pipeline : option Activity.t) (e : entry) : StageNode.t :=
  StageNode.mk (Uri.mk 0 (Uri.path parent +:+ "/" +:+ Js.to_str (segment e)))
    (name e) pipeline (step e) (contextValue e) (url e).

End Derived.

(** An event object for build 42 of jenkins-x/jx: a promote step whose
    update carries no [statuses], followed by a stage. *)
Definition promote_then_deploy : Activity.t :=
  Activity.mk (Some (Metadata.mk (Some "jx-42")))
    (Some (Spec.mk (Some "42") (Some "jenkins-x") (Some "jx") None None None None None None None
             (Some [Some (Step.mk None
                      (Some (Promote.mk (Some "staging") None None
                               (Some (Update.mk None None None None)) None None None)));
                    stage_step "Deploy"]))).

(** The text starts with an ASCII character (a code unit below 128), if it
    has a character at all. *)
Definition starts_ascii (text : option string) : Prop :=
  match text with
  | Some (String c _) => nat_of_ascii c < 128
  | _ => True
  end.

(** An event object for a build of a repo of an owner. *)
Definition activity_for (owner repo build : string) : Activity.t :=
  Activity.mk (Some (Metadata.mk (Some (repo +:+ "-" +:+ build))))
    (Some (Spec.mk (Some build) (Some owner) (Some repo) None None None None None None None
             (Some [stage_step "Build"]))).

(** Events for two owners with two repos each, not in the order of their
    names. *)
Definition sample_events : list (string * Activity.t) :=
  [("ADDED", activity_for "jenkins-x" "jx" "1");
   ("ADDED", activity_for "acme" "zeta" "1");
   ("ADDED", activity_for "jenkins-x" "draft" "2");
   ("MODIFIED", activity_for "acme" "alpha" "7")].

(** An event object with a stage and a promote step that carries a pull
    request and an update. *)
Definition sample_promote_activity : Activity.t :=
  activity_of_steps [stage_step "Build"; Some (Step.mk None (Some sample_promote))].

(** * Properties *)

(** ** Basic facts *)

Lemma truthy_true (s : string) : Js.truthy s = true <-> s <> "".
Proof.
  unfold Js.truthy. rewrite negb_true_iff. split.
  - intros H ->. discriminate.
  - intros H. apply String.eqb_neq. exact H.
Qed.

(** The loops that copy a list element by element. *)
Lemma copy_loop {A : Type} (l answer : list A) :
  fold_left (fun answer value => answer ++ [value]) l answer = answer ++ l.
Proof.
  revert answer. induction l as [|x l IH]; intros answer; simpl.
  - symmetry. apply app_nil_r.
  - rewrite IH, <- app_assoc. reflexivity.
Qed.

Lemma BuildNode_getChildren_eq (this : BuildNode.t) :
  BuildNode.getChildren this = BuildNode._children this.
Proof. unfold BuildNode.getChildren. apply copy_loop. Qed.

Lemma model_eta (m : PipelineModel.t) :
  PipelineModel.mk (PipelineModel.nodes m) (PipelineModel.resource m) = m.
Proof. destruct m. reflexivity. Qed.

Lemma owner_eta (o : OwnerNode.t) :
  OwnerNode.mk (OwnerNode.resource o) (OwnerNode.folder o) (OwnerNode.nodes o) = o.
Proof. destruct o. reflexivity. Qed.

Lemma repo_eta (r : RepoNode.t) :
  RepoNode.mk (RepoNode.resource r) (RepoNode.repoName r) (RepoNode.nodes r) = r.
Proof. destruct r. reflexivity. Qed.

(** ** The ordered map *)

Section JsMapFacts.

Context {V : Type}.
Implicit Types (m : JsMap.t V) (k : string) (v : V).

Lemma get_set_eq k v m : JsMap.get k (JsMap.set k v m) = Some v.
Proof.
  induction m as [|[k' v'] m IH]; simpl.
  - rewrite String.eqb_refl. reflexivity.
  - destruct (String.eqb k k') eqn:E; simpl; rewrite ?E, ?String.eqb_refl; auto.
Qed.

Lemma set_set k v v' m : JsMap.set k v (JsMap.set k v' m) = JsMap.set k v m.
Proof.
  induction m as [|[k' w] m IH]; simpl.
  - rewrite String.eqb_refl. reflexivity.
  - destruct (String.eqb k k') eqn:E; simpl; rewrite ?E, ?String.eqb_refl, ?IH; auto.
Qed.

Lemma set_get_id k v m : JsMap.get k m = Some v -> JsMap.set k v m = m.
Proof.
  induction m as [|[k' w] m IH]; simpl; [discriminate|].
  destruct (String.eqb_spec k k') as [->|Hne].
  - intros [= ->]. reflexivity.
  - intros H. rewrite (IH H). reflexivity.
Qed.

Lemma delete_absent k m : JsMap.get k m = None -> JsMap.delete k m = m.
Proof.
  induction m as [|[k' w] m IH]; simpl; [reflexivity|].
  destruct (String.eqb k k'); [discriminate|].
  intros H. rewrite (IH H). reflexivity.
Qed.

Lemma map_set {W : Type} (f : V -> W) k v m :
  map (fun entry => (fst entry, f (snd entry))) (JsMap.set k v m) =
  JsMap.set k (f v) (map (fun entry => (fst entry, f (snd entry))) m).
Proof.
  induction m as [|[k' w] m IH]; simpl; [reflexivity|].
  destruct (String.eqb k k'); simpl; rewrite ?IH; reflexivity.
Qed.

End JsMapFacts.

(** ** Stages derived from one step *)

(** Running the monadic primitives of the setter on an explicit state. *)
Ltac run_build :=
  unfold Js.bind, BuildNode.childUrl, BuildNode.this_, BuildNode.push, Js.modify, Js.ret,
    Js.throw, addChildUrl, BuildNode.pipeline; simpl.

(** The paths through the loop body of the setter. *)
Ltac case_step step :=
  let stage := fresh "stage" in
  let promote := fresh "promote" in
  let pullRequest := fresh "pullRequest" in
  let update := fresh "update" in
  let statuses := fresh "statuses" in
  let appUrl := fresh "appUrl" in
  destruct step as [[stage promote]|];
  [ destruct stage as [stage|];
    (destruct promote as [[? appUrl pullRequest update ? ? ?]|];
     [ unfold BuildNode.step_body, BuildNode.promote_body;
       cbn [Step.stage Step.promote Promote.environment Promote.applicationURL
            Promote.pullRequest Promote.update];
       destruct (Js.truthy_opt appUrl);
       destruct pullRequest as [pullRequest|];
       (destruct update as [[statuses ? ? ?]|];
        [ destruct statuses as [statuses|] | ])
     | unfold BuildNode.step_body; cbn [Step.stage Step.promote] ])
  | unfold BuildNode.step_body ].

(** Claim C7.  A step whose promote sub-record is
    [{environment: "staging", applicationURL: "http://x",
      pullRequest: {pullRequestURL: "http://git/pr/42"}}]
    adds three stage nodes to the build, in this order: "Promote to Staging",
    "Promote to Staging Pull Request #42" and "App promoted to Staging"; the
    first and the last are tagged as app stages, the middle one as a
    pull-request stage. *)
Theorem promote_expansion (this : BuildNode.t) (h : Heap)
    (status started completed prStatus prStarted prCompleted : option string) :
  let pullRequest := PullRequest.mk (Some "http://git/pr/42") prStatus prStarted prCompleted in
  let promote :=
    Promote.mk (Some "staging") (Some "http://x") (Some pullRequest) None
      status started completed in
  exists n1 n2 n3 : StageNode.t,
    BuildNode.step_body (Some (Step.mk None (Some promote))) (this, h) =
      (Js.Normal tt,
       (BuildNode.mk (BuildNode.resource this) (BuildNode.buildNumber this)
          (BuildNode._pipeline this) (BuildNode._children this ++ [n1; n2; n3]),
        (3 + h)%nat)) /\
    StageNode.name n1 = Some "Promote to Staging" /\
    StageNode.name n2 = Some "Promote to Staging Pull Request #42" /\
    StageNode.name n3 = Some "App promoted to Staging" /\
    StageNode.contextValue n1 = "vsJenkinsX.pipelines.stage.app" /\
    StageNode.contextValue n2 = "vsJenkinsX.pipelines.stage.pullRequest" /\
    StageNode.contextValue n3 = "vsJenkinsX.pipelines.stage.app".
Proof.
  intros pullRequest promote.
  eexists _, _, _. split.
  - cbv -[app String.append]. rewrite <- !app_assoc. reflexivity.
  - repeat split; vm_compute; reflexivity.
Qed.

(** Claim C9.  For a promote step that carries an update sub-record (with
    its statuses), the loop body emits exactly one node tagged as an update
    stage; its step payload is whatever the promote record holds as
    [pullRequest] (the record, or [undefined] when there is none), never the
    update record. *)
Theorem update_stage_payload (promote : Promote.t) (update : Update.t)
    (statuses : list GitStatus.t) (this : BuildNode.t) (h : Heap) :
  Promote.update promote = Some update ->
  Update.statuses update = Some statuses ->
  exists (before : list StageNode.t) (node : StageNode.t) (after : list StageNode.t) (h' : Heap),
    BuildNode.promote_body promote (this, h) =
      (Js.Normal tt,
       (BuildNode.mk (BuildNode.resource this) (BuildNode.buildNumber this)
          (BuildNode._pipeline this)
          (BuildNode._children this ++ before ++ node :: after), h')) /\
    StageNode.contextValue node = update_context /\
    StageNode.name node =
      Some (("Promote to " +:+ stringCapitalise (Promote.environment promote) +:+ "") +:+ " Update") /\
    StageNode.url node = BuildNode.scan_statuses statuses (Some "") /\
    StageNode.step node = pull_request_value (Promote.pullRequest promote) /\
    StageNode.step node <> UpdateValue update /\
    Forall (fun other => StageNode.contextValue other <> update_context) (before ++ after).
Proof.
  intros Hupdate Hstatuses.
  destruct promote as [env appUrl pullRequest upd st t1 t2]. simpl in Hupdate. subst upd.
  destruct update as [sts ust ut1 ut2]. simpl in Hstatuses. subst sts.
  unfold BuildNode.promote_body. simpl Promote.applicationURL. simpl Promote.pullRequest.
  simpl Promote.update. simpl Update.statuses. simpl Promote.environment.
  destruct (Js.truthy_opt appUrl) eqn:Happ; destruct pullRequest as [pr|].
  - eexists [_; _], _, [_], _; split; [run_build; rewrite <- ?app_assoc; reflexivity|].
    repeat split; try reflexivity; try discriminate. repeat constructor; discriminate.
  - eexists [_], _, [_], _; split; [run_build; rewrite <- ?app_assoc; reflexivity|].
    repeat split; try reflexivity; try discriminate. repeat constructor; discriminate.
  - eexists [_; _], _, [], _; split; [run_build; rewrite <- ?app_assoc; reflexivity|].
    repeat split; try reflexivity; try discriminate. repeat constructor; discriminate.
  - eexists [_], _, [], _; split; [run_build; rewrite <- ?app_assoc; reflexivity|].
    repeat split; try reflexivity; try discriminate. repeat constructor; discriminate.
Qed.

Lemma update_stage_payload_witness :
  exists (before : list StageNode.t) (node : StageNode.t) (after : list StageNode.t) (h' : Heap),
    BuildNode.promote_body sample_promote (BuildNode.new (Uri.mk 0 "localhost/jenkins-x/jx/1") "1", 1%nat) =
      (Js.Normal tt,
       (BuildNode.mk (Uri.mk 0 "localhost/jenkins-x/jx/1") "1" None
          ([] ++ before ++ node :: after), h')) /\
    StageNode.contextValue node = update_context /\
    StageNode.name node = Some "Promote to Staging Update" /\
    StageNode.url node = Some "http://git/status/7" /\
    StageNode.step node = PullRequestValue sample_pullRequest /\
    StageNode.step node <> UpdateValue sample_update /\
    Forall (fun other => StageNode.contextValue other <> update_context) (before ++ after).
Proof.
  apply (update_stage_payload sample_promote sample_update
           [GitStatus.mk None None; GitStatus.mk (Some "http://git/status/7") None]
           (BuildNode.new (Uri.mk 0 "localhost/jenkins-x/jx/1") "1") 1%nat); reflexivity.
Defined.

(** ** The setter of [BuildNode.pipeline] *)

Lemma step_body_invariant (resource : Uri.t) (buildNumber : string) (that : Activity.t)
    (h0 : Heap) (step : option Step.t) (s : BuildNode.state) :
  setter_invariant resource buildNumber that h0 s ->
  setter_invariant resource buildNumber that h0 (snd (BuildNode.step_body step s)).
Proof.
  destruct s as [[r b p ch] h]. unfold setter_invariant. simpl.
  intros (-> & -> & -> & Hh & Hall).
  case_step step; run_build.
  all: repeat split; try lia.
  all: rewrite ?Forall_app; repeat split; try exact Hall.
  all: repeat constructor; simpl; lia.
Qed.

Lemma for_of_invariant {S X : Type} (P : S -> Prop) (body : X -> Js.M S unit) :
  (forall x s, P s -> P (snd (body x s))) ->
  forall l s, P s -> P (snd (Js.for_of l body s)).
Proof.
  intros Hbody l. induction l as [|x l IH]; intros s Hs; simpl.
  - exact Hs.
  - unfold Js.bind. specialize (Hbody x s Hs).
    destruct (body x s) as [[[]|e] s']; simpl in *.
    + apply IH. exact Hbody.
    + exact Hbody.
Qed.

Lemma set_pipeline_invariant (that : Activity.t) (this : BuildNode.t) (h : Heap) :
  setter_invariant (BuildNode.resource this) (BuildNode.buildNumber this) that h
    (snd (BuildNode.set_pipeline that (this, h))).
Proof.
  unfold BuildNode.set_pipeline. run_build.
  assert (Hinit : setter_invariant (BuildNode.resource this) (BuildNode.buildNumber this) that h
            (BuildNode.mk (BuildNode.resource this) (BuildNode.buildNumber this) (Some that) [], h)).
  { unfold setter_invariant. simpl. repeat split; try lia. constructor. }
  destruct (Spec.steps _) as [steps|].
  - apply for_of_invariant; [|exact Hinit]. intros x s. apply step_body_invariant.
  - exact Hinit.
Qed.

(** The setter starts from an empty list: what the receiver held before
    does not matter. *)
Lemma set_pipeline_from_scratch (that : Activity.t) (this : BuildNode.t) (h : Heap) :
  BuildNode.set_pipeline that (this, h) =
  BuildNode.set_pipeline that
    (BuildNode.new (BuildNode.resource this) (BuildNode.buildNumber this), h).
Proof. reflexivity. Qed.

Lemma step_body_same_content (step : option Step.t) (s s' : BuildNode.state) :
  same_build_content s s' ->
  fst (BuildNode.step_body step s) = fst (BuildNode.step_body step s') /\
  same_build_content (snd (BuildNode.step_body step s)) (snd (BuildNode.step_body step s')).
Proof.
  destruct s as [[r b p ch] h], s' as [[r' b' p' ch'] h'].
  unfold same_build_content, build_content. simpl.
  intros [= -> -> -> Hch].
  case_step step; run_build.
  all: split; [reflexivity|].
  all: rewrite ?map_app, ?Hch; reflexivity.
Qed.

Lemma for_of_same_content {X : Type} (body : X -> Js.M BuildNode.state unit) :
  (forall x s s', same_build_content s s' ->
     fst (body x s) = fst (body x s') /\ same_build_content (snd (body x s)) (snd (body x s'))) ->
  forall l s s', same_build_content s s' ->
    fst (Js.for_of l body s) = fst (Js.for_of l body s') /\
    same_build_content (snd (Js.for_of l body s)) (snd (Js.for_of l body s')).
Proof.
  intros Hbody l. induction l as [|x l IH]; intros s s' Hs; simpl.
  - split; [reflexivity | exact Hs].
  - unfold Js.bind. destruct (Hbody x s s' Hs) as [Hc Hs'].
    destruct (body x s) as [[[]|e] t], (body x s') as [[[]|e'] t']; simpl in *;
      try discriminate.
    + apply IH. exact Hs'.
    + split; [exact Hc | exact Hs'].
Qed.

(** The content the setter leaves depends on the receiver's resource and
    build number only. *)
Lemma set_pipeline_same_content (that : Activity.t) (this this' : BuildNode.t) (h h' : Heap) :
  BuildNode.resource this = BuildNode.resource this' ->
  BuildNode.buildNumber this = BuildNode.buildNumber this' ->
  fst (BuildNode.set_pipeline that (this, h)) = fst (BuildNode.set_pipeline that (this', h')) /\
  build_content (fst (snd (BuildNode.set_pipeline that (this, h)))) =
  build_content (fst (snd (BuildNode.set_pipeline that (this', h')))).
Proof.
  intros Hpath Hbn. unfold BuildNode.set_pipeline. run_build.
  assert (Hinit : same_build_content
            (BuildNode.mk (BuildNode.resource this) (BuildNode.buildNumber this) (Some that) [], h)
            (BuildNode.mk (BuildNode.resource this') (BuildNode.buildNumber this') (Some that) [], h')).
  { unfold same_build_content, build_content. simpl. rewrite Hpath, Hbn. reflexivity. }
  destruct (Spec.steps _) as [steps|].
  - apply for_of_same_content; [|exact Hinit]. intros x s s'. apply step_body_same_content.
  - split; [reflexivity | exact Hinit].
Qed.

Lemma set_pipeline_twice (that : Activity.t) (s : BuildNode.state) :
  fst (BuildNode.set_pipeline that (snd (BuildNode.set_pipeline that s)))
    = fst (BuildNode.set_pipeline that s) /\
  build_content (fst (snd (BuildNode.set_pipeline that (snd (BuildNode.set_pipeline that s)))))
    = build_content (fst (snd (BuildNode.set_pipeline that s))).
Proof.
  destruct s as [this h].
  pose proof (set_pipeline_invariant that this h) as (Hres & Hbn & _).
  destruct (BuildNode.set_pipeline that (this, h)) as [c [this1 h1]] eqn:E1.
  simpl in Hres, Hbn. cbn [snd].
  pose proof (set_pipeline_same_content that this1 this h1 h) as H.
  rewrite E1 in H. apply H; [rewrite Hres | rewrite Hbn]; reflexivity.
Qed.

Lemma step_body_returns (step : option Step.t) (s : BuildNode.state) :
  step_has_statuses step -> fst (BuildNode.step_body step s) = Js.Normal tt.
Proof.
  destruct s as [this h]. unfold step_has_statuses.
  case_step step; cbn [Step.promote Promote.update Update.statuses]; intros Hs; run_build;
    try reflexivity; contradiction.
Qed.

Lemma for_of_returns {S X : Type} (body : X -> Js.M S unit) (P : X -> Prop) :
  (forall x s, P x -> fst (body x s) = Js.Normal tt) ->
  forall l s, Forall P l -> fst (Js.for_of l body s) = Js.Normal tt.
Proof.
  intros Hbody l. induction l as [|x l IH]; intros s Hl; simpl.
  - reflexivity.
  - inversion Hl as [|? ? Hx Hl']; subst. unfold Js.bind.
    specialize (Hbody x s Hx). destruct (body x s) as [[[]|e] s']; simpl in Hbody.
    + apply IH. exact Hl'.
    + discriminate.
Qed.

Lemma set_pipeline_returns (that : Activity.t) (s : BuildNode.state) :
  has_statuses that -> fst (BuildNode.set_pipeline that s) = Js.Normal tt.
Proof.
  intros H. unfold BuildNode.set_pipeline. run_build. unfold has_statuses in H.
  unfold BuildNode.pipelineSpec, BuildNode.pipeline. cbn [BuildNode._pipeline].
  destruct (Activity.spec that) as [spec|]; [|reflexivity].
  destruct (Spec.steps spec) as [steps|]; [|reflexivity].
  apply (for_of_returns _ step_has_statuses); [|exact H].
  intros x s0. apply step_body_returns.
Qed.

(** ** What an upsert does at each level *)

Lemma RepoNode_upsertPipeline_eq (buildNumber : string) (that : Activity.t)
    (this : RepoNode.t) (h : Heap) :
  buildNumber <> "" ->
  RepoNode.upsertPipeline buildNumber that (this, h) =
  let r :=
    BuildNode.set_pipeline that
      match JsMap.get buildNumber (RepoNode.nodes this) with
      | Some build => (build, h)
      | None =>
          (BuildNode.new
             (Uri.mk h (Uri.path (RepoNode.resource this) +:+ "/" +:+ buildNumber)) buildNumber,
           S h)
      end in
  (fst r, (RepoNode.mk (RepoNode.resource this) (RepoNode.repoName this)
             (JsMap.set buildNumber (fst (snd r)) (RepoNode.nodes this)), snd (snd r))).
Proof.
  intros Hb. apply truthy_true in Hb.
  unfold RepoNode.upsertPipeline, RepoNode.get_or_create, RepoNode.on_build, Js.bind.
  rewrite Hb. cbn [fst snd].
  destruct (JsMap.get buildNumber (RepoNode.nodes this)) as [build|]; simpl.
  - destruct (BuildNode.set_pipeline that (build, h)) as [c [build' h']]. reflexivity.
  - destruct (BuildNode.set_pipeline that _) as [c [build' h']]. simpl.
    rewrite set_set. reflexivity.
Qed.

Lemma OwnerNode_upsertPipeline_eq (repoName buildNumber : string) (that : Activity.t)
    (this : OwnerNode.t) (h : Heap) :
  repoName <> "" ->
  OwnerNode.upsertPipeline repoName buildNumber that (this, h) =
  let r :=
    RepoNode.upsertPipeline buildNumber that
      match OwnerNode.nodes this !! repoName with
      | Some repo => (repo, h)
      | None =>
          (RepoNode.new
             (Uri.mk h (Uri.path (OwnerNode.resource this) +:+ "/" +:+ repoName)) repoName,
           S h)
      end in
  (fst r, (OwnerNode.mk (OwnerNode.resource this) (OwnerNode.folder this)
             (<[repoName := fst (snd r)]> (OwnerNode.nodes this)), snd (snd r))).
Proof.
  intros Hr. apply truthy_true in Hr.
  unfold OwnerNode.upsertPipeline, OwnerNode.get_or_create, OwnerNode.on_repo, Js.bind.
  rewrite Hr. cbn [fst snd].
  destruct (OwnerNode.nodes this !! repoName) as [repo|]; simpl.
  - destruct (RepoNode.upsertPipeline buildNumber that (repo, h)) as [c [repo' h']]. reflexivity.
  - destruct (RepoNode.upsertPipeline buildNumber that _) as [c [repo' h']]. simpl.
    rewrite insert_insert_eq. reflexivity.
Qed.

Lemma PipelineModel_upsertPipeline_eq (folder repoName buildNumber : string)
    (that : Activity.t) (this : PipelineModel.t) (h : Heap) :
  folder <> "" ->
  PipelineModel.upsertPipeline folder repoName buildNumber that (this, h) =
  let r :=
    OwnerNode.upsertPipeline repoName buildNumber that
      match PipelineModel.nodes this !! folder with
      | Some owner => (owner, h)
      | None =>
          (OwnerNode.new
             (Uri.mk h (Uri.path (PipelineModel.resource this) +:+ "/" +:+ folder)) folder,
           S h)
      end in
  (fst r, (PipelineModel.mk (<[folder := fst (snd r)]> (PipelineModel.nodes this))
             (PipelineModel.resource this), snd (snd r))).
Proof.
  intros Hf. apply truthy_true in Hf.
  unfold PipelineModel.upsertPipeline, PipelineModel.get_or_create, PipelineModel.on_owner, Js.bind.
  rewrite Hf. cbn [fst snd].
  destruct (PipelineModel.nodes this !! folder) as [owner|]; simpl.
  - destruct (OwnerNode.upsertPipeline repoName buildNumber that (owner, h)) as [c [owner' h']].
    reflexivity.
  - destruct (OwnerNode.upsertPipeline repoName buildNumber that _) as [c [owner' h']]. simpl.
    rewrite insert_insert_eq. reflexivity.
Qed.

(** An upsert with three non-empty keys runs the setter on the build under
    that key path, and the build is registered there afterwards. *)
Lemma upsertPipeline_reaches_build (m : PipelineModel.t) (h : Heap)
    (folder repoName buildNumber : string) (that : Activity.t) :
  folder <> "" -> repoName <> "" -> buildNumber <> "" ->
  exists (build0 : BuildNode.t) (h0 : Heap),
    h <= h0 /\
    (forall b, find_build m folder repoName buildNumber = Some b -> build0 = b /\ h0 = h) /\
    fst (PipelineModel.upsertPipeline folder repoName buildNumber that (m, h))
      = fst (BuildNode.set_pipeline that (build0, h0)) /\
    snd (snd (PipelineModel.upsertPipeline folder repoName buildNumber that (m, h)))
      = snd (snd (BuildNode.set_pipeline that (build0, h0))) /\
    find_build (fst (snd (PipelineModel.upsertPipeline folder repoName buildNumber that (m, h))))
      folder repoName buildNumber
      = Some (fst (snd (BuildNode.set_pipeline that (build0, h0)))).
Proof.
  intros Hf Hr Hb.
  rewrite (PipelineModel_upsertPipeline_eq _ _ _ _ _ _ Hf). cbn zeta. unfold find_build.
  destruct (PipelineModel.nodes m !! folder) as [owner|];
    rewrite (OwnerNode_upsertPipeline_eq _ _ _ _ _ Hr); cbn zeta; cbn [OwnerNode.new OwnerNode.nodes].
  1: destruct (OwnerNode.nodes owner !! repoName) as [repo|].
  3: rewrite lookup_empty.
  all: rewrite (RepoNode_upsertPipeline_eq _ _ _ _ Hb); cbn zeta; cbn [RepoNode.new RepoNode.nodes].
  1: destruct (JsMap.get buildNumber (RepoNode.nodes repo)) as [build|].
  all: cbn [JsMap.get JsMap.empty].
  all: eexists _, _; cbn [fst snd PipelineModel.nodes].
  all: rewrite lookup_insert_eq; cbn [OwnerNode.nodes];
       rewrite lookup_insert_eq; cbn [RepoNode.nodes]; rewrite get_set_eq.
  all: split; [|split; [|split; [reflexivity|split; reflexivity]]]; try lia; try discriminate.
  intros b [= <-]. split; reflexivity.
Qed.

(** ** Full replacement of the stage list *)

Lemma step_body_entries (step : option Step.t) (es : list Derived.entry)
    (this : BuildNode.t) (h : Heap) :
  Derived.step_entries step = Some es ->
  exists stages : list StageNode.t,
    BuildNode.step_body step (this, h) =
      (Js.Normal tt,
       (BuildNode.mk (BuildNode.resource this) (BuildNode.buildNumber this)
          (BuildNode._pipeline this) (BuildNode._children this ++ stages),
        (length es + h)%nat)) /\
    map stage_content stages =
      map (Derived.stage_at (BuildNode.resource this) (BuildNode._pipeline this)) es.
Proof.
  destruct this as [r b p ch]. unfold Derived.step_entries, Derived.promote_entries.
  case_step step;
    cbn [Step.stage Step.promote Promote.environment Promote.applicationURL
         Promote.pullRequest Promote.update Update.statuses].
  all: intros Hes; try discriminate Hes; injection Hes as <-.
  all: run_build.
  all: first [ exists []; rewrite app_nil_r; split; reflexivity
             | eexists; split; [rewrite <- ?app_assoc; reflexivity | reflexivity] ].
Qed.

Lemma for_of_entries (steps : list (option Step.t)) (es : list Derived.entry)
    (this : BuildNode.t) (h : Heap) :
  Derived.entries steps = Some es ->
  exists stages : list StageNode.t,
    Js.for_of steps BuildNode.step_body (this, h) =
      (Js.Normal tt,
       (BuildNode.mk (BuildNode.resource this) (BuildNode.buildNumber this)
          (BuildNode._pipeline this) (BuildNode._children this ++ stages),
        (length es + h)%nat)) /\
    map stage_content stages =
      map (Derived.stage_at (BuildNode.resource this) (BuildNode._pipeline this)) es.
Proof.
  revert es this h. induction steps as [|step steps IH]; intros es this h; simpl.
  - intros [= <-]. exists []. rewrite app_nil_r. destruct this. split; reflexivity.
  - destruct (Derived.step_entries step) as [first|] eqn:Hfirst; [|discriminate].
    destruct (Derived.entries steps) as [others|] eqn:Hothers; [|discriminate].
    intros [= <-].
    destruct (step_body_entries step first this h Hfirst) as (stages1 & Hrun1 & Hc1).
    unfold Js.bind. rewrite Hrun1.
    destruct (IH others
                (BuildNode.mk (BuildNode.resource this) (BuildNode.buildNumber this)
                   (BuildNode._pipeline this) (BuildNode._children this ++ stages1))
                (length first + h)%nat eq_refl) as (stages2 & Hrun2 & Hc2).
    cbn [BuildNode.resource BuildNode.buildNumber BuildNode._pipeline
         BuildNode._children] in Hrun2, Hc2.
    cbv beta iota. exists (stages1 ++ stages2). split.
    + refine (eq_trans Hrun2 _). rewrite <- app_assoc, length_app. f_equal. f_equal. lia.
    + rewrite !map_app, Hc1, Hc2. reflexivity.
Qed.

Lemma set_pipeline_entries (that : Activity.t) (es : list Derived.entry)
    (this : BuildNode.t) (h : Heap) :
  Derived.stages that = Some es ->
  exists stages : list StageNode.t,
    BuildNode.set_pipeline that (this, h) =
      (Js.Normal tt,
       (BuildNode.mk (BuildNode.resource this) (BuildNode.buildNumber this) (Some that) stages,
        (length es + h)%nat)) /\
    map stage_content stages = map (Derived.stage_at (BuildNode.resource this) (Some that)) es.
Proof.
  unfold Derived.stages, BuildNode.set_pipeline. run_build.
  unfold BuildNode.pipelineSpec, BuildNode.pipeline. cbn [BuildNode._pipeline].
  destruct (Activity.spec that) as [spec|]; cbn [Spec.steps Spec.empty].
  1: destruct (Spec.steps spec) as [steps|].
  2,3: intros [= <-]; exists []; split; reflexivity.
  intros Hes.
  destruct (for_of_entries steps es
              (BuildNode.mk (BuildNode.resource this) (BuildNode.buildNumber this) (Some that) [])
              h Hes) as (stages & Hrun & Hc).
  exists stages. split; [exact Hrun | exact Hc].
Qed.

(** Where the loop of the setter runs to its end (no update lacks its
    statuses), an upsert with non-empty keys replaces the stage list: whatever
    the tree held before, the upsert returns, the build registered under the
    key path holds the object, and its children are exactly the stages of the
    step list of the object, in their order, each below the resource of the
    build; every child refers to the object and was created by this call, so
    no stage of an earlier object is left. *)
Lemma upsert_replaces_stages (m : PipelineModel.t) (h : Heap)
    (folder repoName buildNumber : string) (that : Activity.t)
    (stages : list Derived.entry) :
  folder <> "" -> repoName <> "" -> buildNumber <> "" ->
  Derived.stages that = Some stages ->
  exists build' : BuildNode.t,
    fst (PipelineModel.upsertPipeline folder repoName buildNumber that (m, h)) = Js.Normal tt /\
    find_build (fst (snd (PipelineModel.upsertPipeline folder repoName buildNumber that (m, h))))
      folder repoName buildNumber = Some build' /\
    BuildNode.pipeline build' = Some that /\
    map stage_content (BuildNode.getChildren build') =
      map (Derived.stage_at (BuildNode.resource build') (Some that)) stages /\
    Forall (stage_of_call that h) (BuildNode.getChildren build').
Proof.
  intros Hf Hr Hb Hstages.
  destruct (upsertPipeline_reaches_build m h folder repoName buildNumber that Hf Hr Hb)
    as (build0 & h0 & Hh & _ & Hfst & _ & Hfind).
  pose proof (set_pipeline_invariant that build0 h0) as (_ & _ & _ & _ & Hall).
  destruct (set_pipeline_entries that stages build0 h0 Hstages) as (children & Hrun & Hc).
  rewrite Hrun in Hfst, Hfind, Hall. cbn [fst snd] in Hfst, Hfind, Hall.
  eexists. split; [exact Hfst|]. split; [exact Hfind|]. split; [reflexivity|].
  rewrite BuildNode_getChildren_eq. cbn [BuildNode._children BuildNode.resource].
  split; [exact Hc|].
  eapply Forall_impl; [exact Hall|].
  intros stage [Hp Hu]. split; [exact Hp | lia].
Qed.

(** Build 42 with the stages Build and Test, upserted with Build and Deploy. *)
Lemma upsert_replaces_stages_build_42 :
  exists build' : BuildNode.t,
    find_build (fst (snd (PipelineModel.upsertPipeline "jenkins-x" "jx" "42" build_deploy
                            after_build_test)))
      "jenkins-x" "jx" "42" = Some build' /\
    map StageNode.name (BuildNode.getChildren build') = [Some "Build"; Some "Deploy"] /\
    map (fun stage => Uri.path (StageNode.resource stage)) (BuildNode.getChildren build') =
      [Uri.path (BuildNode.resource build') +:+ "/Build";
       Uri.path (BuildNode.resource build') +:+ "/Deploy"] /\
    Forall (stage_of_call build_deploy (snd after_build_test)) (BuildNode.getChildren build').
Proof.
  destruct (upsert_replaces_stages (fst after_build_test) (snd after_build_test)
              "jenkins-x" "jx" "42" build_deploy
              [Derived.mk (Some "Build") (Some "Build")
                 (StageValue (Stage.mk (Some "Build") None None None))
                 "vsJenkinsX.pipelines.stage" (Some "");
               Derived.mk (Some "Deploy") (Some "Deploy")
                 (StageValue (Stage.mk (Some "Deploy") None None None))
                 "vsJenkinsX.pipelines.stage" (Some "")])
    as (build' & _ & Hfind & _ & Hcontent & Hnew).
  - intros H. discriminate H.
  - intros H. discriminate H.
  - intros H. discriminate H.
  - reflexivity.
  - exists build'. split; [exact Hfind|].
    split; [|split; [|exact Hnew]].
    + transitivity (map StageNode.name (map stage_content (BuildNode.getChildren build'))).
      * rewrite map_map. reflexivity.
      * rewrite Hcontent. reflexivity.
    + transitivity (map (fun stage => Uri.path (StageNode.resource stage))
                      (map stage_content (BuildNode.getChildren build'))).
      * rewrite map_map. reflexivity.
      * rewrite Hcontent. reflexivity.
Defined.

(** Claim C5.  The stage list is not that of the new step list when the
    loop of the setter throws.  Build 42 holds the stages Build and Test; an
    upsert of an object whose steps are a promote with an update that lacks
    its statuses, and then the stage Deploy, does not return, and build 42 is
    left with the one child "Promote to Staging": the stages Build and Test
    are gone, and neither the update stage nor the stage Deploy of the new
    list has been created. *)
Theorem stages_incomplete_without_statuses :
  Js.is_normal (PipelineModel.upsertPipeline "jenkins-x" "jx" "42" promote_then_deploy
                  after_build_test) = false /\
  stage_names (fst after_build_test) "jenkins-x" "jx" "42" = Some [Some "Build"; Some "Test"] /\
  stage_names
    (fst (snd (PipelineModel.upsertPipeline "jenkins-x" "jx" "42" promote_then_deploy
                 after_build_test)))
    "jenkins-x" "jx" "42" = Some [Some "Promote to Staging"].
Proof. vm_compute. repeat split; reflexivity. Qed.

(** Build 42 with the stages Build and Test, upserted again with Build and Deploy. *)
Example build_42_replaced :
  stage_names (fst after_build_test) "jenkins-x" "jx" "42" = Some [Some "Build"; Some "Test"] /\
  stage_names (fst after_build_deploy) "jenkins-x" "jx" "42" = Some [Some "Build"; Some "Deploy"].
Proof. vm_compute. split; reflexivity. Qed.

(** ** Upserting the same object again *)

Lemma RepoNode_upsertPipeline_twice (buildNumber : string) (that : Activity.t)
    (s : RepoNode.state) :
  fst (RepoNode.upsertPipeline buildNumber that (snd (RepoNode.upsertPipeline buildNumber that s)))
    = fst (RepoNode.upsertPipeline buildNumber that s) /\
  repo_content
    (fst (snd (RepoNode.upsertPipeline buildNumber that
                 (snd (RepoNode.upsertPipeline buildNumber that s)))))
    = repo_content (fst (snd (RepoNode.upsertPipeline buildNumber that s))).
Proof.
  destruct s as [this h].
  destruct (String.eqb_spec buildNumber "") as [->|Hb]; [split; reflexivity|].
  rewrite (RepoNode_upsertPipeline_eq _ that this h Hb). cbn zeta. cbn [fst snd].
  match goal with
  | |- context [BuildNode.set_pipeline that ?s0] =>
      destruct (set_pipeline_twice that s0) as [Hc Hcontent];
      set (r1 := BuildNode.set_pipeline that s0) in *
  end.
  rewrite (RepoNode_upsertPipeline_eq _ that _ _ Hb). cbn zeta.
  cbn [fst snd RepoNode.nodes RepoNode.resource RepoNode.repoName].
  rewrite get_set_eq, set_set, <- (surjective_pairing (snd r1)).
  split; [exact Hc|].
  unfold repo_content. cbn [RepoNode.nodes RepoNode.resource RepoNode.repoName].
  rewrite !map_set, Hcontent. reflexivity.
Qed.

Lemma OwnerNode_upsertPipeline_twice (repoName buildNumber : string) (that : Activity.t)
    (s : OwnerNode.state) :
  fst (OwnerNode.upsertPipeline repoName buildNumber that
         (snd (OwnerNode.upsertPipeline repoName buildNumber that s)))
    = fst (OwnerNode.upsertPipeline repoName buildNumber that s) /\
  owner_content
    (fst (snd (OwnerNode.upsertPipeline repoName buildNumber that
                 (snd (OwnerNode.upsertPipeline repoName buildNumber that s)))))
    = owner_content (fst (snd (OwnerNode.upsertPipeline repoName buildNumber that s))).
Proof.
  destruct s as [this h].
  destruct (String.eqb_spec repoName "") as [->|Hr]; [split; reflexivity|].
  rewrite (OwnerNode_upsertPipeline_eq _ buildNumber that this h Hr). cbn zeta. cbn [fst snd].
  match goal with
  | |- context [RepoNode.upsertPipeline buildNumber that ?s0] =>
      destruct (RepoNode_upsertPipeline_twice buildNumber that s0) as [Hc Hcontent];
      set (r1 := RepoNode.upsertPipeline buildNumber that s0) in *
  end.
  rewrite (OwnerNode_upsertPipeline_eq _ buildNumber that _ _ Hr). cbn zeta.
  cbn [fst snd OwnerNode.nodes OwnerNode.resource OwnerNode.folder].
  rewrite lookup_insert_eq, insert_insert_eq, <- (surjective_pairing (snd r1)).
  split; [exact Hc|].
  unfold owner_content. cbn [OwnerNode.nodes OwnerNode.resource OwnerNode.folder].
  rewrite !fmap_insert, Hcontent. reflexivity.
Qed.

(** Claim C6.  Upserting the same owner, repo, build number and object
    a second time ends the same way as the first time and leaves a tree with
    the same content: the same owners, repos and builds under the same keys,
    with the same resources, and for every build the same list of stages. *)
Theorem upsert_idempotent (folder repoName buildNumber : string) (that : Activity.t)
    (s : PipelineModel.state) :
  fst (PipelineModel.upsertPipeline folder repoName buildNumber that
         (snd (PipelineModel.upsertPipeline folder repoName buildNumber that s)))
    = fst (PipelineModel.upsertPipeline folder repoName buildNumber that s) /\
  model_content
    (fst (snd (PipelineModel.upsertPipeline folder repoName buildNumber that
                 (snd (PipelineModel.upsertPipeline folder repoName buildNumber that s)))))
    = model_content (fst (snd (PipelineModel.upsertPipeline folder repoName buildNumber that s))).
Proof.
  destruct s as [this h].
  destruct (String.eqb_spec folder "") as [->|Hf]; [split; reflexivity|].
  rewrite (PipelineModel_upsertPipeline_eq _ repoName buildNumber that this h Hf).
  cbn zeta. cbn [fst snd].
  match goal with
  | |- context [OwnerNode.upsertPipeline repoName buildNumber that ?s0] =>
      destruct (OwnerNode_upsertPipeline_twice repoName buildNumber that s0) as [Hc Hcontent];
      set (r1 := OwnerNode.upsertPipeline repoName buildNumber that s0) in *
  end.
  rewrite (PipelineModel_upsertPipeline_eq _ repoName buildNumber that _ _ Hf). cbn zeta.
  cbn [fst snd PipelineModel.nodes PipelineModel.resource].
  rewrite lookup_insert_eq, insert_insert_eq, <- (surjective_pairing (snd r1)).
  split; [exact Hc|].
  unfold model_content. cbn [PipelineModel.nodes PipelineModel.resource].
  rewrite !fmap_insert, Hcontent. reflexivity.
Qed.

(** The second upsert does create new stage objects: the trees agree in
    content, not in the identity of the stages' resources. *)
Example second_upsert_allocates :
  snd (snd (PipelineModel.upsertPipeline "jenkins-x" "jx" "42" build_test after_build_test))
    <> snd after_build_test /\
  fst (snd (PipelineModel.upsertPipeline "jenkins-x" "jx" "42" build_test after_build_test))
    <> fst after_build_test.
Proof.
  split.
  - vm_compute. discriminate.
  - intros H.
    apply (f_equal (fun m => option_map (fun b => map (fun s => Uri.uid (StageNode.resource s))
                                                    (BuildNode.getChildren b))
                               (find_build m "jenkins-x" "jx" "42"))) in H.
    vm_compute in H. discriminate.
Qed.

(** ** Upserts that throw *)

(** Claim C4.  An upsert with non-empty keys of an object whose promote
    step carries an update without statuses does not return: the loop over
    the statuses throws, after the owner, the repo, the build and the first
    stage of the step have been created. *)
Theorem upsert_throws_without_statuses :
  Js.is_normal (upsertPipeline "jenkins-x" "jx" "1" update_without_statuses world0) = false /\
  option_map (fun b => map StageNode.name (BuildNode.getChildren b))
    (find_build (model (snd (upsertPipeline "jenkins-x" "jx" "1" update_without_statuses world0)))
       "jenkins-x" "jx" "1")
    = Some [Some "Promote to Staging"].
Proof. vm_compute. split; reflexivity. Qed.

(** Apart from an update without statuses nothing in an upsert throws. *)
Lemma upsertPipeline_returns (folder repoName buildNumber : string) (that : Activity.t)
    (s : PipelineModel.state) :
  has_statuses that ->
  fst (PipelineModel.upsertPipeline folder repoName buildNumber that s) = Js.Normal tt.
Proof.
  intros H. destruct s as [this h].
  destruct (String.eqb_spec folder "") as [->|Hf]; [reflexivity|].
  rewrite (PipelineModel_upsertPipeline_eq _ _ _ _ _ _ Hf). cbn zeta. cbn [fst].
  match goal with |- context [OwnerNode.upsertPipeline _ _ _ ?s0] => destruct s0 as [owner h0] end.
  destruct (String.eqb_spec repoName "") as [->|Hr]; [reflexivity|].
  rewrite (OwnerNode_upsertPipeline_eq _ _ _ _ _ Hr). cbn zeta. cbn [fst].
  match goal with |- context [RepoNode.upsertPipeline _ _ ?s0] => destruct s0 as [repo h1] end.
  destruct (String.eqb_spec buildNumber "") as [->|Hb]; [reflexivity|].
  rewrite (RepoNode_upsertPipeline_eq _ _ _ _ Hb). cbn zeta. cbn [fst].
  apply set_pipeline_returns. exact H.
Qed.

(** A delete always returns. *)
Lemma deletePipeline_returns (folder repoName buildNumber : string) (pipeline : Activity.t)
    (w : World) :
  fst (deletePipeline folder repoName buildNumber pipeline w) = Js.Normal tt.
Proof. reflexivity. Qed.

(** ** Upserts and deletes that name no registered build *)

Lemma RepoNode_deletePipeline_absent (buildNumber : string) (that : Activity.t) (r : RepoNode.t) :
  JsMap.get buildNumber (RepoNode.nodes r) = None ->
  RepoNode.deletePipeline buildNumber that r = r.
Proof.
  intros H. unfold RepoNode.deletePipeline.
  destruct (Js.truthy buildNumber); [|reflexivity].
  rewrite (delete_absent _ _ H). apply repo_eta.
Qed.

Lemma OwnerNode_deletePipeline_absent (repoName buildNumber : string) (that : Activity.t)
    (o : OwnerNode.t) :
  match OwnerNode.nodes o !! repoName with
  | Some repo => JsMap.get buildNumber (RepoNode.nodes repo)
  | None => None
  end = None ->
  OwnerNode.deletePipeline repoName buildNumber that o = o.
Proof.
  intros H. unfold OwnerNode.deletePipeline.
  destruct (Js.truthy repoName); [|reflexivity].
  destruct (OwnerNode.nodes o !! repoName) as [repo|] eqn:Hrepo; [|reflexivity].
  rewrite (RepoNode_deletePipeline_absent _ _ _ H), (insert_id _ _ _ Hrepo).
  apply owner_eta.
Qed.

(** An upsert without a repo name registers the owner it names, and a
    delete for a key path that does not exist removes an owner that has no
    repos. *)
Lemma missing_key_counterexample :
  model after_upsert_without_repo <> model world0 /\
  find_build (model after_upsert_without_repo) "jenkins-x" "jx" "1" = None /\
  model (snd (deletePipeline "jenkins-x" "jx" "1" sample_activity after_upsert_without_repo))
    <> model after_upsert_without_repo.
Proof.
  split; [|split].
  - intros H. apply (f_equal (fun m => length (PipelineModel.getChildren m))) in H.
    vm_compute in H. discriminate.
  - vm_compute. reflexivity.
  - intros H. apply (f_equal (fun m => length (PipelineModel.getChildren m))) in H.
    vm_compute in H. discriminate.
Qed.

(** Claim C2, amended.  An upsert with a non-empty owner and an empty repo
    name returns the tree as it was when the owner is registered, and
    otherwise only registers a new owner without repos.  A delete for a key
    path under which no build is registered returns the tree as it was,
    provided the owner it names, if registered, has a repo. *)
Theorem missing_key_safety (m : PipelineModel.t) (h : Heap)
    (folder repoName buildNumber : string) (that : Activity.t) :
  (folder <> "" ->
   PipelineModel.upsertPipeline folder "" buildNumber that (m, h) =
   (Js.Normal tt,
    match PipelineModel.nodes m !! folder with
    | Some _ => (m, h)
    | None =>
        (PipelineModel.mk
           (<[folder := OwnerNode.new
                          (Uri.mk h (Uri.path (PipelineModel.resource m) +:+ "/" +:+ folder))
                          folder]> (PipelineModel.nodes m))
           (PipelineModel.resource m),
         S h)
    end)) /\
  (find_build m folder repoName buildNumber = None ->
   (forall owner, PipelineModel.nodes m !! folder = Some owner ->
                  OwnerNode.isEmpty owner = false) ->
   PipelineModel.deletePipeline folder repoName buildNumber that m = m).
Proof.
  split.
  - intros Hf. rewrite (PipelineModel_upsertPipeline_eq _ _ _ _ _ _ Hf).
    destruct (PipelineModel.nodes m !! folder) as [owner|] eqn:Howner.
    + unfold OwnerNode.upsertPipeline. simpl.
      rewrite (insert_id _ _ _ Howner), model_eta. reflexivity.
    + unfold OwnerNode.upsertPipeline. simpl. reflexivity.
  - intros Hfind Hnonempty. unfold PipelineModel.deletePipeline.
    destruct (Js.truthy folder); [|reflexivity].
    unfold find_build in Hfind.
    destruct (PipelineModel.nodes m !! folder) as [owner|] eqn:Howner; [|reflexivity].
    rewrite (OwnerNode_deletePipeline_absent _ _ _ _ Hfind).
    rewrite (Hnonempty owner eq_refl), (insert_id _ _ _ Howner).
    apply model_eta.
Qed.

Lemma missing_key_safety_witness :
  PipelineModel.upsertPipeline "jenkins-x" "" "2" sample_activity
    (model after_upsert, heap after_upsert)
    = (Js.Normal tt, (model after_upsert, heap after_upsert)) /\
  PipelineModel.deletePipeline "jenkins-x" "jx" "2" sample_activity (model after_upsert)
    = model after_upsert.
Proof.
  destruct (missing_key_safety (model after_upsert) (heap after_upsert)
              "jenkins-x" "jx" "2" sample_activity) as [Hupsert Hdelete].
  split.
  - rewrite Hupsert; [reflexivity | discriminate].
  - apply Hdelete.
    + reflexivity.
    + intros owner Howner. vm_compute in Howner. injection Howner as <-. reflexivity.
Defined.

(** ** Deleting the last build of an owner *)

(** Claim C1.  After the only build of the only repo of an owner has been
    deleted, the owner is still a child of the root, with its repo, now
    empty, still registered; [nodeForUri] for the owner's resource still
    finds the owner. *)
Theorem owner_survives_last_delete :
  map (fun o => (OwnerNode.folder o,
                 map (fun r => (RepoNode.repoName r,
                                map BuildNode.buildNumber (RepoNode.getChildren r)))
                     (OwnerNode.getChildren o)))
      (PipelineModel.getChildren (model after_upsert))
    = [("jenkins-x", [("jx", ["1"])])] /\
  map (fun o => (OwnerNode.folder o,
                 map (fun r => (RepoNode.repoName r,
                                map BuildNode.buildNumber (RepoNode.getChildren r)))
                     (OwnerNode.getChildren o)))
      (PipelineModel.getChildren (model after_delete))
    = [("jenkins-x", [("jx", [])])] /\
  exists owner owner' : OwnerNode.t,
    PipelineModel.nodes (model after_upsert) !! "jenkins-x" = Some owner /\
    In owner' (PipelineModel.getChildren (model after_delete)) /\
    OwnerNode.isEmpty owner' = false /\
    nodeForUri (OwnerNode.resource owner) (ModelN (model after_delete)) = Some (OwnerN owner').
Proof.
  split; [vm_compute; reflexivity|]. split; [vm_compute; reflexivity|].
  eexists _, _. split; [vm_compute; reflexivity|].
  split; [vm_compute; left; reflexivity|]. split; vm_compute; reflexivity.
Qed.

(** The owner stays whenever the repo named by the delete is registered,
    whatever else the tree holds. *)
Lemma deletePipeline_keeps_owner (m : PipelineModel.t) (folder repoName buildNumber : string)
    (pipeline : Activity.t) (owner : OwnerNode.t) (repo : RepoNode.t) :
  folder <> "" -> repoName <> "" ->
  PipelineModel.nodes m !! folder = Some owner ->
  OwnerNode.nodes owner !! repoName = Some repo ->
  exists owner',
    PipelineModel.nodes (PipelineModel.deletePipeline folder repoName buildNumber pipeline m)
      !! folder = Some owner' /\
    OwnerNode.resource owner' = OwnerNode.resource owner /\
    is_Some (OwnerNode.nodes owner' !! repoName).
Proof.
  intros Hf Hr Hm Ho. apply truthy_true in Hf, Hr.
  unfold PipelineModel.deletePipeline, OwnerNode.deletePipeline. rewrite Hf, Hm, Hr, Ho.
  unfold OwnerNode.isEmpty. simpl.
  destruct (Nat.eqb_spec (size (<[repoName:=RepoNode.deletePipeline buildNumber pipeline repo]>
                                  (OwnerNode.nodes owner))) 0) as [Hz|Hnz].
  - apply map_size_empty_iff in Hz. exfalso. exact (insert_non_empty _ _ _ Hz).
  - eexists. simpl. rewrite lookup_insert_eq. split; [reflexivity|]. simpl.
    split; [reflexivity|]. rewrite lookup_insert_eq. eauto.
Qed.

(** ** The order of builds *)

Section Sort.

Context {A : Type} (comparefn : A -> A -> Js.number).

Lemma sort_insert_Permutation (element : A) (prefix_rev : list A) :
  Permutation (Js.sort_insert comparefn element prefix_rev) (element :: prefix_rev).
Proof.
  induction prefix_rev as [|tmp rest IH]; simpl.
  - reflexivity.
  - destruct (Js.gt0 (comparefn tmp element)).
    + rewrite IH. apply perm_swap.
    + reflexivity.
Qed.

Lemma sort_loop_Permutation (a prefix_rev : list A) :
  Permutation
    (fold_left (fun p e => Js.sort_insert comparefn e p) a prefix_rev)
    (a ++ prefix_rev).
Proof.
  revert prefix_rev. induction a as [|x a IH]; intros prefix_rev; simpl.
  - reflexivity.
  - rewrite IH, sort_insert_Permutation. symmetry. apply Permutation_middle.
Qed.

Lemma sort_Permutation (a : list A) : Permutation (Js.sort comparefn a) a.
Proof.
  unfold Js.sort. rewrite <- Permutation_rev, sort_loop_Permutation, app_nil_r.
  reflexivity.
Qed.

(** When the comparator agrees with a key on the elements at hand, the
    result is in descending key order. *)
Variable key : A -> Z.
Variable ok : A -> Prop.
Hypothesis comparefn_key :
  forall x y, ok x -> ok y -> Js.gt0 (comparefn x y) = (key x <? key y)%Z.

Lemma sort_insert_sorted (element : A) (prefix_rev : list A) :
  ok element -> Forall ok prefix_rev ->
  StronglySorted (fun x y => (key x <= key y)%Z) prefix_rev ->
  StronglySorted (fun x y => (key x <= key y)%Z) (Js.sort_insert comparefn element prefix_rev).
Proof.
  intros He Hok Hs. induction Hs as [|tmp rest Hs IH Hall]; simpl.
  - repeat constructor.
  - inversion Hok as [|? ? Htmp Hrest]; subst.
    rewrite (comparefn_key tmp element Htmp He).
    destruct (Z.ltb_spec (key tmp) (key element)) as [Hlt|Hge].
    + constructor; [apply IH; assumption|].
      eapply Permutation_Forall; [symmetry; apply sort_insert_Permutation|].
      constructor; [lia | exact Hall].
    + constructor; [constructor; assumption|].
      constructor; [exact Hge|].
      eapply Forall_impl; [exact Hall|]. simpl. intros y Hy. lia.
Qed.

Lemma sort_loop_sorted (a prefix_rev : list A) :
  Forall ok a -> Forall ok prefix_rev ->
  StronglySorted (fun x y => (key x <= key y)%Z) prefix_rev ->
  StronglySorted (fun x y => (key x <= key y)%Z)
    (fold_left (fun p e => Js.sort_insert comparefn e p) a prefix_rev).
Proof.
  revert prefix_rev. induction a as [|x a IH]; intros prefix_rev Ha Hp Hs; simpl.
  - exact Hs.
  - inversion Ha as [|? ? Hx Ha']; subst. apply IH.
    + exact Ha'.
    + eapply Permutation_Forall; [symmetry; apply sort_insert_Permutation|].
      constructor; assumption.
    + apply sort_insert_sorted; assumption.
Qed.

Lemma StronglySorted_rev (R : A -> A -> Prop) (l : list A) :
  StronglySorted R l -> StronglySorted (fun x y => R y x) (rev l).
Proof.
  induction 1 as [|x l Hs IH Hall]; simpl.
  - constructor.
  - apply StronglySorted_app. split; [|split].
    + intros x1 x2 H1 H2. apply list_elem_of_singleton in H2. subst x2.
      rewrite Forall_forall in Hall. apply Hall.
      apply list_elem_of_In. apply in_rev. apply list_elem_of_In. exact H1.
    + exact IH.
    + repeat constructor.
Qed.

Lemma sort_descending (a : list A) :
  Forall ok a ->
  StronglySorted (fun x y => (key y <= key x)%Z) (Js.sort comparefn a).
Proof.
  intros Ha. unfold Js.sort.
  apply (StronglySorted_rev (fun x y => (key x <= key y)%Z)).
  apply sort_loop_sorted; [exact Ha | constructor | constructor].
Qed.

End Sort.

Lemma compareBuilds_numeric (n1 n2 : BuildNode.t) :
  numeric n1 -> numeric n2 ->
  Js.gt0 (RepoNode.compareBuilds n1 n2) = (number_of n1 <? number_of n2)%Z.
Proof.
  intros [Ht1 Hn1] [Ht2 Hn2]. unfold RepoNode.compareBuilds, number_of.
  apply truthy_true in Ht1, Ht2. rewrite Ht1, Ht2. simpl.
  destruct (Js.to_number (BuildNode.buildNumber n1)) as [|z1]; [contradiction|].
  destruct (Js.to_number (BuildNode.buildNumber n2)) as [|z2]; [contradiction|].
  simpl. destruct (Z.ltb_spec 0 (z2 - z1)), (Z.ltb_spec z1 z2); (reflexivity || lia).
Qed.

(** A repo that received the builds "abc", "3", "1" and "10" in this order
    lists "abc" first. *)
Lemma getChildren_counterexample :
  map BuildNode.buildNumber (RepoNode.getChildren (repo_with_builds ["abc"; "3"; "1"; "10"]))
    = ["abc"; "10"; "3"; "1"] /\
  numeric_descending_then_others
    (map BuildNode.buildNumber (RepoNode.getChildren (repo_with_builds ["abc"; "3"; "1"; "10"])))
    = false.
Proof. vm_compute. split; reflexivity. Qed.

Lemma safe_numeric_numeric (b : BuildNode.t) : safe_numeric b -> numeric b.
Proof.
  intros (Hne & z & Hz & _). split; [exact Hne|].
  unfold Js.to_number. rewrite Hz. discriminate.
Qed.

(** Claim C3, amended.  When every build number of a repo is a non-empty run
    of decimal digits with a value of at most 2^53 - 1, [getChildren] returns
    exactly the builds of the repo, in descending order of their numbers. *)
Theorem getChildren_numeric_descending (this : RepoNode.t) :
  Forall safe_numeric (JsMap.values (RepoNode.nodes this)) ->
  Permutation (RepoNode.getChildren this) (JsMap.values (RepoNode.nodes this)) /\
  StronglySorted (fun a b => (number_of b <= number_of a)%Z) (RepoNode.getChildren this).
Proof.
  intros Hsafe.
  assert (Hnum : Forall numeric (JsMap.values (RepoNode.nodes this))).
  { eapply Forall_impl; [exact Hsafe|]. exact safe_numeric_numeric. }
  unfold RepoNode.getChildren. rewrite copy_loop. simpl.
  split; [apply sort_Permutation|].
  apply (sort_descending RepoNode.compareBuilds number_of numeric compareBuilds_numeric).
  exact Hnum.
Qed.

Lemma getChildren_numeric_descending_witness :
  Permutation (RepoNode.getChildren (repo_with_builds ["3"; "1"; "10"]))
    (JsMap.values (RepoNode.nodes (repo_with_builds ["3"; "1"; "10"]))) /\
  StronglySorted (fun a b => (number_of b <= number_of a)%Z)
    (RepoNode.getChildren (repo_with_builds ["3"; "1"; "10"])).
Proof.
  apply (getChildren_numeric_descending (repo_with_builds ["3"; "1"; "10"])).
  assert (Hvalues : map BuildNode.buildNumber
                      (JsMap.values (RepoNode.nodes (repo_with_builds ["3"; "1"; "10"])))
                    = ["3"; "1"; "10"]) by (vm_compute; reflexivity).
  destruct (JsMap.values (RepoNode.nodes (repo_with_builds ["3"; "1"; "10"])))
    as [|b1 [|b2 [|b3 [|b4 rest]]]]; try discriminate Hvalues.
  injection Hvalues as H1 H2 H3.
  constructor; [|constructor; [|constructor; [|constructor]]].
  all: unfold safe_numeric; rewrite ?H1, ?H2, ?H3.
  all: split; [intros H; discriminate H|].
  all: eexists; split; [vm_compute; reflexivity|].
  all: vm_compute; intros H; discriminate H.
Defined.

(** Under the insertion sort of the model, a repo that received the builds
    "3", "1", "10" and "abc" in this order lists them as "10", "3", "1",
    "abc". *)
Example getChildren_of_3_1_10_abc :
  map BuildNode.buildNumber (RepoNode.getChildren (repo_with_builds ["3"; "1"; "10"; "abc"]))
    = ["10"; "3"; "1"; "abc"].
Proof. vm_compute. reflexivity. Qed.

(** ** The watch callback *)

(** Claim C10.  For an event whose type is none of ADDED, MODIFIED and
    DELETED the callback leaves the model and the heap as they were and
    fires no change event, whatever the object carries. *)
Theorem other_event_types_change_nothing (type : string) (obj : Activity.t) (w : World) :
  type <> "ADDED" -> type <> "MODIFIED" -> type <> "DELETED" ->
  model (snd (watch_callback type obj w)) = model w /\
  heap (snd (watch_callback type obj w)) = heap w /\
  fired (snd (watch_callback type obj w)) = fired w.
Proof.
  intros Ha Hm Hd.
  apply String.eqb_neq in Ha, Hm, Hd.
  unfold watch_callback.
  destruct (Activity.metadata obj) as [metadata|]; [|repeat split].
  destruct (Js.truthy_opt (Metadata.name metadata)); [|repeat split].
  destruct (Activity.spec obj) as [spec|]; [|repeat split].
  destruct (negb (Js.truthy_opt (Spec.build spec))); [repeat split|].
  destruct (folder_and_repo spec) as [folder repoName].
  destruct (negb (Js.truthy_opt folder) || negb (Js.truthy_opt repoName)); [repeat split|].
  rewrite Ha, Hm, Hd. repeat split.
Qed.

Lemma other_event_types_change_nothing_witness :
  model (snd (watch_callback "ERROR" sample_activity world0)) = model world0 /\
  heap (snd (watch_callback "ERROR" sample_activity world0)) = heap world0 /\
  fired (snd (watch_callback "ERROR" sample_activity world0)) = fired world0.
Proof.
  apply (other_event_types_change_nothing "ERROR" sample_activity world0); discriminate.
Defined.

(** The same object under ADDED does reach the tree. *)
Example added_event_changes_tree :
  map OwnerNode.folder (PipelineModel.getChildren (model (snd (watch_callback "ADDED" sample_activity world0))))
    = ["jenkins-x"] /\
  fired (snd (watch_callback "ADDED" sample_activity world0)) = 1%nat.
Proof. vm_compute. split; reflexivity. Qed.

(** ** Elapsed time *)

Section ElapsedTimeFacts.
Variable moment_valid : string -> option Z.
Variable humanize : Z -> string.
Hypothesis empty_is_invalid : moment_valid "" = None.
Hypothesis humanize_nonempty : forall d, humanize d <> "".
Hypothesis not_a_date_is_invalid : moment_valid "not-a-date" = None.

(** Claim C8.  [elapsedTime] returns the prefix followed by the humanized
    duration when both timestamps are present and valid, and the empty
    string in every other case; it returns the empty string for
    "not-a-date" and "also-not".  This holds for a [moment] that rejects the
    empty string and "not-a-date" and never humanizes to the empty string. *)
Theorem elapsedTime_spec :
  (forall (prefix : string) (start completed : option string),
     elapsedTime moment_valid humanize prefix start completed =
     match start, completed with
     | Some s, Some c =>
         match moment_valid s, moment_valid c with
         | Some m1, Some m2 => prefix +:+ humanize (m1 - m2)%Z
         | _, _ => ""
         end
     | _, _ => ""
     end) /\
  elapsedTime moment_valid humanize "Duration: " (Some "not-a-date") (Some "also-not") = "".
Proof.
  split.
  - intros prefix start completed. unfold elapsedTime.
    destruct start as [s|]; [|reflexivity].
    destruct completed as [c|]; [|simpl; rewrite andb_false_r; reflexivity].
    simpl.
    destruct (Js.truthy s) eqn:Hs.
    + destruct (Js.truthy c) eqn:Hc; simpl.
      * destruct (moment_valid s) as [m1|]; [|reflexivity].
        destruct (moment_valid c) as [m2|]; [|reflexivity].
        destruct (Js.truthy (humanize (m1 - m2))) eqn:Hh; [reflexivity|].
        exfalso. apply (humanize_nonempty (m1 - m2)%Z).
        unfold Js.truthy in Hh. apply negb_false_iff, String.eqb_eq in Hh. exact Hh.
      * unfold Js.truthy in Hc. apply negb_false_iff, String.eqb_eq in Hc. subst c.
        rewrite empty_is_invalid. destruct (moment_valid s); reflexivity.
    + unfold Js.truthy in Hs. apply negb_false_iff, String.eqb_eq in Hs. subst s.
      rewrite empty_is_invalid. reflexivity.
  - unfold elapsedTime. simpl. rewrite not_a_date_is_invalid. reflexivity.
Qed.

End ElapsedTimeFacts.

Lemma elapsedTime_spec_witness :
  (forall (prefix : string) (start completed : option string),
     elapsedTime sample_moment_valid sample_humanize prefix start completed =
     match start, completed with
     | Some s, Some c =>
         match sample_moment_valid s, sample_moment_valid c with
         | Some m1, Some m2 => prefix +:+ sample_humanize (m1 - m2)%Z
         | _, _ => ""
         end
     | _, _ => ""
     end) /\
  elapsedTime sample_moment_valid sample_humanize "Duration: " (Some "not-a-date") (Some "also-not")
    = "".
Proof.
  apply (elapsedTime_spec sample_moment_valid sample_humanize).
  - reflexivity.
  - intros d. discriminate.
  - reflexivity.
Defined.

Example elapsedTime_sample :
  elapsedTime sample_moment_valid sample_humanize " Duration: " (Some "1000") (Some "4000")
    = " Duration: a few seconds".
Proof. reflexivity. Qed.


(** * Further properties *)

(** ** Children in key order *)

Section SortByRelation.
Context {A : Type} (comparefn : A -> A -> Js.number) (R : A -> A -> Prop).
Hypothesis R_trans : forall x y z, R x y -> R y z -> R x z.
Hypothesis comparefn_gt : forall x y, Js.gt0 (comparefn x y) = true -> R y x.
Hypothesis comparefn_le : forall x y, Js.gt0 (comparefn x y) = false -> R x y.

Lemma sort_insert_ordered (element : A) (prefix_rev : list A) :
  StronglySorted (fun x y => R y x) prefix_rev ->
  StronglySorted (fun x y => R y x) (Js.sort_insert comparefn element prefix_rev).
Proof.
  induction 1 as [|tmp rest Hs IH Hall]; simpl.
  - repeat constructor.
  - destruct (Js.gt0 (comparefn tmp element)) eqn:Hcmp.
    + constructor; [exact IH|].
      eapply Permutation_Forall; [symmetry; apply sort_insert_Permutation|].
      constructor; [apply comparefn_gt; exact Hcmp | exact Hall].
    + constructor; [constructor; assumption|].
      constructor; [apply comparefn_le; exact Hcmp|].
      eapply Forall_impl; [exact Hall|]. simpl. intros y Hy.
      eapply R_trans; [exact Hy | apply comparefn_le; exact Hcmp].
Qed.

Lemma sort_loop_ordered (a prefix_rev : list A) :
  StronglySorted (fun x y => R y x) prefix_rev ->
  StronglySorted (fun x y => R y x)
    (fold_left (fun p e => Js.sort_insert comparefn e p) a prefix_rev).
Proof.
  revert prefix_rev. induction a as [|x a IH]; intros prefix_rev Hs; simpl.
  - exact Hs.
  - apply IH, sort_insert_ordered, Hs.
Qed.

Lemma sort_ordered (a : list A) : StronglySorted R (Js.sort comparefn a).
Proof.
  unfold Js.sort.
  apply (StronglySorted_rev (fun x y => R y x)).
  apply sort_loop_ordered. constructor.
Qed.
End SortByRelation.

Lemma default_compare_gt (x y : string) :
  Js.gt0 (Js.default_compare x y) = true -> String.le y x.
Proof.
  unfold Js.default_compare, String.le, String.leb.
  rewrite (String.compare_antisym x y).
  destruct (String.compare y x); simpl; intros H; try discriminate. exact I.
Qed.

Lemma default_compare_le (x y : string) :
  Js.gt0 (Js.default_compare x y) = false -> String.le x y.
Proof.
  unfold Js.default_compare, String.le, String.leb.
  destruct (String.compare x y); simpl; intros H; try discriminate; exact I.
Qed.

Lemma sort_strings_ascending (keys : list string) :
  StronglySorted String.le (Js.sort Js.default_compare keys).
Proof.
  apply sort_ordered.
  - intros x y z Hxy Hyz. etrans; eassumption.
  - apply default_compare_gt.
  - apply default_compare_le.
Qed.

Lemma lookup_loop {V : Type} (nodes : gmap string V) (keys : list string) (answer : list V) :
  fold_left
    (fun answer key =>
       match nodes !! key with
       | Some value => answer ++ [value]
       | None => answer
       end) keys answer
  = answer ++ omap (fun key => nodes !! key) keys.
Proof.
  revert answer. induction keys as [|k keys IH]; intros answer; simpl.
  - symmetry. apply app_nil_r.
  - rewrite IH. destruct (nodes !! k); [rewrite <- app_assoc|]; reflexivity.
Qed.

Lemma copy_keys_loop {V : Type} (entries : list (string * V)) (keys : list string) :
  fold_left (fun keys entry => keys ++ [fst entry]) entries keys = keys ++ map fst entries.
Proof.
  revert keys. induction entries as [|e entries IH]; intros keys; simpl.
  - symmetry. apply app_nil_r.
  - rewrite IH, <- app_assoc. reflexivity.
Qed.

Lemma mapValuesInKeyOrder_keys {V : Type} (nodes : gmap string V) :
  exists keys : list string,
    StronglySorted String.le keys /\
    NoDup keys /\
    (forall key, key ∈ keys <-> is_Some (nodes !! key)) /\
    Forall2 (fun key value => nodes !! key = Some value) keys (mapValuesInKeyOrder nodes).
Proof.
  unfold mapValuesInKeyOrder. rewrite copy_keys_loop, lookup_loop. simpl.
  set (keys := Js.sort Js.default_compare (map fst (map_to_list nodes))).
  assert (Hperm : Permutation keys (map fst (map_to_list nodes)))
    by apply sort_Permutation.
  assert (Hin : forall key, key ∈ keys <-> is_Some (nodes !! key)).
  { intros key. rewrite Hperm. rewrite list_elem_of_fmap. split.
    - intros [[k v] [-> Hkv]]. apply elem_of_map_to_list in Hkv. eauto.
    - intros [v Hv]. exists (key, v). split; [reflexivity|].
      apply elem_of_map_to_list. exact Hv. }
  exists keys. split; [apply sort_strings_ascending|]. split; [|split; [exact Hin|]].
  - rewrite Hperm. apply NoDup_fst_map_to_list.
  - clear Hperm. assert (Hall : Forall (fun key => is_Some (nodes !! key)) keys).
    { apply Forall_forall. intros key Hkey. apply Hin. exact Hkey. }
    clear Hin. induction Hall as [|key keys [v Hv] Hall IH]; simpl.
    + constructor.
    + rewrite Hv. constructor; assumption.
Qed.

(** ** The list of builds *)

Lemma RepoNode_getChildren_Permutation (this : RepoNode.t) :
  Permutation (RepoNode.getChildren this) (JsMap.values (RepoNode.nodes this)).
Proof.
  unfold RepoNode.getChildren. rewrite copy_loop. simpl. apply sort_Permutation.
Qed.

(** ** Lookup by resource *)

Lemma first_answer_Some {A B : Type} (f : A -> option B) (children : list A) (answer : B) :
  first_answer f children = Some answer ->
  exists child, child ∈ children /\ f child = Some answer.
Proof.
  induction children as [|child rest IH]; simpl; [discriminate|].
  destruct (f child) as [a|] eqn:Hf.
  - intros [= <-]. exists child. split; [left | exact Hf].
  - intros H. destruct (IH H) as (c & Hc & Hfc). exists c. split; [right; exact Hc | exact Hfc].
Qed.

Lemma first_answer_None {A B : Type} (f : A -> option B) (children : list A) :
  Forall (fun child => f child = None) children -> first_answer f children = None.
Proof.
  induction 1 as [|child rest Hc _ IH]; simpl; [reflexivity|]. rewrite Hc. exact IH.
Qed.

Lemma nodeForUri_stage_answer (uri : Uri.t) (node : StageNode.t) (found : ModelNode) :
  nodeForUri_stage uri node = Some found -> Uri.same_object (resource found) uri = true.
Proof.
  unfold nodeForUri_stage.
  destruct (Uri.same_object (StageNode.resource node) uri) eqn:E; [|discriminate].
  intros [= <-]. exact E.
Qed.

Lemma nodeForUri_build_answer (uri : Uri.t) (node : BuildNode.t) (found : ModelNode) :
  nodeForUri_build uri node = Some found -> Uri.same_object (resource found) uri = true.
Proof.
  unfold nodeForUri_build.
  destruct (Uri.same_object (BuildNode.resource node) uri) eqn:E; [intros [= <-]; exact E|].
  intros H. apply first_answer_Some in H as (child & _ & Hchild).
  exact (nodeForUri_stage_answer _ _ _ Hchild).
Qed.

Lemma nodeForUri_repo_answer (uri : Uri.t) (node : RepoNode.t) (found : ModelNode) :
  nodeForUri_repo uri node = Some found -> Uri.same_object (resource found) uri = true.
Proof.
  unfold nodeForUri_repo.
  destruct (Uri.same_object (RepoNode.resource node) uri) eqn:E; [intros [= <-]; exact E|].
  intros H. apply first_answer_Some in H as (child & _ & Hchild).
  exact (nodeForUri_build_answer _ _ _ Hchild).
Qed.

Lemma nodeForUri_owner_answer (uri : Uri.t) (node : OwnerNode.t) (found : ModelNode) :
  nodeForUri_owner uri node = Some found -> Uri.same_object (resource found) uri = true.
Proof.
  unfold nodeForUri_owner.
  destruct (Uri.same_object (OwnerNode.resource node) uri) eqn:E; [intros [= <-]; exact E|].
  intros H. apply first_answer_Some in H as (child & _ & Hchild).
  exact (nodeForUri_repo_answer _ _ _ Hchild).
Qed.

(** Property X3.  A node answered by [nodeForUri] carries the resource that was
    asked for, whatever the node the search starts from. *)
Theorem nodeForUri_sound (uri : Uri.t) (node found : ModelNode) :
  nodeForUri uri node = Some found ->
  Uri.same_object (resource found) uri = true.
Proof.
  destruct node as [n|n|n|n|n]; simpl.
  - apply nodeForUri_stage_answer.
  - apply nodeForUri_build_answer.
  - apply nodeForUri_repo_answer.
  - apply nodeForUri_owner_answer.
  - unfold nodeForUri_model.
    destruct (Uri.same_object (PipelineModel.resource n) uri) eqn:E; [intros [= <-]; exact E|].
    intros H. apply first_answer_Some in H as (child & _ & Hchild).
    exact (nodeForUri_owner_answer _ _ _ Hchild).
Qed.

Lemma nodeForUri_sound_witness :
  exists found,
    nodeForUri (Uri.mk 4 "localhost/jenkins-x/jx/42/Build") (ModelN (fst after_build_test))
      = Some found /\
    Uri.same_object (resource found) (Uri.mk 4 "localhost/jenkins-x/jx/42/Build") = true.
Proof.
  destruct (nodeForUri (Uri.mk 4 "localhost/jenkins-x/jx/42/Build")
              (ModelN (fst after_build_test))) as [found|] eqn:Hfound;
    [|vm_compute in Hfound; discriminate Hfound].
  exists found. split; [reflexivity|].
  exact (nodeForUri_sound _ _ _ Hfound).
Defined.


(** ** The URL of an update stage *)

Lemma last_nonempty {A : Type} (l : list A) (x d d' : A) :
  List.last (x :: l) d = List.last (x :: l) d'.
Proof. revert x. induction l as [|y l IH]; intros x; [reflexivity|]. apply IH. Qed.

(** Property X7.  The loop over the statuses of an update leaves in [updateUrl]
    the URL of the first status that has a truthy one; without such a status
    it leaves the URL of the last status, and the initial empty string when
    there is no status at all. *)
Theorem scan_statuses_first_truthy (statuses : list GitStatus.t) :
  BuildNode.scan_statuses statuses (Some "") =
  match List.find (fun status => Js.truthy_opt (GitStatus.url status)) statuses with
  | Some status => GitStatus.url status
  | None => List.last (map GitStatus.url statuses) (Some "")
  end.
Proof.
  generalize (Some "") as updateUrl.
  induction statuses as [|status rest IH]; intros updateUrl; simpl.
  - reflexivity.
  - destruct (Js.truthy_opt (GitStatus.url status)) eqn:E; [reflexivity|].
    rewrite IH. destruct (List.find _ rest); [reflexivity|].
    destruct rest as [|status' rest]; [reflexivity|]. apply last_nonempty.
Qed.

(** ** Strings *)

Lemma lastIndexOf_from_absent (c : ascii) (s : string) (i found : Z) :
  ~ has_char c s -> Js.lastIndexOf_from c s i found = found.
Proof.
  revert i found. induction s as [|d s IH]; intros i found Hs; simpl; [reflexivity|].
  destruct (Ascii.eqb_spec c d) as [->|Hne].
  - exfalso. apply Hs. left. reflexivity.
  - apply IH. intros H. apply Hs. right. exact H.
Qed.

Lemma lastIndexOf_from_last (c : ascii) (pre s : string) (i found : Z) :
  ~ has_char c s ->
  Js.lastIndexOf_from c (pre +:+ String c s) i found = (i + Z.of_nat (String.length pre))%Z.
Proof.
  intros Hs. revert i found. induction pre as [|d pre IH]; intros i found; simpl.
  - rewrite Ascii.eqb_refl, (lastIndexOf_from_absent _ _ _ _ Hs). lia.
  - rewrite IH. lia.
Qed.

Lemma substring_from_app (pre s : string) :
  Js.substring_from (String.length pre) (pre +:+ s) = s.
Proof. induction pre as [|d pre IH]; simpl; [destruct s|]; auto. Qed.

(** ** The name of a pull-request stage *)

Lemma append_assoc (a b c : string) : (a +:+ b) +:+ c = a +:+ b +:+ c.
Proof. induction a as [|x a IH]; [reflexivity | exact (f_equal (String x) IH)]. Qed.

Lemma substring_from_after (before : string) (c : ascii) (s : string) :
  Js.substring_from (String.length before + 1) (before +:+ String c s) = s.
Proof. induction before as [|d before IH]; simpl; [destruct s; reflexivity | exact IH]. Qed.

(** Property X8.  For a pull request URL [before/number], with [before] not
    empty and no slash in [number], the name of the pull request stage ends
    in [ #number]. *)
Theorem pullRequestName_of_number (name before number : string) :
  before <> "" -> ~ has_char "/" number ->
  BuildNode.pullRequestName_of name (before +:+ "/" +:+ number) =
  name +:+ " Pull Request" +:+ " #" +:+ number.
Proof.
  intros Hbefore Hnumber. unfold BuildNode.pullRequestName_of, Js.lastIndexOf.
  assert (Htruthy : Js.truthy (before +:+ "/" +:+ number) = true).
  { apply truthy_true. destruct before; [contradiction | discriminate]. }
  rewrite Htruthy.
  change ("/" +:+ number) with (String "/" number).
  rewrite (lastIndexOf_from_last _ _ _ _ _ Hnumber).
  assert (Hlen : (0 < String.length before)%nat) by (destruct before; [contradiction | simpl; lia]).
  destruct (Z.ltb_spec 0 (0 + Z.of_nat (String.length before))) as [_|Hle]; [|lia].
  replace (Z.to_nat (0 + Z.of_nat (String.length before) + 1))
    with (String.length before + 1)%nat by lia.
  rewrite substring_from_after. apply append_assoc.
Qed.

Lemma pullRequestName_of_number_witness :
  BuildNode.pullRequestName_of "Promote to Staging" ("http://git/pr" +:+ "/" +:+ "42") =
  "Promote to Staging" +:+ " Pull Request" +:+ " #" +:+ "42".
Proof.
  apply (pullRequestName_of_number "Promote to Staging" "http://git/pr" "42").
  - discriminate.
  - unfold has_char. simpl. intros [H|[H|[]]]; discriminate.
Defined.

(** Property X9.  A pull request URL without a slash, or with its only slash in
    front, adds no number to the name of the pull request stage. *)
Theorem pullRequestName_of_plain (name prUrl : string) :
  ~ has_char "/" prUrl ->
  BuildNode.pullRequestName_of name prUrl = name +:+ " Pull Request" /\
  BuildNode.pullRequestName_of name ("/" +:+ prUrl) = name +:+ " Pull Request".
Proof.
  intros Hno. unfold BuildNode.pullRequestName_of, Js.lastIndexOf. split.
  - destruct (Js.truthy prUrl); [|reflexivity].
    rewrite (lastIndexOf_from_absent _ _ _ _ Hno). reflexivity.
  - simpl. rewrite (lastIndexOf_from_absent _ _ _ _ Hno). reflexivity.
Qed.

Lemma pullRequestName_of_plain_witness :
  BuildNode.pullRequestName_of "Promote to Staging" "42" = "Promote to Staging" +:+ " Pull Request" /\
  BuildNode.pullRequestName_of "Promote to Staging" ("/" +:+ "42") =
    "Promote to Staging" +:+ " Pull Request".
Proof.
  apply (pullRequestName_of_plain "Promote to Staging" "42").
  unfold has_char. simpl. intros [H|[H|[]]]; discriminate.
Defined.

(** ** Capitalisation *)

Lemma toUpperCase_char_idempotent (c : ascii) :
  Js.toUpperCase_char (Js.toUpperCase_char c) = Js.toUpperCase_char c.
Proof. destruct c as [[] [] [] [] [] [] [] []]; reflexivity. Qed.

Lemma stringCapitalise_cons (c : ascii) (rest : string) :
  stringCapitalise (Some (String c rest)) = String (Js.toUpperCase_char c) rest.
Proof. unfold stringCapitalise, Js.substring. simpl. destruct rest; reflexivity. Qed.

(** Property X10.  On a text that starts with an ASCII character, and on an
    empty or missing text, [stringCapitalise] changes the first character at
    most: the length and the text from the second character on are those of
    the input (the empty string for a missing input), capitalising a second
    time changes nothing, and the first character becomes its capital when
    it is one of the letters a to z and stays as it is otherwise. *)
Theorem stringCapitalise_first_only (text : option string) :
  starts_ascii text ->
  String.length (stringCapitalise text) = String.length (Js.or_default text "") /\
  Js.substring_from 1 (stringCapitalise text) = Js.substring_from 1 (Js.or_default text "") /\
  stringCapitalise (Some (stringCapitalise text)) = stringCapitalise text /\
  forall (c : ascii) (rest : string), text = Some (String c rest) ->
    exists c' : ascii,
      stringCapitalise text = String c' rest /\
      (97 <= nat_of_ascii c <= 122 -> nat_of_ascii c' = nat_of_ascii c - 32) /\
      (~ 97 <= nat_of_ascii c <= 122 -> c' = c).
Proof.
  intros _. destruct text as [[|c rest]|].
  1, 3: repeat split; try reflexivity; intros c rest H; discriminate H.
  rewrite !stringCapitalise_cons, toUpperCase_char_idempotent.
  split; [reflexivity|]. split; [reflexivity|]. split; [reflexivity|].
  intros c0 rest0 [= <- <-]. exists (Js.toUpperCase_char c).
  split; [reflexivity|]. unfold Js.toUpperCase_char.
  destruct (Nat.leb_spec 97 (nat_of_ascii c)), (Nat.leb_spec (nat_of_ascii c) 122); simpl.
  all: split; [intros Hrange | intros Hout]; try lia; try reflexivity.
  rewrite nat_ascii_embedding; lia.
Qed.

Lemma stringCapitalise_first_only_witness :
  stringCapitalise (Some "staging") = "Staging" /\
  stringCapitalise (Some (stringCapitalise (Some "staging"))) = stringCapitalise (Some "staging").
Proof.
  destruct (stringCapitalise_first_only (Some "staging")) as (_ & _ & Htwice & Hfirst).
  - apply Nat.ltb_lt. reflexivity.
  - split; [|exact Htwice].
    destruct (Hfirst "s"%char "taging" eq_refl) as (c' & Heq & Hlower & _).
    rewrite Heq. f_equal.
    rewrite <- (ascii_nat_embedding c'), Hlower; [reflexivity | split; apply Nat.leb_le; reflexivity].
Defined.

(** ** Owner and repo of an event *)

Lemma split_from_plain (sep : ascii) (s current : string) :
  ~ has_char sep s -> Js.split_from sep s current = [current +:+ s].
Proof.
  revert current. induction s as [|c s IH]; intros current Hs; simpl.
  - f_equal. clear. induction current as [|x current IH]; [reflexivity|].
    exact (f_equal (String x) IH).
  - destruct (Ascii.eqb_spec c sep) as [->|Hne].
    + exfalso. apply Hs. left. reflexivity.
    + rewrite IH; [|intros H; apply Hs; right; exact H].
      f_equal. apply append_assoc.
Qed.

Lemma split_from_segment (sep : ascii) (segment rest current : string) :
  ~ has_char sep segment ->
  Js.split_from sep (segment +:+ String sep rest) current =
  (current +:+ segment) :: Js.split_from sep rest "".
Proof.
  revert current. induction segment as [|c segment IH]; intros current Hs; simpl.
  - rewrite Ascii.eqb_refl. f_equal.
    clear. induction current as [|x current IH]; [reflexivity|].
    exact (f_equal (String x) IH).
  - destruct (Ascii.eqb_spec c sep) as [->|Hne].
    + exfalso. apply Hs. left. reflexivity.
    + rewrite IH; [|intros H; apply Hs; right; exact H].
      f_equal. apply append_assoc.
Qed.

Lemma split_from_nonempty (sep : ascii) (s current : string) :
  (0 < length (Js.split_from sep s current))%nat.
Proof.
  revert current. induction s as [|c s IH]; intros current; simpl; [lia|].
  destruct (Ascii.eqb c sep); [simpl; lia | apply IH].
Qed.

(** Property X11.  When the spec lacks [gitOwner] or [gitRepository] and its
    pipeline name is [owner/repo/branch], folder and repo name are the first
    two segments of the pipeline name. *)
Theorem folder_and_repo_from_pipeline (spec : Spec.t) (owner repo branch : string) :
  Js.truthy_opt (Spec.gitOwner spec) = false \/ Js.truthy_opt (Spec.gitRepository spec) = false ->
  ~ has_char "/" owner -> ~ has_char "/" repo ->
  Spec.pipeline spec = Some (owner +:+ "/" +:+ repo +:+ "/" +:+ branch) ->
  folder_and_repo spec = (Some owner, Some repo).
Proof.
  intros Hmissing Howner Hrepo Hpipeline. unfold folder_and_repo.
  assert (Hguard : negb (Js.truthy_opt (Spec.gitOwner spec))
                   || negb (Js.truthy_opt (Spec.gitRepository spec)) = true).
  { destruct Hmissing as [-> | ->]; [reflexivity | apply orb_true_r]. }
  rewrite Hguard, Hpipeline.
  assert (Htruthy : Js.truthy_opt (Some (owner +:+ "/" +:+ repo +:+ "/" +:+ branch)) = true).
  { simpl. apply truthy_true. destruct owner; discriminate. }
  rewrite Htruthy. unfold Js.split. cbn [Js.to_str].
  change ("/" +:+ repo +:+ "/" +:+ branch) with (String "/" (repo +:+ String "/" branch)).
  rewrite (split_from_segment _ _ _ _ Howner), (split_from_segment _ _ _ _ Hrepo).
  pose proof (split_from_nonempty "/" branch "") as Hlen.
  destruct (Js.split_from "/" branch "") as [|x l]; [simpl in Hlen; lia|].
  reflexivity.
Qed.

Lemma folder_and_repo_from_pipeline_witness :
  folder_and_repo spec_with_pipeline = (Some "jenkins-x", Some "jx").
Proof.
  apply (folder_and_repo_from_pipeline spec_with_pipeline "jenkins-x" "jx" "feature/x").
  - left. reflexivity.
  - unfold has_char. simpl. intuition discriminate.
  - unfold has_char. simpl. intuition discriminate.
  - reflexivity.
Defined.

(** Property X12.  A pipeline name of one or two segments is never used as a
    fallback: folder and repo name remain [gitOwner] and [gitRepository]. *)
Theorem folder_and_repo_short_pipeline (spec : Spec.t) (owner repo : string) :
  ~ has_char "/" owner -> ~ has_char "/" repo ->
  Spec.pipeline spec = Some (owner +:+ "/" +:+ repo) \/ Spec.pipeline spec = Some owner ->
  folder_and_repo spec = (Spec.gitOwner spec, Spec.gitRepository spec).
Proof.
  intros Howner Hrepo Hpipeline. unfold folder_and_repo.
  destruct (negb (Js.truthy_opt (Spec.gitOwner spec))
            || negb (Js.truthy_opt (Spec.gitRepository spec))); [|reflexivity].
  destruct Hpipeline as [-> | ->].
  - destruct (Js.truthy_opt _); [|reflexivity]. unfold Js.split. cbn [Js.to_str].
    change ("/" +:+ repo) with (String "/" repo).
    rewrite (split_from_segment _ _ _ _ Howner), (split_from_plain _ _ _ Hrepo).
    reflexivity.
  - destruct (Js.truthy_opt _); [|reflexivity]. unfold Js.split. cbn [Js.to_str].
    rewrite (split_from_plain _ _ _ Howner). reflexivity.
Qed.

Lemma folder_and_repo_short_pipeline_witness :
  folder_and_repo spec_with_short_pipeline =
  (Spec.gitOwner spec_with_short_pipeline, Spec.gitRepository spec_with_short_pipeline).
Proof.
  apply (folder_and_repo_short_pipeline spec_with_short_pipeline "jenkins-x" "jx").
  - unfold has_char. simpl. intuition discriminate.
  - unfold has_char. simpl. intuition discriminate.
  - left. reflexivity.
Defined.

(** ** Events *)

(** Property X13.  An event without a name, a spec, a build number, or a folder
    and a repo name is dropped: the callback returns normally, the tree and
    the heap are unchanged and no change event is fired. *)
Theorem malformed_event_dropped (type : string) (obj : Activity.t) (w : World)
    (metadata : Metadata.t) :
  Activity.metadata obj = Some metadata ->
  match Activity.spec obj with
  | Some spec =>
      Js.truthy_opt (Metadata.name metadata) = false \/
      Js.truthy_opt (Spec.build spec) = false \/
      Js.truthy_opt (fst (folder_and_repo spec)) = false \/
      Js.truthy_opt (snd (folder_and_repo spec)) = false
  | None => True
  end ->
  fst (watch_callback type obj w) = Js.Normal tt /\
  model (snd (watch_callback type obj w)) = model w /\
  heap (snd (watch_callback type obj w)) = heap w /\
  fired (snd (watch_callback type obj w)) = fired w.
Proof.
  intros Hmd Hbad. unfold watch_callback. rewrite Hmd.
  destruct (Js.truthy_opt (Metadata.name metadata)) eqn:Hname;
    destruct (Activity.spec obj) as [spec|]; try (repeat split; reflexivity).
  destruct (Js.truthy_opt (Spec.build spec)) eqn:Hbuild; [|repeat split; reflexivity].
  simpl negb. cbv iota.
  destruct (folder_and_repo spec) as [folder repoName]. simpl in Hbad.
  destruct Hbad as [H|[H|[H|H]]]; try discriminate; rewrite H; simpl;
    rewrite ?orb_true_r; repeat split; reflexivity.
Qed.

Lemma malformed_event_dropped_witness :
  fst (watch_callback "ADDED" (Activity.mk (Some (Metadata.mk (Some "jx-7")))
                                 (Some spec_with_short_pipeline)) world0) = Js.Normal tt /\
  model (snd (watch_callback "ADDED" (Activity.mk (Some (Metadata.mk (Some "jx-7")))
                                        (Some spec_with_short_pipeline)) world0)) = model world0 /\
  heap (snd (watch_callback "ADDED" (Activity.mk (Some (Metadata.mk (Some "jx-7")))
                                       (Some spec_with_short_pipeline)) world0)) = heap world0 /\
  fired (snd (watch_callback "ADDED" (Activity.mk (Some (Metadata.mk (Some "jx-7")))
                                        (Some spec_with_short_pipeline)) world0)) = fired world0.
Proof.
  apply (malformed_event_dropped "ADDED"
           (Activity.mk (Some (Metadata.mk (Some "jx-7"))) (Some spec_with_short_pipeline))
           world0 (Metadata.mk (Some "jx-7"))).
  - reflexivity.
  - simpl. right. right. left. reflexivity.
Defined.

(** Property X14.  A complete [DELETED] event runs [deletePipeline] on its keys
    and fires one change event; heap and console are left alone. *)
Theorem deleted_event_processed (obj : Activity.t) (w : World) (metadata : Metadata.t)
    (spec : Spec.t) (folder repoName buildNumber : string) :
  Activity.metadata obj = Some metadata ->
  Js.truthy_opt (Metadata.name metadata) = true ->
  Activity.spec obj = Some spec ->
  Spec.build spec = Some buildNumber -> buildNumber <> "" ->
  folder_and_repo spec = (Some folder, Some repoName) -> folder <> "" -> repoName <> "" ->
  watch_callback "DELETED" obj w =
  (Js.Normal tt,
   mkWorld (PipelineModel.deletePipeline folder repoName buildNumber obj (model w))
     (heap w) (S (fired w)) (console w)).
Proof.
  intros Hmd Hname Hspec Hbuild Hb Hfr Hf Hr. apply truthy_true in Hb, Hf, Hr.
  unfold watch_callback. rewrite Hmd, Hname, Hspec, Hbuild, Hfr. simpl.
  rewrite Hb, Hf, Hr. reflexivity.
Qed.

Lemma deleted_event_processed_witness :
  watch_callback "DELETED" sample_activity after_upsert =
  (Js.Normal tt,
   mkWorld (PipelineModel.deletePipeline "jenkins-x" "jx" "1" sample_activity (model after_upsert))
     (heap after_upsert) (S (fired after_upsert)) (console after_upsert)).
Proof.
  apply (deleted_event_processed sample_activity after_upsert (Metadata.mk (Some "jx-1"))
           (Spec.mk (Some "1") (Some "jenkins-x") (Some "jx") None None None None None None None
              (Some [stage_step "Build"; stage_step "Test"])));
    (reflexivity || discriminate).
Defined.

(** Property X15.  A complete [ADDED] or [MODIFIED] event runs [upsertPipeline]
    on its keys: the callback completes as the upsert does, the world holds
    the tree and heap the upsert left, and the change event is fired exactly
    when the upsert returned normally. *)
Theorem upsert_event_processed (type : string) (obj : Activity.t) (w : World)
    (metadata : Metadata.t) (spec : Spec.t) (folder repoName buildNumber : string) :
  type = "ADDED" \/ type = "MODIFIED" ->
  Activity.metadata obj = Some metadata ->
  Js.truthy_opt (Metadata.name metadata) = true ->
  Activity.spec obj = Some spec ->
  Spec.build spec = Some buildNumber -> buildNumber <> "" ->
  folder_and_repo spec = (Some folder, Some repoName) -> folder <> "" -> repoName <> "" ->
  watch_callback type obj w =
  (fst (PipelineModel.upsertPipeline folder repoName buildNumber obj (model w, heap w)),
   mkWorld
     (fst (snd (PipelineModel.upsertPipeline folder repoName buildNumber obj (model w, heap w))))
     (snd (snd (PipelineModel.upsertPipeline folder repoName buildNumber obj (model w, heap w))))
     (if Js.is_normal (PipelineModel.upsertPipeline folder repoName buildNumber obj
                         (model w, heap w))
      then S (fired w) else fired w)
     (console w)).
Proof.
  intros Htype Hmd Hname Hspec Hbuild Hb Hfr Hf Hr. apply truthy_true in Hb, Hf, Hr.
  unfold watch_callback. rewrite Hmd, Hname, Hspec, Hbuild, Hfr. simpl.
  rewrite Hb, Hf, Hr. simpl.
  assert (Hbranch : String.eqb type "ADDED" || String.eqb type "MODIFIED" = true).
  { destruct Htype as [-> | ->]; reflexivity. }
  rewrite Hbranch. unfold upsertPipeline, on_model, Js.bind, fireChangeEvent, Js.modify.
  destruct (PipelineModel.upsertPipeline folder repoName buildNumber obj (model w, heap w))
    as [[[]|e] [m h]]; reflexivity.
Qed.

Lemma upsert_event_processed_witness :
  watch_callback "MODIFIED" sample_activity world0 =
  (fst (PipelineModel.upsertPipeline "jenkins-x" "jx" "1" sample_activity
          (model world0, heap world0)),
   mkWorld
     (fst (snd (PipelineModel.upsertPipeline "jenkins-x" "jx" "1" sample_activity
                  (model world0, heap world0))))
     (snd (snd (PipelineModel.upsertPipeline "jenkins-x" "jx" "1" sample_activity
                  (model world0, heap world0))))
     (if Js.is_normal (PipelineModel.upsertPipeline "jenkins-x" "jx" "1" sample_activity
                         (model world0, heap world0))
      then S (fired world0) else fired world0)
     (console world0)).
Proof.
  apply (upsert_event_processed "MODIFIED" sample_activity world0 (Metadata.mk (Some "jx-1"))
           (Spec.mk (Some "1") (Some "jenkins-x") (Some "jx") None None None None None None None
              (Some [stage_step "Build"; stage_step "Test"])));
    (reflexivity || discriminate || (right; reflexivity)).
Defined.

(** ** Well-formed trees *)

Section JsMapInvariants.
Context {V : Type}.
Implicit Types (m : JsMap.t V) (k : string) (v : V).

Lemma get_set_ne k k' v m : k <> k' -> JsMap.get k' (JsMap.set k v m) = JsMap.get k' m.
Proof.
  intros Hne. induction m as [|[k0 v0] m IH]; simpl.
  - destruct (String.eqb_spec k' k); [congruence | reflexivity].
  - destruct (String.eqb_spec k k0) as [->|Hk]; simpl.
    + destruct (String.eqb_spec k' k0); [congruence | reflexivity].
    + rewrite IH. reflexivity.
Qed.

Lemma get_delete_ne k k' m : k <> k' -> JsMap.get k' (JsMap.delete k m) = JsMap.get k' m.
Proof.
  intros Hne. induction m as [|[k0 v0] m IH]; simpl; [reflexivity|].
  destruct (String.eqb_spec k k0) as [->|Hk]; simpl.
  - destruct (String.eqb_spec k' k0); [congruence | reflexivity].
  - rewrite IH. reflexivity.
Qed.

Lemma get_None_keys k m : JsMap.get k m = None <-> ~ In k (JsMap.keys m).
Proof.
  induction m as [|[k0 v0] m IH]; simpl; [tauto|].
  destruct (String.eqb_spec k k0) as [->|Hk].
  - split; [discriminate | intros H; exfalso; apply H; left; reflexivity].
  - rewrite IH. split; [intros H [H'|H']; [congruence | tauto] | tauto].
Qed.

Lemma get_delete_eq k m : NoDup (JsMap.keys m) -> JsMap.get k (JsMap.delete k m) = None.
Proof.
  induction m as [|[k0 v0] m IH]; simpl; [reflexivity|].
  intros Hnd. apply NoDup_cons in Hnd as [Hk0 Hnd].
  destruct (String.eqb_spec k k0) as [->|Hk]; simpl.
  - apply get_None_keys. rewrite <- list_elem_of_In. exact Hk0.
  - destruct (String.eqb_spec k k0); [contradiction | apply IH, Hnd].
Qed.

Lemma keys_delete_subset k m k' : In k' (JsMap.keys (JsMap.delete k m)) -> In k' (JsMap.keys m).
Proof.
  induction m as [|[k0 v0] m IH]; simpl; [tauto|].
  destruct (String.eqb k k0); simpl; [tauto|]. intros [H|H]; [left; exact H | right; auto].
Qed.

Lemma NoDup_keys_delete k m : NoDup (JsMap.keys m) -> NoDup (JsMap.keys (JsMap.delete k m)).
Proof.
  induction m as [|[k0 v0] m IH]; simpl; [trivial|].
  intros Hnd. apply NoDup_cons in Hnd as [Hk0 Hnd].
  destruct (String.eqb k k0); simpl; [exact Hnd|].
  apply NoDup_cons. split; [|apply IH, Hnd].
  rewrite list_elem_of_In in *. intros H. apply Hk0, (keys_delete_subset _ _ _ H).
Qed.

Lemma Forall_delete (P : string * V -> Prop) k m : Forall P m -> Forall P (JsMap.delete k m).
Proof.
  induction 1 as [|[k0 v0] m Hp Hm IH]; simpl; [constructor|].
  destruct (String.eqb k k0); [exact Hm | constructor; assumption].
Qed.

Lemma keys_set_subset k v m k' : In k' (JsMap.keys (JsMap.set k v m)) -> k' = k \/ In k' (JsMap.keys m).
Proof.
  induction m as [|[k0 v0] m IH]; simpl.
  - intros [H|[]]. left. congruence.
  - destruct (String.eqb_spec k k0) as [->|Hk]; simpl; [tauto|].
    intros [H|H]; [tauto|]. destruct (IH H); tauto.
Qed.

Lemma NoDup_keys_set k v m : NoDup (JsMap.keys m) -> NoDup (JsMap.keys (JsMap.set k v m)).
Proof.
  induction m as [|[k0 v0] m IH]; simpl.
  - intros _. apply NoDup_singleton.
  - intros Hnd. apply NoDup_cons in Hnd as [Hk0 Hnd].
    destruct (String.eqb_spec k k0) as [->|Hk]; simpl.
    + apply NoDup_cons. split; assumption.
    + apply NoDup_cons. split; [|apply IH, Hnd].
      rewrite list_elem_of_In in *. intros H.
      destruct (keys_set_subset _ _ _ _ H); [congruence | contradiction].
Qed.

Lemma Forall_set (P : string * V -> Prop) k v m :
  P (k, v) -> Forall P m -> Forall P (JsMap.set k v m).
Proof.
  intros Hkv. induction 1 as [|[k0 v0] m Hp Hm IH]; simpl.
  - repeat constructor. exact Hkv.
  - destruct (String.eqb k k0); constructor; assumption.
Qed.

Lemma get_Some_In k v m : JsMap.get k m = Some v -> In (k, v) m.
Proof.
  induction m as [|[k0 v0] m IH]; simpl; [discriminate|].
  destruct (String.eqb_spec k k0) as [->|Hk]; [intros [= ->]; left; reflexivity | right; auto].
Qed.
End JsMapInvariants.

Lemma wf_stage_mono (h h' : Heap) (parent : Uri.t) (stage : StageNode.t) :
  h <= h' -> wf_stage h parent stage -> wf_stage h' parent stage.
Proof. intros Hh [Hu Hp]. split; [lia | exact Hp]. Qed.

Lemma wf_build_mono (h h' : Heap) (parent : Uri.t) (key : string) (build : BuildNode.t) :
  h <= h' -> wf_build h parent key build -> wf_build h' parent key build.
Proof.
  intros Hh (Hk & Hn & Hp & Hu & Hc). repeat split; try assumption; try lia.
  eapply Forall_impl; [exact Hc|]. intros stage. apply wf_stage_mono, Hh.
Qed.

Lemma wf_repo_mono (h h' : Heap) (parent : Uri.t) (key : string) (repo : RepoNode.t) :
  h <= h' -> wf_repo h parent key repo -> wf_repo h' parent key repo.
Proof.
  intros Hh (Hk & Hn & Hp & Hu & Hnd & Hb). repeat split; try assumption; try lia.
  eapply Forall_impl; [exact Hb|]. intros entry. apply wf_build_mono, Hh.
Qed.

Lemma wf_owner_mono (h h' : Heap) (parent : Uri.t) (key : string) (owner : OwnerNode.t) :
  h <= h' -> wf_owner h parent key owner -> wf_owner h' parent key owner.
Proof.
  intros Hh (Hk & Hn & Hp & Hu & Hr).
  refine (conj Hk (conj Hn (conj Hp (conj _ _)))); [lia|].
  apply (map_Forall_impl _ _ _ Hr). intros k repo. apply wf_repo_mono, Hh.
Qed.

Lemma wf_model_mono (h h' : Heap) (m : PipelineModel.t) :
  h <= h' -> wf_model h m -> wf_model h' m.
Proof.
  intros Hh [Hu Ho]. split; [lia|].
  apply (map_Forall_impl _ _ _ Ho). intros k owner. apply wf_owner_mono, Hh.
Qed.

Lemma step_body_wf (res : Uri.t) (step : option Step.t) (s : BuildNode.state) :
  BuildNode.resource (fst s) = res ->
  Forall (wf_stage (snd s) res) (BuildNode._children (fst s)) ->
  BuildNode.resource (fst (snd (BuildNode.step_body step s))) = res /\
  snd s <= snd (snd (BuildNode.step_body step s)) /\
  Forall (wf_stage (snd (snd (BuildNode.step_body step s))) res)
    (BuildNode._children (fst (snd (BuildNode.step_body step s)))).
Proof.
  destruct s as [[r b p ch] h]. simpl. intros -> Hall.
  case_step step; run_build.
  all: split; [reflexivity|]; split; [lia|].
  all: rewrite ?Forall_app; repeat split;
    try (eapply Forall_impl; [exact Hall|]; intros st; apply wf_stage_mono; lia).
  all: repeat constructor; try (simpl; lia).
  all: first [eexists (Some _); reflexivity | eexists; reflexivity].
Qed.

Lemma for_of_wf (res : Uri.t) (steps : list (option Step.t)) (s : BuildNode.state) :
  BuildNode.resource (fst s) = res ->
  Forall (wf_stage (snd s) res) (BuildNode._children (fst s)) ->
  BuildNode.resource (fst (snd (Js.for_of steps BuildNode.step_body s))) = res /\
  snd s <= snd (snd (Js.for_of steps BuildNode.step_body s)) /\
  Forall (wf_stage (snd (snd (Js.for_of steps BuildNode.step_body s))) res)
    (BuildNode._children (fst (snd (Js.for_of steps BuildNode.step_body s)))).
Proof.
  revert s. induction steps as [|step steps IH]; intros s Hres Hall; simpl.
  - repeat split; [exact Hres | lia | exact Hall].
  - unfold Js.bind. destruct (step_body_wf res step s Hres Hall) as (Hres' & Hh & Hall').
    destruct (BuildNode.step_body step s) as [[[]|e] s']; simpl in *.
    + destruct (IH s' Hres' Hall') as (Hres'' & Hh' & Hall'').
      repeat split; [exact Hres'' | lia | exact Hall''].
    + repeat split; assumption.
Qed.

Lemma set_pipeline_wf (that : Activity.t) (this : BuildNode.t) (h : Heap) :
  BuildNode.resource (fst (snd (BuildNode.set_pipeline that (this, h)))) = BuildNode.resource this /\
  BuildNode.buildNumber (fst (snd (BuildNode.set_pipeline that (this, h)))) = BuildNode.buildNumber this /\
  h <= snd (snd (BuildNode.set_pipeline that (this, h))) /\
  Forall (wf_stage (snd (snd (BuildNode.set_pipeline that (this, h)))) (BuildNode.resource this))
    (BuildNode._children (fst (snd (BuildNode.set_pipeline that (this, h))))).
Proof.
  pose proof (set_pipeline_invariant that this h) as (Hres & Hbn & _).
  split; [exact Hres|]. split; [exact Hbn|].
  unfold BuildNode.set_pipeline. run_build.
  destruct (Spec.steps _) as [steps|].
  - match goal with
    | |- context [Js.for_of steps BuildNode.step_body ?s] =>
        refine (proj2 (for_of_wf (BuildNode.resource this) steps s _ _));
          [reflexivity | constructor]
    end.
  - simpl. split; [lia | constructor].
Qed.

Lemma RepoNode_upsertPipeline_wf (buildNumber : string) (that : Activity.t)
    (repo : RepoNode.t) (h : Heap) (parent : Uri.t) (key : string) :
  wf_repo h parent key repo ->
  h <= snd (snd (RepoNode.upsertPipeline buildNumber that (repo, h))) /\
  wf_repo (snd (snd (RepoNode.upsertPipeline buildNumber that (repo, h)))) parent key
    (fst (snd (RepoNode.upsertPipeline buildNumber that (repo, h)))).
Proof.
  intros (Hk & Hn & Hp & Hu & Hnd & Hb).
  destruct (String.eqb_spec buildNumber "") as [->|Hbn].
  { split; [simpl; lia|]. repeat split; assumption. }
  rewrite (RepoNode_upsertPipeline_eq _ that repo h Hbn). cbn zeta. cbn [fst snd].
  match goal with
  | |- context [BuildNode.set_pipeline that ?s0] =>
      assert (Hstart : exists build0 h0,
                s0 = (build0, h0) /\
                h <= h0 /\
                BuildNode.buildNumber build0 = buildNumber /\
                Uri.path (BuildNode.resource build0) =
                  Uri.path (RepoNode.resource repo) +:+ "/" +:+ buildNumber /\
                Uri.uid (BuildNode.resource build0) < h0)
  end.
  { destruct (JsMap.get buildNumber (RepoNode.nodes repo)) as [build|] eqn:Hget.
    - exists build, h. split; [reflexivity|]. apply get_Some_In in Hget.
      rewrite Forall_forall in Hb. apply list_elem_of_In, Hb in Hget.
      destruct Hget as (_ & Hbn' & Hbp & Hbu & _). simpl in *.
      repeat split; (assumption || lia).
    - eexists _, _. split; [reflexivity|]. simpl. repeat split; lia. }
  destruct Hstart as (build0 & h0 & -> & Hh0 & Hbn0 & Hbp0 & Hbu0).
  destruct (set_pipeline_wf that build0 h0) as (Hres & Hnum & Hh' & Hstages).
  set (r := BuildNode.set_pipeline that (build0, h0)) in *.
  split; [lia|].
  refine (conj Hk (conj Hn (conj Hp (conj _ (conj _ _))))); cbn [RepoNode.resource RepoNode.nodes].
  - lia.
  - apply NoDup_keys_set, Hnd.
  - apply Forall_set.
    + simpl. refine (conj Hbn (conj _ (conj _ (conj _ _)))).
      * rewrite Hnum. exact Hbn0.
      * rewrite Hres. exact Hbp0.
      * rewrite Hres. lia.
      * rewrite Hres. exact Hstages.
    + eapply Forall_impl; [exact Hb|]. intros entry. apply wf_build_mono. lia.
Qed.

Lemma OwnerNode_upsertPipeline_wf (repoName buildNumber : string) (that : Activity.t)
    (owner : OwnerNode.t) (h : Heap) (parent : Uri.t) (key : string) :
  wf_owner h parent key owner ->
  h <= snd (snd (OwnerNode.upsertPipeline repoName buildNumber that (owner, h))) /\
  wf_owner (snd (snd (OwnerNode.upsertPipeline repoName buildNumber that (owner, h)))) parent key
    (fst (snd (OwnerNode.upsertPipeline repoName buildNumber that (owner, h)))).
Proof.
  intros (Hk & Hn & Hp & Hu & Hr).
  destruct (String.eqb_spec repoName "") as [->|Hrn].
  { split; [simpl; lia|]. refine (conj Hk (conj Hn (conj Hp (conj Hu Hr)))). }
  rewrite (OwnerNode_upsertPipeline_eq _ buildNumber that owner h Hrn). cbn zeta. cbn [fst snd].
  match goal with
  | |- context [RepoNode.upsertPipeline buildNumber that ?s0] =>
      assert (Hstart : exists repo0 h0,
                s0 = (repo0, h0) /\
                h <= h0 /\ wf_repo h0 (OwnerNode.resource owner) repoName repo0)
  end.
  { destruct (OwnerNode.nodes owner !! repoName) as [repo|] eqn:Hget.
    - exists repo, h. split; [reflexivity|]. split; [lia|]. exact (Hr _ _ Hget).
    - eexists _, _. split; [reflexivity|]. split; [lia|].
      refine (conj Hrn (conj eq_refl (conj eq_refl (conj _ (conj _ _))))); simpl;
        [lia | constructor | constructor]. }
  destruct Hstart as (repo0 & h0 & -> & Hh0 & Hwf0).
  destruct (RepoNode_upsertPipeline_wf buildNumber that repo0 h0 _ _ Hwf0) as (Hh' & Hwf').
  set (r := RepoNode.upsertPipeline buildNumber that (repo0, h0)) in *.
  split; [lia|].
  refine (conj Hk (conj Hn (conj Hp (conj _ _)))); cbn [OwnerNode.resource OwnerNode.nodes].
  - lia.
  - apply map_Forall_insert_2; [exact Hwf'|].
    apply (map_Forall_impl _ _ _ Hr). intros k repo. apply wf_repo_mono. lia.
Qed.

Lemma PipelineModel_upsertPipeline_wf (folder repoName buildNumber : string) (that : Activity.t)
    (m : PipelineModel.t) (h : Heap) :
  wf_model h m ->
  h <= snd (snd (PipelineModel.upsertPipeline folder repoName buildNumber that (m, h))) /\
  wf_model (snd (snd (PipelineModel.upsertPipeline folder repoName buildNumber that (m, h))))
    (fst (snd (PipelineModel.upsertPipeline folder repoName buildNumber that (m, h)))).
Proof.
  intros (Hu & Ho).
  destruct (String.eqb_spec folder "") as [->|Hf].
  { split; [simpl; lia|]. split; assumption. }
  rewrite (PipelineModel_upsertPipeline_eq _ repoName buildNumber that m h Hf).
  cbn zeta. cbn [fst snd].
  match goal with
  | |- context [OwnerNode.upsertPipeline repoName buildNumber that ?s0] =>
      assert (Hstart : exists owner0 h0,
                s0 = (owner0, h0) /\
                h <= h0 /\ wf_owner h0 (PipelineModel.resource m) folder owner0)
  end.
  { destruct (PipelineModel.nodes m !! folder) as [owner|] eqn:Hget.
    - exists owner, h. split; [reflexivity|]. split; [lia|]. exact (Ho _ _ Hget).
    - eexists _, _. split; [reflexivity|]. split; [lia|].
      refine (conj Hf (conj eq_refl (conj eq_refl (conj _ _)))); simpl;
        [lia | apply map_Forall_empty]. }
  destruct Hstart as (owner0 & h0 & -> & Hh0 & Hwf0).
  destruct (OwnerNode_upsertPipeline_wf repoName buildNumber that owner0 h0 _ _ Hwf0)
    as (Hh' & Hwf').
  set (r := OwnerNode.upsertPipeline repoName buildNumber that (owner0, h0)) in *.
  split; [lia|]. split; cbn [PipelineModel.resource PipelineModel.nodes]; [lia|].
  apply map_Forall_insert_2; [exact Hwf'|].
  apply (map_Forall_impl _ _ _ Ho). intros k owner. apply wf_owner_mono. lia.
Qed.

Lemma RepoNode_deletePipeline_wf (buildNumber : string) (that : Activity.t)
    (repo : RepoNode.t) (h : Heap) (parent : Uri.t) (key : string) :
  wf_repo h parent key repo ->
  wf_repo h parent key (RepoNode.deletePipeline buildNumber that repo).
Proof.
  intros (Hk & Hn & Hp & Hu & Hnd & Hb). unfold RepoNode.deletePipeline.
  destruct (Js.truthy buildNumber); [|refine (conj Hk (conj Hn (conj Hp (conj Hu (conj Hnd Hb)))))].
  refine (conj Hk (conj Hn (conj Hp (conj Hu (conj _ _))))); simpl.
  - apply NoDup_keys_delete, Hnd.
  - apply Forall_delete, Hb.
Qed.

Lemma OwnerNode_deletePipeline_wf (repoName buildNumber : string) (that : Activity.t)
    (owner : OwnerNode.t) (h : Heap) (parent : Uri.t) (key : string) :
  wf_owner h parent key owner ->
  wf_owner h parent key (OwnerNode.deletePipeline repoName buildNumber that owner).
Proof.
  intros Hwf. pose proof Hwf as (Hk & Hn & Hp & Hu & Hr). unfold OwnerNode.deletePipeline.
  destruct (Js.truthy repoName); [|exact Hwf].
  destruct (OwnerNode.nodes owner !! repoName) as [repo|] eqn:Hget; [|exact Hwf].
  refine (conj Hk (conj Hn (conj Hp (conj Hu _)))); simpl.
  apply map_Forall_insert_2; [|exact Hr].
  apply RepoNode_deletePipeline_wf. exact (Hr _ _ Hget).
Qed.

Lemma PipelineModel_deletePipeline_wf (folder repoName buildNumber : string)
    (that : Activity.t) (m : PipelineModel.t) (h : Heap) :
  wf_model h m ->
  wf_model h (PipelineModel.deletePipeline folder repoName buildNumber that m).
Proof.
  intros Hwf. pose proof Hwf as (Hu & Ho). unfold PipelineModel.deletePipeline.
  destruct (Js.truthy folder); [|exact Hwf].
  destruct (PipelineModel.nodes m !! folder) as [owner|] eqn:Hget; [|exact Hwf].
  destruct (OwnerNode.isEmpty _); split; simpl; try exact Hu.
  - apply map_Forall_delete, Ho.
  - apply map_Forall_insert_2; [|exact Ho].
    apply OwnerNode_deletePipeline_wf. exact (Ho _ _ Hget).
Qed.

(** Property X16.  [upsertPipeline] and [deletePipeline] keep a tree well-formed
    in the sense of [wf_model], whatever the keys and the payload, and whether
    the upsert returns or throws. *)
Theorem upsert_and_delete_keep_wf (folder repoName buildNumber : string) (that : Activity.t)
    (m : PipelineModel.t) (h : Heap) :
  wf_model h m ->
  wf_model (snd (snd (PipelineModel.upsertPipeline folder repoName buildNumber that (m, h))))
    (fst (snd (PipelineModel.upsertPipeline folder repoName buildNumber that (m, h)))) /\
  wf_model h (PipelineModel.deletePipeline folder repoName buildNumber that m).
Proof.
  intros Hwf. split.
  - apply PipelineModel_upsertPipeline_wf, Hwf.
  - apply PipelineModel_deletePipeline_wf, Hwf.
Qed.

Lemma wf_world0 : wf_world world0.
Proof. split; simpl; [lia | apply map_Forall_empty]. Qed.

Lemma wf_after_build_test : wf_model (snd after_build_test) (fst after_build_test).
Proof. apply PipelineModel_upsertPipeline_wf, wf_world0. Qed.

Lemma upsert_and_delete_keep_wf_witness :
  wf_model
    (snd (snd (PipelineModel.upsertPipeline "jenkins-x" "jx" "42" sample_promote_activity
                 (fst after_build_test, snd after_build_test))))
    (fst (snd (PipelineModel.upsertPipeline "jenkins-x" "jx" "42" sample_promote_activity
                 (fst after_build_test, snd after_build_test)))) /\
  wf_model (snd after_build_test)
    (PipelineModel.deletePipeline "jenkins-x" "jx" "42" sample_promote_activity
       (fst after_build_test)).
Proof.
  apply (upsert_and_delete_keep_wf "jenkins-x" "jx" "42" sample_promote_activity
           (fst after_build_test) (snd after_build_test)).
  exact wf_after_build_test.
Defined.

Lemma watch_callback_wf (type : string) (obj : Activity.t) (w : World) :
  wf_world w -> wf_world (snd (watch_callback type obj w)).
Proof.
  intros Hwf. unfold watch_callback.
  destruct (Activity.metadata obj) as [metadata|]; [|exact Hwf].
  destruct (Js.truthy_opt (Metadata.name metadata)); [|exact Hwf].
  destruct (Activity.spec obj) as [spec|]; [|exact Hwf].
  destruct (negb (Js.truthy_opt (Spec.build spec))); [exact Hwf|].
  destruct (folder_and_repo spec) as [folder repoName].
  destruct (negb (Js.truthy_opt folder) || negb (Js.truthy_opt repoName)); [exact Hwf|].
  destruct (String.eqb type "ADDED" || String.eqb type "MODIFIED").
  - unfold upsertPipeline, on_model, Js.bind, fireChangeEvent, Js.modify.
    pose proof (PipelineModel_upsertPipeline_wf (Js.to_str folder) (Js.to_str repoName)
                  (Js.to_str (Spec.build spec)) obj (model w) (heap w) Hwf) as [_ Hwf'].
    destruct (PipelineModel.upsertPipeline _ _ _ obj (model w, heap w)) as [[[]|e] [m h]];
      exact Hwf'.
  - destruct (String.eqb type "DELETED"); [|exact Hwf].
    unfold deletePipeline, Js.bind, fireChangeEvent, Js.modify. simpl.
    apply PipelineModel_deletePipeline_wf, Hwf.
Qed.

Lemma handle_events_wf (events : list (string * Activity.t)) (w : World) :
  wf_world w -> wf_world (handle_events events w).
Proof.
  unfold handle_events. revert w.
  induction events as [|event events IH]; intros w Hwf; simpl; [exact Hwf|].
  apply IH, watch_callback_wf, Hwf.
Qed.

Lemma PipelineModel_upsertPipeline_resource (folder repoName buildNumber : string)
    (that : Activity.t) (s : PipelineModel.state) :
  PipelineModel.resource (fst (snd (PipelineModel.upsertPipeline folder repoName buildNumber that s)))
  = PipelineModel.resource (fst s).
Proof.
  destruct s as [m h].
  destruct (String.eqb_spec folder "") as [->|Hf]; [reflexivity|].
  rewrite (PipelineModel_upsertPipeline_eq _ _ _ _ _ _ Hf). reflexivity.
Qed.

Lemma PipelineModel_deletePipeline_resource (folder repoName buildNumber : string)
    (that : Activity.t) (m : PipelineModel.t) :
  PipelineModel.resource (PipelineModel.deletePipeline folder repoName buildNumber that m)
  = PipelineModel.resource m.
Proof.
  unfold PipelineModel.deletePipeline.
  destruct (Js.truthy folder); [|reflexivity].
  destruct (PipelineModel.nodes m !! folder) as [owner|]; [|reflexivity].
  destruct (OwnerNode.isEmpty _); reflexivity.
Qed.

Lemma watch_callback_resource (type : string) (obj : Activity.t) (w : World) :
  PipelineModel.resource (model (snd (watch_callback type obj w)))
  = PipelineModel.resource (model w).
Proof.
  unfold watch_callback.
  destruct (Activity.metadata obj) as [metadata|]; [|reflexivity].
  destruct (Js.truthy_opt (Metadata.name metadata)); [|reflexivity].
  destruct (Activity.spec obj) as [spec|]; [|reflexivity].
  destruct (negb (Js.truthy_opt (Spec.build spec))); [reflexivity|].
  destruct (folder_and_repo spec) as [folder repoName].
  destruct (negb (Js.truthy_opt folder) || negb (Js.truthy_opt repoName)); [reflexivity|].
  destruct (String.eqb type "ADDED" || String.eqb type "MODIFIED").
  - unfold upsertPipeline, on_model, Js.bind, fireChangeEvent, Js.modify.
    pose proof (PipelineModel_upsertPipeline_resource (Js.to_str folder) (Js.to_str repoName)
                  (Js.to_str (Spec.build spec)) obj (model w, heap w)) as Hres.
    destruct (PipelineModel.upsertPipeline _ _ _ obj (model w, heap w)) as [[[]|e] [m h]];
      exact Hres.
  - destruct (String.eqb type "DELETED"); [|reflexivity].
    unfold deletePipeline, Js.bind, fireChangeEvent, Js.modify. simpl.
    apply PipelineModel_deletePipeline_resource.
Qed.

Lemma handle_events_resource (events : list (string * Activity.t)) (w : World) :
  PipelineModel.resource (model (handle_events events w)) = PipelineModel.resource (model w).
Proof.
  unfold handle_events. revert w.
  induction events as [|event events IH]; intros w; simpl; [reflexivity|].
  rewrite IH. apply watch_callback_resource.
Qed.

(** Property X17.  Every world reached from the new model by a sequence of watch
    events is well-formed. *)
Theorem reachable_worlds_wf (events : list (string * Activity.t)) :
  wf_world (handle_events events world0).
Proof.
  unfold handle_events. generalize wf_world0. generalize world0.
  induction events as [|event events IH]; intros w Hwf; simpl; [exact Hwf|].
  apply IH, watch_callback_wf, Hwf.
Qed.

(** ** Consequences of well-formedness *)

Lemma mapValuesInKeyOrder_elem {V : Type} (nodes : gmap string V) (value : V) :
  value ∈ mapValuesInKeyOrder nodes -> exists key, nodes !! key = Some value.
Proof.
  unfold mapValuesInKeyOrder. rewrite lookup_loop. simpl.
  rewrite list_elem_of_omap. intros (key & _ & Hkey). exists key. exact Hkey.
Qed.

Lemma RepoNode_getChildren_elem (this : RepoNode.t) (build : BuildNode.t) :
  build ∈ RepoNode.getChildren this ->
  exists key, In (key, build) (RepoNode.nodes this).
Proof.
  unfold RepoNode.getChildren. rewrite copy_loop. simpl.
  rewrite (sort_Permutation RepoNode.compareBuilds). unfold JsMap.values.
  rewrite list_elem_of_In, in_map_iff. intros [[key b] [Hb Hin]]. simpl in Hb. subst b.
  exists key. exact Hin.
Qed.

Lemma mapValuesInKeyOrder_labels {V : Type} (nodes : gmap string V) (label : V -> string) :
  map_Forall (fun key value => label value = key) nodes ->
  StronglySorted String.le (map label (mapValuesInKeyOrder nodes)) /\
  NoDup (map label (mapValuesInKeyOrder nodes)) /\
  (forall key, key ∈ map label (mapValuesInKeyOrder nodes) <-> is_Some (nodes !! key)).
Proof.
  intros Hlabel.
  destruct (mapValuesInKeyOrder_keys nodes) as (keys & Hsorted & Hnodup & Hdom & Hall).
  assert (Heq : map label (mapValuesInKeyOrder nodes) = keys).
  { clear Hsorted Hnodup Hdom. induction Hall as [|key value keys values Hkv _ IH]; simpl.
    - reflexivity.
    - rewrite IH, (Hlabel _ _ Hkv). reflexivity. }
  rewrite Heq. split; [exact Hsorted|]. split; [exact Hnodup | exact Hdom].
Qed.

(** Property X2.  In a well-formed tree the children of the root are the owners
    in ascending order of their folders, one for each registered folder, and
    the children of every owner are its repos in ascending order of their
    names, one for each registered repo name. *)
Theorem children_in_label_order (h : Heap) (m : PipelineModel.t) :
  wf_model h m ->
  (StronglySorted String.le (map OwnerNode.folder (PipelineModel.getChildren m)) /\
   NoDup (map OwnerNode.folder (PipelineModel.getChildren m)) /\
   forall folder, folder ∈ map OwnerNode.folder (PipelineModel.getChildren m)
                  <-> is_Some (PipelineModel.nodes m !! folder)) /\
  forall owner, owner ∈ PipelineModel.getChildren m ->
    StronglySorted String.le (map RepoNode.repoName (OwnerNode.getChildren owner)) /\
    NoDup (map RepoNode.repoName (OwnerNode.getChildren owner)) /\
    forall repoName, repoName ∈ map RepoNode.repoName (OwnerNode.getChildren owner)
                     <-> is_Some (OwnerNode.nodes owner !! repoName).
Proof.
  intros [_ Ho]. split.
  - apply mapValuesInKeyOrder_labels. intros key owner Hkey.
    destruct (Ho _ _ Hkey) as (_ & Hn & _). exact Hn.
  - intros owner Hin. apply mapValuesInKeyOrder_elem in Hin as [key Hkey].
    destruct (Ho _ _ Hkey) as (_ & _ & _ & _ & Hr).
    apply mapValuesInKeyOrder_labels. intros k repo Hk.
    destruct (Hr _ _ Hk) as (_ & Hn & _). exact Hn.
Qed.

Lemma children_in_label_order_witness :
  (StronglySorted String.le
     (map OwnerNode.folder
        (PipelineModel.getChildren (model (handle_events sample_events world0)))) /\
   NoDup (map OwnerNode.folder
            (PipelineModel.getChildren (model (handle_events sample_events world0)))) /\
   forall folder,
     folder ∈ map OwnerNode.folder
                (PipelineModel.getChildren (model (handle_events sample_events world0)))
     <-> is_Some (PipelineModel.nodes (model (handle_events sample_events world0)) !! folder)) /\
  forall owner, owner ∈ PipelineModel.getChildren (model (handle_events sample_events world0)) ->
    StronglySorted String.le (map RepoNode.repoName (OwnerNode.getChildren owner)) /\
    NoDup (map RepoNode.repoName (OwnerNode.getChildren owner)) /\
    forall repoName, repoName ∈ map RepoNode.repoName (OwnerNode.getChildren owner)
                     <-> is_Some (OwnerNode.nodes owner !! repoName).
Proof.
  apply (children_in_label_order (heap (handle_events sample_events world0))
           (model (handle_events sample_events world0))).
  exact (handle_events_wf sample_events world0 wf_world0).
Defined.

(** With the sample events the root lists acme before jenkins-x, and the
    owners list alpha before zeta and draft before jx. *)
Example sample_events_children :
  map OwnerNode.folder (PipelineModel.getChildren (model (handle_events sample_events world0)))
    = ["acme"; "jenkins-x"] /\
  map (fun owner => map RepoNode.repoName (OwnerNode.getChildren owner))
    (PipelineModel.getChildren (model (handle_events sample_events world0)))
    = [["alpha"; "zeta"]; ["draft"; "jx"]].
Proof. vm_compute. split; reflexivity. Qed.

Lemma wf_find_build (h : Heap) (m : PipelineModel.t)
    (folder repoName buildNumber : string) (build : BuildNode.t) :
  wf_model h m ->
  find_build m folder repoName buildNumber = Some build ->
  BuildNode.buildNumber build = buildNumber /\
  Uri.path (BuildNode.resource build) =
    ((Uri.path (PipelineModel.resource m) +:+ "/" +:+ folder) +:+ "/" +:+ repoName)
      +:+ "/" +:+ buildNumber /\
  folder <> "" /\ repoName <> "" /\ buildNumber <> "".
Proof.
  intros [_ Ho]. unfold find_build.
  destruct (PipelineModel.nodes m !! folder) as [owner|] eqn:Howner; [|discriminate].
  destruct (Ho _ _ Howner) as (Hf & _ & Hpo & _ & Hr).
  destruct (OwnerNode.nodes owner !! repoName) as [repo|] eqn:Hrepo; [|discriminate].
  destruct (Hr _ _ Hrepo) as (Hrn & _ & Hpr & _ & _ & Hb).
  intros Hget. apply get_Some_In in Hget.
  rewrite Forall_forall in Hb. apply list_elem_of_In, Hb in Hget.
  destruct Hget as (Hbn & Hnum & Hpb & _). simpl in *.
  rewrite Hpb, Hpr, Hpo. repeat split; assumption.
Qed.

(** Property X6.  After any sequence of watch events on the new model, the
    build registered under a folder, a repo name and a build number has this
    build number and the resource path [localhost/folder/repoName/buildNumber],
    and none of the three is empty. *)
Theorem build_resource_path (events : list (string * Activity.t))
    (folder repoName buildNumber : string) (build : BuildNode.t) :
  find_build (model (handle_events events world0)) folder repoName buildNumber = Some build ->
  BuildNode.buildNumber build = buildNumber /\
  Uri.path (BuildNode.resource build) =
    (("localhost" +:+ "/" +:+ folder) +:+ "/" +:+ repoName) +:+ "/" +:+ buildNumber /\
  folder <> "" /\ repoName <> "" /\ buildNumber <> "".
Proof.
  intros Hfind.
  pose proof (handle_events_wf events world0 wf_world0) as Hwf.
  destruct (wf_find_build _ _ _ _ _ _ Hwf Hfind) as (Hbn & Hpath & Hkeys).
  rewrite handle_events_resource in Hpath.
  split; [exact Hbn|]. split; [exact Hpath | exact Hkeys].
Qed.

Lemma build_resource_path_witness :
  exists build,
    find_build (model (handle_events sample_events world0)) "acme" "alpha" "7" = Some build /\
    BuildNode.buildNumber build = "7" /\
    Uri.path (BuildNode.resource build) = "localhost/acme/alpha/7".
Proof.
  destruct (find_build (model (handle_events sample_events world0)) "acme" "alpha" "7")
    as [build|] eqn:Hfind; [|vm_compute in Hfind; discriminate Hfind].
  exists build. split; [reflexivity|].
  destruct (build_resource_path sample_events "acme" "alpha" "7" build Hfind)
    as (Hbn & Hpath & _).
  split; [exact Hbn | exact Hpath].
Defined.

Lemma nodeForUri_stage_miss (h : Heap) (parent uri : Uri.t) (stage : StageNode.t) :
  wf_stage h parent stage -> h <= Uri.uid uri -> nodeForUri_stage uri stage = None.
Proof.
  intros [Hu _] Hh. unfold nodeForUri_stage, Uri.same_object.
  destruct (Nat.eqb_spec (Uri.uid (StageNode.resource stage)) (Uri.uid uri)); [lia | reflexivity].
Qed.

Lemma nodeForUri_build_miss (h : Heap) (parent uri : Uri.t) (key : string) (build : BuildNode.t) :
  wf_build h parent key build -> h <= Uri.uid uri -> nodeForUri_build uri build = None.
Proof.
  intros (_ & _ & _ & Hu & Hc) Hh. unfold nodeForUri_build, Uri.same_object.
  destruct (Nat.eqb_spec (Uri.uid (BuildNode.resource build)) (Uri.uid uri)); [lia|].
  apply first_answer_None. rewrite BuildNode_getChildren_eq.
  eapply Forall_impl; [exact Hc|]. intros stage Hs. exact (nodeForUri_stage_miss _ _ _ _ Hs Hh).
Qed.

Lemma nodeForUri_repo_miss (h : Heap) (parent uri : Uri.t) (key : string) (repo : RepoNode.t) :
  wf_repo h parent key repo -> h <= Uri.uid uri -> nodeForUri_repo uri repo = None.
Proof.
  intros (_ & _ & _ & Hu & _ & Hb) Hh. unfold nodeForUri_repo, Uri.same_object.
  destruct (Nat.eqb_spec (Uri.uid (RepoNode.resource repo)) (Uri.uid uri)); [lia|].
  apply first_answer_None, Forall_forall. intros build Hin.
  apply RepoNode_getChildren_elem in Hin as [k Hin].
  rewrite Forall_forall in Hb. apply list_elem_of_In, Hb in Hin.
  exact (nodeForUri_build_miss _ _ _ _ _ Hin Hh).
Qed.

Lemma nodeForUri_owner_miss (h : Heap) (parent uri : Uri.t) (key : string) (owner : OwnerNode.t) :
  wf_owner h parent key owner -> h <= Uri.uid uri -> nodeForUri_owner uri owner = None.
Proof.
  intros (_ & _ & _ & Hu & Hr) Hh. unfold nodeForUri_owner, Uri.same_object.
  destruct (Nat.eqb_spec (Uri.uid (OwnerNode.resource owner)) (Uri.uid uri)); [lia|].
  apply first_answer_None, Forall_forall. intros repo Hin.
  apply mapValuesInKeyOrder_elem in Hin as [k Hk].
  exact (nodeForUri_repo_miss _ _ _ _ _ (Hr _ _ Hk) Hh).
Qed.

(** Property X4.  In a well-formed tree the search for a URI object that was
    allocated after all nodes of the tree finds nothing. *)
Theorem nodeForUri_unknown (h : Heap) (m : PipelineModel.t) (uri : Uri.t) :
  wf_model h m -> h <= Uri.uid uri -> nodeForUri uri (ModelN m) = None.
Proof.
  intros [Hu Ho] Hh. simpl. unfold nodeForUri_model, Uri.same_object.
  destruct (Nat.eqb_spec (Uri.uid (PipelineModel.resource m)) (Uri.uid uri)); [lia|].
  apply first_answer_None, Forall_forall. intros owner Hin.
  apply mapValuesInKeyOrder_elem in Hin as [k Hk].
  exact (nodeForUri_owner_miss _ _ _ _ _ (Ho _ _ Hk) Hh).
Qed.

Lemma nodeForUri_unknown_witness :
  nodeForUri (Uri.mk (snd after_build_test) "localhost/jenkins-x")
    (ModelN (fst after_build_test)) = None.
Proof.
  apply (nodeForUri_unknown (snd after_build_test) (fst after_build_test)).
  - exact wf_after_build_test.
  - simpl. lia.
Defined.

(** Property X1.  [mapValuesInKeyOrder] returns the values of the map, each one
    once, in the ascending order of their keys: the answer is a permutation
    of the values, and it lines up with a sorted, duplicate-free list of
    exactly the keys of the map. *)
Theorem mapValuesInKeyOrder_sorted {V : Type} (nodes : gmap string V) :
  Permutation (mapValuesInKeyOrder nodes) (map snd (map_to_list nodes)) /\
  exists keys : list string,
    StronglySorted String.le keys /\
    NoDup keys /\
    (forall key, key ∈ keys <-> is_Some (nodes !! key)) /\
    Forall2 (fun key value => nodes !! key = Some value) keys (mapValuesInKeyOrder nodes).
Proof.
  split; [|apply mapValuesInKeyOrder_keys].
  unfold mapValuesInKeyOrder. rewrite copy_keys_loop, lookup_loop. simpl.
  rewrite (sort_Permutation Js.default_compare).
  pose proof (NoDup_fst_map_to_list nodes) as Hnd.
  assert (Hall : Forall (fun entry => nodes !! fst entry = Some (snd entry)) (map_to_list nodes)).
  { apply Forall_forall. intros [k v] Hkv. apply elem_of_map_to_list. exact Hkv. }
  clear Hnd. induction Hall as [|[k v] entries Hkv _ IH]; simpl; [reflexivity|].
  simpl in Hkv. rewrite Hkv. constructor. exact IH.
Qed.

(** ** What an upsert and a delete leave alone *)

Lemma RepoNode_upsertPipeline_frame (buildNumber buildNumber' : string) (that : Activity.t)
    (repo : RepoNode.t) (h : Heap) :
  buildNumber' <> buildNumber ->
  JsMap.get buildNumber'
    (RepoNode.nodes (fst (snd (RepoNode.upsertPipeline buildNumber that (repo, h)))))
  = JsMap.get buildNumber' (RepoNode.nodes repo).
Proof.
  intros Hne. destruct (String.eqb_spec buildNumber "") as [->|Hb]; [reflexivity|].
  rewrite (RepoNode_upsertPipeline_eq _ that repo h Hb). cbn zeta. cbn [fst snd RepoNode.nodes].
  apply get_set_ne. congruence.
Qed.

Lemma OwnerNode_upsertPipeline_frame (repoName buildNumber repoName' buildNumber' : string)
    (that : Activity.t) (owner : OwnerNode.t) (h : Heap) :
  (repoName', buildNumber') <> (repoName, buildNumber) ->
  find_in_owner (fst (snd (OwnerNode.upsertPipeline repoName buildNumber that (owner, h))))
    repoName' buildNumber'
  = find_in_owner owner repoName' buildNumber'.
Proof.
  intros Hne. destruct (String.eqb_spec repoName "") as [->|Hr]; [reflexivity|].
  rewrite (OwnerNode_upsertPipeline_eq _ buildNumber that owner h Hr). cbn zeta.
  unfold find_in_owner. cbn [fst snd OwnerNode.nodes].
  destruct (String.eqb_spec repoName' repoName) as [->|Hr'].
  - rewrite lookup_insert_eq.
    assert (Hb : buildNumber' <> buildNumber) by congruence.
    destruct (OwnerNode.nodes owner !! repoName) as [repo|];
      rewrite (RepoNode_upsertPipeline_frame _ _ _ _ _ Hb); reflexivity.
  - rewrite lookup_insert_ne by congruence. reflexivity.
Qed.

(** Property X18.  An upsert touches one build only: under every other triple of
    keys the tree holds the build it held before, or none as before. *)
Theorem upsertPipeline_frame (folder repoName buildNumber folder' repoName' buildNumber' : string)
    (that : Activity.t) (m : PipelineModel.t) (h : Heap) :
  (folder', repoName', buildNumber') <> (folder, repoName, buildNumber) ->
  find_build (fst (snd (PipelineModel.upsertPipeline folder repoName buildNumber that (m, h))))
    folder' repoName' buildNumber'
  = find_build m folder' repoName' buildNumber'.
Proof.
  intros Hne. destruct (String.eqb_spec folder "") as [->|Hf]; [reflexivity|].
  rewrite (PipelineModel_upsertPipeline_eq _ repoName buildNumber that m h Hf). cbn zeta.
  unfold find_build. cbn [fst snd PipelineModel.nodes].
  destruct (String.eqb_spec folder' folder) as [->|Hf'].
  - rewrite lookup_insert_eq.
    assert (Hrb : (repoName', buildNumber') <> (repoName, buildNumber)) by congruence.
    destruct (PipelineModel.nodes m !! folder) as [owner|].
    + exact (OwnerNode_upsertPipeline_frame repoName buildNumber repoName' buildNumber' that
               owner h Hrb).
    + match goal with
      | |- context [OwnerNode.upsertPipeline _ _ _ (?owner0, ?h0)] =>
          exact (OwnerNode_upsertPipeline_frame repoName buildNumber repoName' buildNumber' that
                   owner0 h0 Hrb)
      end.
  - rewrite lookup_insert_ne by congruence. reflexivity.
Qed.

Lemma upsertPipeline_frame_witness :
  find_build (fst (snd (PipelineModel.upsertPipeline "jenkins-x" "jx" "43" build_deploy
                          (fst after_build_test, snd after_build_test))))
    "jenkins-x" "jx" "42"
  = find_build (fst after_build_test) "jenkins-x" "jx" "42".
Proof.
  apply (upsertPipeline_frame "jenkins-x" "jx" "43" "jenkins-x" "jx" "42" build_deploy
           (fst after_build_test) (snd after_build_test)).
  intros H. discriminate H.
Defined.

(** Property X19.  An upsert for a registered build reuses its node: resource and
    build number are kept, and the heap advances as the setter alone advances
    it. *)
Theorem upsertPipeline_keeps_identity (folder repoName buildNumber : string)
    (that : Activity.t) (m : PipelineModel.t) (h : Heap) (build : BuildNode.t) :
  folder <> "" -> repoName <> "" -> buildNumber <> "" ->
  find_build m folder repoName buildNumber = Some build ->
  exists build',
    find_build (fst (snd (PipelineModel.upsertPipeline folder repoName buildNumber that (m, h))))
      folder repoName buildNumber = Some build' /\
    BuildNode.resource build' = BuildNode.resource build /\
    BuildNode.buildNumber build' = BuildNode.buildNumber build /\
    snd (snd (PipelineModel.upsertPipeline folder repoName buildNumber that (m, h)))
      = snd (snd (BuildNode.set_pipeline that (build, h))).
Proof.
  intros Hf Hr Hb Hfind.
  destruct (upsertPipeline_reaches_build m h folder repoName buildNumber that Hf Hr Hb)
    as (build0 & h0 & _ & Hsame & _ & Hheap & Hfind').
  destruct (Hsame _ Hfind) as [-> ->].
  pose proof (set_pipeline_invariant that build h) as (Hres & Hbn & _).
  eexists. split; [exact Hfind'|]. split; [exact Hres|]. split; [exact Hbn | exact Hheap].
Qed.

Lemma upsertPipeline_keeps_identity_witness :
  exists build build',
    find_build (fst after_build_test) "jenkins-x" "jx" "42" = Some build /\
    find_build (fst (snd (PipelineModel.upsertPipeline "jenkins-x" "jx" "42" build_deploy
                            (fst after_build_test, snd after_build_test))))
      "jenkins-x" "jx" "42" = Some build' /\
    BuildNode.resource build' = BuildNode.resource build /\
    BuildNode.buildNumber build' = BuildNode.buildNumber build.
Proof.
  destruct (find_build (fst after_build_test) "jenkins-x" "jx" "42") as [build|] eqn:Hfind;
    [|vm_compute in Hfind; discriminate Hfind].
  assert (Hkey : "jenkins-x" <> "" /\ "jx" <> "" /\ "42" <> "")
    by (repeat split; intros H; discriminate H).
  destruct Hkey as (Hf & Hr & Hb).
  destruct (upsertPipeline_keeps_identity "jenkins-x" "jx" "42" build_deploy
              (fst after_build_test) (snd after_build_test) build Hf Hr Hb Hfind)
    as (build' & Hfind' & Hres & Hbn & _).
  exists build, build'. split; [reflexivity|]. split; [exact Hfind'|].
  split; [exact Hres | exact Hbn].
Defined.

Lemma OwnerNode_deletePipeline_frame (repoName buildNumber repoName' buildNumber' : string)
    (that : Activity.t) (owner : OwnerNode.t) :
  (repoName', buildNumber') <> (repoName, buildNumber) ->
  find_in_owner (OwnerNode.deletePipeline repoName buildNumber that owner) repoName' buildNumber'
  = find_in_owner owner repoName' buildNumber'.
Proof.
  intros Hne. unfold OwnerNode.deletePipeline, find_in_owner.
  destruct (Js.truthy repoName); [|reflexivity].
  destruct (OwnerNode.nodes owner !! repoName) as [repo|] eqn:Hrepo; [|reflexivity].
  cbn [OwnerNode.nodes].
  destruct (String.eqb_spec repoName' repoName) as [->|Hr'].
  - rewrite lookup_insert_eq, Hrepo. unfold RepoNode.deletePipeline.
    destruct (Js.truthy buildNumber); [|reflexivity].
    cbn [RepoNode.nodes]. apply get_delete_ne. congruence.
  - rewrite lookup_insert_ne by congruence. reflexivity.
Qed.

Lemma OwnerNode_deletePipeline_empty (repoName buildNumber : string) (that : Activity.t)
    (owner : OwnerNode.t) :
  OwnerNode.isEmpty (OwnerNode.deletePipeline repoName buildNumber that owner) = true ->
  OwnerNode.nodes owner = ∅.
Proof.
  unfold OwnerNode.deletePipeline, OwnerNode.isEmpty.
  destruct (Js.truthy repoName);
    [destruct (OwnerNode.nodes owner !! repoName) as [repo|]|]; cbn [OwnerNode.nodes];
    intros H; apply Nat.eqb_eq, map_size_empty_iff in H; try exact H.
  exfalso. exact (insert_non_empty _ _ _ H).
Qed.

(** Property X20.  A delete touches one build only: under every other triple of
    keys the tree holds the build it held before, or none as before. *)
Theorem deletePipeline_frame (folder repoName buildNumber folder' repoName' buildNumber' : string)
    (that : Activity.t) (m : PipelineModel.t) :
  (folder', repoName', buildNumber') <> (folder, repoName, buildNumber) ->
  find_build (PipelineModel.deletePipeline folder repoName buildNumber that m)
    folder' repoName' buildNumber'
  = find_build m folder' repoName' buildNumber'.
Proof.
  intros Hne. unfold PipelineModel.deletePipeline.
  destruct (Js.truthy folder); [|reflexivity].
  destruct (PipelineModel.nodes m !! folder) as [owner|] eqn:Howner; [|reflexivity].
  destruct (OwnerNode.isEmpty _) eqn:Hempty; unfold find_build; cbn [PipelineModel.nodes].
  - apply OwnerNode_deletePipeline_empty in Hempty.
    destruct (String.eqb_spec folder' folder) as [->|Hf'].
    + rewrite lookup_delete_eq, Howner, Hempty, lookup_empty. reflexivity.
    + rewrite lookup_delete_ne by congruence. reflexivity.
  - destruct (String.eqb_spec folder' folder) as [->|Hf'].
    + rewrite lookup_insert_eq, Howner.
      apply (OwnerNode_deletePipeline_frame repoName buildNumber repoName' buildNumber').
      congruence.
    + rewrite lookup_insert_ne by congruence. reflexivity.
Qed.

Lemma deletePipeline_frame_witness :
  find_build (PipelineModel.deletePipeline "jenkins-x" "jx" "43" build_deploy (fst after_build_test))
    "jenkins-x" "jx" "42"
  = find_build (fst after_build_test) "jenkins-x" "jx" "42".
Proof.
  apply (deletePipeline_frame "jenkins-x" "jx" "43" "jenkins-x" "jx" "42" build_deploy
           (fst after_build_test)).
  intros H. discriminate H.
Defined.

(** Property X21.  After a delete on a well-formed tree no build is registered
    under the keys of the delete. *)
Theorem deletePipeline_removes (h : Heap) (folder repoName buildNumber : string)
    (that : Activity.t) (m : PipelineModel.t) :
  wf_model h m ->
  find_build (PipelineModel.deletePipeline folder repoName buildNumber that m)
    folder repoName buildNumber = None.
Proof.
  intros Hwf.
  pose proof (PipelineModel_deletePipeline_wf folder repoName buildNumber that m h Hwf)
    as [_ Ho'].
  destruct Hwf as [_ Ho].
  unfold PipelineModel.deletePipeline in *.
  destruct (Js.truthy folder) eqn:Hf.
  - destruct (PipelineModel.nodes m !! folder) as [owner|] eqn:Howner;
      [|unfold find_build; rewrite Howner; reflexivity].
    destruct (OwnerNode.isEmpty _); unfold find_build; cbn [PipelineModel.nodes].
    + rewrite lookup_delete_eq. reflexivity.
    + rewrite lookup_insert_eq.
      destruct (Ho _ _ Howner) as (_ & _ & _ & _ & Hr).
      unfold OwnerNode.deletePipeline.
      destruct (Js.truthy repoName) eqn:Hrn.
      * destruct (OwnerNode.nodes owner !! repoName) as [repo|] eqn:Hrepo;
          [|rewrite Hrepo; reflexivity].
        cbn [OwnerNode.nodes]. rewrite lookup_insert_eq.
        destruct (Hr _ _ Hrepo) as (_ & _ & _ & _ & Hnd & Hb).
        unfold RepoNode.deletePipeline. destruct (Js.truthy buildNumber) eqn:Hbn.
        -- cbn [RepoNode.nodes]. apply get_delete_eq, Hnd.
        -- destruct (JsMap.get buildNumber (RepoNode.nodes repo)) as [build|] eqn:Hget;
             [|reflexivity].
           apply get_Some_In in Hget. rewrite Forall_forall in Hb.
           apply list_elem_of_In, Hb in Hget. destruct Hget as [Hkey _]. simpl in Hkey.
           apply truthy_true in Hkey. congruence.
      * destruct (OwnerNode.nodes owner !! repoName) as [repo|] eqn:Hrepo; [|reflexivity].
        destruct (Hr _ _ Hrepo) as [Hkey _]. apply truthy_true in Hkey. congruence.
  - unfold find_build.
    destruct (PipelineModel.nodes m !! folder) as [owner|] eqn:Howner; [|reflexivity].
    destruct (Ho _ _ Howner) as [Hkey _]. apply truthy_true in Hkey. congruence.
Qed.

Lemma deletePipeline_removes_witness :
  find_build (PipelineModel.deletePipeline "jenkins-x" "jx" "42" build_test (fst after_build_test))
    "jenkins-x" "jx" "42" = None.
Proof.
  apply (deletePipeline_removes (snd after_build_test) "jenkins-x" "jx" "42" build_test
           (fst after_build_test)).
  exact wf_after_build_test.
Defined.

(** Property X22.  A delete removes neither an owner that has repos nor any of
    its repos: after the delete the owner is registered with the same
    resource and the same repo names. *)
Theorem deletePipeline_keeps_repos (folder repoName buildNumber folder' : string)
    (that : Activity.t) (m : PipelineModel.t) (owner : OwnerNode.t) :
  PipelineModel.nodes m !! folder' = Some owner ->
  OwnerNode.nodes owner <> ∅ ->
  exists owner',
    PipelineModel.nodes (PipelineModel.deletePipeline folder repoName buildNumber that m)
      !! folder' = Some owner' /\
    OwnerNode.resource owner' = OwnerNode.resource owner /\
    dom (OwnerNode.nodes owner') = dom (OwnerNode.nodes owner).
Proof.
  intros Howner Hnonempty. unfold PipelineModel.deletePipeline.
  destruct (Js.truthy folder); [|exists owner; auto].
  destruct (PipelineModel.nodes m !! folder) as [owner0|] eqn:Howner0; [|exists owner; auto].
  assert (Hdom : OwnerNode.resource (OwnerNode.deletePipeline repoName buildNumber that owner0)
                   = OwnerNode.resource owner0 /\
                 dom (OwnerNode.nodes (OwnerNode.deletePipeline repoName buildNumber that owner0))
                   = dom (OwnerNode.nodes owner0)).
  { unfold OwnerNode.deletePipeline. destruct (Js.truthy repoName); [|auto].
    destruct (OwnerNode.nodes owner0 !! repoName) as [repo|] eqn:Hrepo; [|auto].
    split; [reflexivity|]. cbn [OwnerNode.nodes]. apply dom_insert_lookup_L. eauto. }
  destruct Hdom as [Hres Hdom].
  destruct (String.eqb_spec folder' folder) as [->|Hf'].
  - rewrite Howner in Howner0. injection Howner0 as <-.
    destruct (OwnerNode.isEmpty _) eqn:Hempty.
    + apply OwnerNode_deletePipeline_empty in Hempty. contradiction.
    + cbn [PipelineModel.nodes]. rewrite lookup_insert_eq. eexists. split; [reflexivity|].
      split; assumption.
  - exists owner.
    destruct (OwnerNode.isEmpty _); cbn [PipelineModel.nodes];
      [rewrite lookup_delete_ne by congruence | rewrite lookup_insert_ne by congruence]; auto.
Qed.

Lemma deletePipeline_keeps_repos_witness :
  exists owner owner',
    PipelineModel.nodes (fst after_build_test) !! "jenkins-x" = Some owner /\
    PipelineModel.nodes
      (PipelineModel.deletePipeline "jenkins-x" "jx" "42" build_test (fst after_build_test))
      !! "jenkins-x" = Some owner' /\
    OwnerNode.resource owner' = OwnerNode.resource owner /\
    dom (OwnerNode.nodes owner') = dom (OwnerNode.nodes owner).
Proof.
  destruct (PipelineModel.nodes (fst after_build_test) !! "jenkins-x") as [owner|] eqn:Howner;
    [|vm_compute in Howner; discriminate Howner].
  assert (Hnonempty : OwnerNode.nodes owner <> ∅).
  { intros Hempty.
    assert (Hfind : find_build (fst after_build_test) "jenkins-x" "jx" "42" = None)
      by (unfold find_build; rewrite Howner, Hempty, lookup_empty; reflexivity).
    vm_compute in Hfind. discriminate Hfind. }
  destruct (deletePipeline_keeps_repos "jenkins-x" "jx" "42" "jenkins-x" build_test
              (fst after_build_test) owner Howner Hnonempty) as (owner' & H1 & H2 & H3).
  exists owner, owner'. split; [reflexivity|]. split; [exact H1|]. split; [exact H2 | exact H3].
Defined.
(** ** Terminals *)

Lemma runJXAsTerminal_eq (args : list string) (terminalName : string) (host : Host) :
  runJXAsTerminal args terminalName host =
  (fst (TerminalCache.getOrCreate terminalName host),
   with_calls (snd (TerminalCache.getOrCreate terminalName host))
     (command_calls (fst (TerminalCache.getOrCreate terminalName host))
        ("jx " +:+ join " " args))).
Proof.
  unfold runJXAsTerminal.
  destruct (TerminalCache.getOrCreate terminalName host); reflexivity.
Qed.

Lemma getOrCreate_cached (terminalName : string) (host : Host) :
  terminals (snd (TerminalCache.getOrCreate terminalName host)) !! terminalName =
  Some (fst (TerminalCache.getOrCreate terminalName host)).
Proof.
  unfold TerminalCache.getOrCreate.
  destruct (terminals host !! terminalName) as [terminal|] eqn:Hget; simpl.
  - exact Hget.
  - apply lookup_insert_eq.
Qed.

(** Property X23.  Running a second command under the same terminal name reuses
    the terminal of the first: the same terminal is returned, the cache is
    unchanged, and the only calls added are the text sent to this terminal
    and its [show]. *)
Theorem runJXAsTerminal_reuses_terminal (args args' : list string) (terminalName : string)
    (host : Host) :
  runJXAsTerminal args' terminalName (snd (runJXAsTerminal args terminalName host)) =
  (fst (runJXAsTerminal args terminalName host),
   with_calls (snd (runJXAsTerminal args terminalName host))
     (command_calls (fst (runJXAsTerminal args terminalName host))
        ("jx " +:+ join " " args'))).
Proof.
  rewrite (runJXAsTerminal_eq args' terminalName).
  rewrite (runJXAsTerminal_eq args terminalName). cbn [fst snd].
  assert (Hcached : TerminalCache.getOrCreate terminalName
            (with_calls (snd (TerminalCache.getOrCreate terminalName host))
               (command_calls (fst (TerminalCache.getOrCreate terminalName host))
                  ("jx " +:+ join " " args))) =
          (fst (TerminalCache.getOrCreate terminalName host),
           with_calls (snd (TerminalCache.getOrCreate terminalName host))
             (command_calls (fst (TerminalCache.getOrCreate terminalName host))
                ("jx " +:+ join " " args)))).
  { unfold TerminalCache.getOrCreate at 1. cbn [with_calls terminals].
    rewrite getOrCreate_cached. reflexivity. }
  rewrite Hcached. reflexivity.
Qed.

(** Property X24.  After a terminal was closed the cache has no entry under its
    name and the entries under other names are untouched; asking for the name
    again creates the next terminal of the host. *)
Theorem closed_terminal_is_recreated (terminal : Terminal.t) (host : Host) :
  terminals (TerminalCache.onDidCloseTerminal terminal host) !! Terminal.name terminal = None /\
  (forall name, name <> Terminal.name terminal ->
     terminals (TerminalCache.onDidCloseTerminal terminal host) !! name =
     terminals host !! name) /\
  fst (TerminalCache.getOrCreate (Terminal.name terminal)
         (TerminalCache.onDidCloseTerminal terminal host)) =
    Terminal.mk (next_terminal host) (Terminal.name terminal).
Proof.
  assert (Hnone : terminals (TerminalCache.onDidCloseTerminal terminal host)
                    !! Terminal.name terminal = None).
  { unfold TerminalCache.onDidCloseTerminal.
    destruct (terminals host !! Terminal.name terminal) eqn:Hget; simpl.
    - apply lookup_delete_eq.
    - exact Hget. }
  split; [exact Hnone|]. split.
  - intros name Hne. unfold TerminalCache.onDidCloseTerminal.
    destruct (terminals host !! Terminal.name terminal) eqn:Hget; simpl; [|reflexivity].
    apply lookup_delete_ne. congruence.
  - unfold TerminalCache.getOrCreate. rewrite Hnone. simpl.
    unfold TerminalCache.onDidCloseTerminal.
    destruct (terminals host !! Terminal.name terminal); reflexivity.
Qed.

Lemma getOrCreate_consistent (terminalName : string) (host : Host) :
  cache_consistent host ->
  cache_consistent (snd (TerminalCache.getOrCreate terminalName host)) /\
  Terminal.name (fst (TerminalCache.getOrCreate terminalName host)) = terminalName.
Proof.
  intros Hc. unfold TerminalCache.getOrCreate.
  destruct (terminals host !! terminalName) as [terminal|] eqn:Hget; simpl.
  - split; [exact Hc|]. exact (proj1 (Hc _ _ Hget)).
  - split; [|reflexivity]. unfold cache_consistent. simpl.
    apply map_Forall_insert_2; simpl; [split; [reflexivity | lia]|].
    apply (map_Forall_impl _ _ _ Hc). intros name terminal [Hn Hi]. split; [exact Hn | lia].
Qed.

Lemma with_calls_consistent (host : Host) (more : list host_call) :
  cache_consistent host -> cache_consistent (with_calls host more).
Proof. intros Hc. exact Hc. Qed.

Lemma runJXAsTerminal_consistent (args : list string) (terminalName : string) (host : Host) :
  cache_consistent host ->
  cache_consistent (snd (runJXAsTerminal args terminalName host)) /\
  Terminal.name (fst (runJXAsTerminal args terminalName host)) = terminalName.
Proof.
  intros Hc. rewrite runJXAsTerminal_eq. cbn [fst snd].
  destruct (getOrCreate_consistent terminalName host Hc) as [H1 H2].
  split; [apply with_calls_consistent; exact H1 | exact H2].
Qed.

(** Property X25.  The commands keep the terminal cache consistent (every
    terminal under its own name, created before now), and on a consistent
    cache [runJXAsTerminal] answers with a terminal of the name asked
    for. *)
Theorem commands_keep_cache_consistent (host : Host) :
  cache_consistent host ->
  (forall args terminalName,
     cache_consistent (snd (runJXAsTerminal args terminalName host)) /\
     Terminal.name (fst (runJXAsTerminal args terminalName host)) = terminalName) /\
  (forall terminal, cache_consistent (TerminalCache.onDidCloseTerminal terminal host)) /\
  (forall resource, cache_consistent (PipelineExplorer.watchBuildLog resource host)) /\
  (forall resource, cache_consistent (PipelineExplorer.startPipeline resource host)) /\
  (forall resource, cache_consistent (PipelineExplorer.stopPipeline resource host)) /\
  (forall u, cache_consistent (openUrl u host)).
Proof.
  intros Hc.
  split; [intros args terminalName; apply runJXAsTerminal_consistent; exact Hc|].
  split.
  { intros terminal. unfold TerminalCache.onDidCloseTerminal.
    destruct (terminals host !! Terminal.name terminal); [|exact Hc].
    unfold cache_consistent. simpl. apply map_Forall_delete. exact Hc. }
  split.
  { intros [build|]; simpl; [|exact Hc].
    destruct (BuildNode.pipeline build) as [pipeline|]; [|exact Hc].
    destruct (Activity.spec pipeline) as [spec|]; [|exact Hc].
    destruct (Js.truthy_opt (Spec.pipeline spec)); [|exact Hc].
    apply runJXAsTerminal_consistent. exact Hc. }
  split.
  { intros [resource|]; simpl; [|exact Hc].
    match goal with |- context [if ?c then _ else _] => destruct c end; [|exact Hc].
    apply runJXAsTerminal_consistent. exact Hc. }
  split.
  { intros [build|]; simpl; [|exact Hc].
    destruct (BuildNode.pipeline build) as [pipeline|]; [|exact Hc].
    destruct (Activity.spec pipeline) as [spec|]; [|exact Hc].
    destruct (Js.truthy_opt (Spec.pipeline spec)); [|exact Hc].
    destruct (Js.truthy (Js.or_default (Spec.build spec) "")); [|exact Hc].
    apply runJXAsTerminal_consistent. exact Hc. }
  intros u. unfold openUrl. destruct (Js.truthy_opt u); exact Hc.
Qed.

Lemma commands_keep_cache_consistent_witness :
  cache_consistent
    (PipelineExplorer.stopPipeline (Some sample_build)
       (PipelineExplorer.startPipeline (Some (StartBuild sample_build)) host0)).
Proof.
  apply (commands_keep_cache_consistent
           (PipelineExplorer.startPipeline (Some (StartBuild sample_build)) host0)).
  apply (commands_keep_cache_consistent host0).
  exact (map_Forall_empty _).
Defined.
(** ** The commands sent to jx *)

Lemma pipelineSpec_field {A : Type} (field : Spec.t -> option A) (build : BuildNode.t) (a : A) :
  field Spec.empty = None ->
  field (BuildNode.pipelineSpec build) = Some a ->
  exists pipeline spec,
    BuildNode.pipeline build = Some pipeline /\ Activity.spec pipeline = Some spec /\
    BuildNode.pipelineSpec build = spec.
Proof.
  intros Hempty. unfold BuildNode.pipelineSpec.
  destruct (BuildNode.pipeline build) as [pipeline|]; [|congruence].
  destruct (Activity.spec pipeline) as [spec|] eqn:Hspec; [|congruence].
  intros _. exists pipeline, spec. repeat split. exact Hspec.
Qed.

Lemma or_default_empty (v : option string) :
  Js.or_default v "" = "" -> Js.truthy_opt v = false.
Proof.
  unfold Js.or_default. destruct (Js.truthy_opt v) eqn:E; [|reflexivity].
  destruct v as [s|]; simpl in *; [|discriminate].
  intros ->. discriminate E.
Qed.

Lemma truthy_opt_Some (s : string) : s <> "" -> Js.truthy_opt (Some s) = true.
Proof. intros H. simpl. apply truthy_true. exact H. Qed.

Lemma or_default_Some (s d : string) : s <> "" -> Js.or_default (Some s) d = s.
Proof. intros H. unfold Js.or_default. rewrite (truthy_opt_Some s H). reflexivity. Qed.

Lemma stopPipeline_unfold (build : BuildNode.t) (pipelineName buildNumber : string)
    (host : Host) :
  Spec.pipeline (BuildNode.pipelineSpec build) = Some pipelineName -> pipelineName <> "" ->
  Spec.build (BuildNode.pipelineSpec build) = Some buildNumber -> buildNumber <> "" ->
  PipelineExplorer.stopPipeline (Some build) host =
  snd (runJXAsTerminal ["stop"; "pipeline"; pipelineName; "--build"; buildNumber]
         "Jenkins X" host).
Proof.
  intros Hp Hpne Hb Hbne.
  destruct (pipelineSpec_field Spec.pipeline build pipelineName eq_refl Hp)
    as (pipeline & spec & Hpipeline & Hspec & Heq).
  rewrite Heq in Hp, Hb. unfold PipelineExplorer.stopPipeline.
  rewrite Hpipeline, Hspec, Hp, Hb. rewrite (truthy_opt_Some _ Hpne).
  rewrite (or_default_Some _ _ Hbne). rewrite (proj2 (truthy_true _) Hbne).
  reflexivity.
Qed.

(** Property X26.  For a build whose spec names pipeline [P] and build [N], both
    non-empty, [stopPipeline] sends [jx stop pipeline P --build N] to the
    terminal [Jenkins X] and shows it. *)
Theorem stopPipeline_command (build : BuildNode.t) (pipelineName buildNumber : string)
    (host : Host) :
  Spec.pipeline (BuildNode.pipelineSpec build) = Some pipelineName -> pipelineName <> "" ->
  Spec.build (BuildNode.pipelineSpec build) = Some buildNumber -> buildNumber <> "" ->
  PipelineExplorer.stopPipeline (Some build) host =
  with_calls (snd (TerminalCache.getOrCreate "Jenkins X" host))
    (command_calls (fst (TerminalCache.getOrCreate "Jenkins X" host))
       ("jx stop pipeline " +:+ pipelineName +:+ " --build " +:+ buildNumber)).
Proof.
  intros Hp Hpne Hb Hbne.
  rewrite (stopPipeline_unfold build pipelineName buildNumber host Hp Hpne Hb Hbne).
  rewrite runJXAsTerminal_eq. cbn [snd]. unfold join. simpl String.concat.
  reflexivity.
Qed.

Lemma stopPipeline_command_witness :
  PipelineExplorer.stopPipeline (Some sample_build) host0 =
  mkHost (<["Jenkins X" := Terminal.mk 0 "Jenkins X"]> ∅) 1
    [CreateTerminal (Terminal.mk 0 "Jenkins X");
     SendText (Terminal.mk 0 "Jenkins X") "jx stop pipeline jenkins-x/jx/master --build 7";
     ShowTerminal (Terminal.mk 0 "Jenkins X")].
Proof.
  rewrite (stopPipeline_command sample_build "jenkins-x/jx/master" "7" host0).
  - reflexivity.
  - reflexivity.
  - intros H. discriminate H.
  - reflexivity.
  - intros H. discriminate H.
Defined.

Lemma stopPipeline_needs_build_number (build : BuildNode.t) (host : Host) :
  Js.or_default (Spec.build (BuildNode.pipelineSpec build)) "" = "" ->
  PipelineExplorer.stopPipeline (Some build) host = host.
Proof.
  intros Hb. unfold PipelineExplorer.stopPipeline. unfold BuildNode.pipelineSpec in Hb.
  destruct (BuildNode.pipeline build) as [pipeline|]; [|reflexivity].
  destruct (Activity.spec pipeline) as [spec|]; [|reflexivity].
  destruct (Js.truthy_opt (Spec.pipeline spec)); [|reflexivity].
  rewrite Hb. reflexivity.
Qed.

Lemma stopPipeline_needs_build_number_witness :
  PipelineExplorer.stopPipeline (Some sample_build_without_number) host0 = host0.
Proof.
  apply (stopPipeline_needs_build_number sample_build_without_number host0). reflexivity.
Defined.

(** Property X27.  On a build whose pipeline name is empty, [startPipeline],
    [stopPipeline] and [watchBuildLog] leave the host as it is. *)
Theorem commands_need_pipeline_name (build : BuildNode.t) (host : Host) :
  BuildNode.pipelineName build = "" ->
  PipelineExplorer.startPipeline (Some (StartBuild build)) host = host /\
  PipelineExplorer.stopPipeline (Some build) host = host /\
  PipelineExplorer.watchBuildLog (Some build) host = host.
Proof.
  intros Hname. split.
  { unfold PipelineExplorer.startPipeline. rewrite Hname. reflexivity. }
  unfold BuildNode.pipelineName, BuildNode.pipelineSpec in Hname.
  unfold PipelineExplorer.stopPipeline, PipelineExplorer.watchBuildLog.
  destruct (BuildNode.pipeline build) as [pipeline|]; [|split; reflexivity].
  destruct (Activity.spec pipeline) as [spec|]; [|split; reflexivity].
  rewrite (or_default_empty _ Hname). split; reflexivity.
Qed.

Lemma commands_need_pipeline_name_witness :
  PipelineExplorer.startPipeline
    (Some (StartBuild (BuildNode.new (Uri.mk 3 "localhost/jenkins-x/jx/7") "7"))) host0 = host0 /\
  PipelineExplorer.stopPipeline
    (Some (BuildNode.new (Uri.mk 3 "localhost/jenkins-x/jx/7") "7")) host0 = host0 /\
  PipelineExplorer.watchBuildLog
    (Some (BuildNode.new (Uri.mk 3 "localhost/jenkins-x/jx/7") "7")) host0 = host0.
Proof.
  apply (commands_need_pipeline_name
           (BuildNode.new (Uri.mk 3 "localhost/jenkins-x/jx/7") "7") host0).
  reflexivity.
Defined.

(** Property X28.  For a build whose spec names pipeline [P], [watchBuildLog]
    runs in the terminal [Jenkins Log: P #N], [N] being the build number of
    the spec or the empty string, and sends [jx get build log P], followed by
    [--build N] exactly when [N] is not empty. *)
Theorem watchBuildLog_command (build : BuildNode.t) (pipelineName : string) (host : Host) :
  Spec.pipeline (BuildNode.pipelineSpec build) = Some pipelineName -> pipelineName <> "" ->
  PipelineExplorer.watchBuildLog (Some build) host =
  with_calls
    (snd (TerminalCache.getOrCreate
            ("Jenkins Log: " +:+ pipelineName +:+ " #" +:+
               Js.or_default (Spec.build (BuildNode.pipelineSpec build)) "") host))
    (command_calls
       (fst (TerminalCache.getOrCreate
               ("Jenkins Log: " +:+ pipelineName +:+ " #" +:+
                  Js.or_default (Spec.build (BuildNode.pipelineSpec build)) "") host))
       (if Js.truthy (Js.or_default (Spec.build (BuildNode.pipelineSpec build)) "")
        then "jx get build log " +:+ pipelineName +:+ " --build " +:+
               Js.or_default (Spec.build (BuildNode.pipelineSpec build)) ""
        else "jx get build log " +:+ pipelineName)).
Proof.
  intros Hp Hpne.
  destruct (pipelineSpec_field Spec.pipeline build pipelineName eq_refl Hp)
    as (pipeline & spec & Hpipeline & Hspec & Heq).
  rewrite Heq in *. unfold PipelineExplorer.watchBuildLog.
  rewrite Hpipeline, Hspec, Hp. rewrite (truthy_opt_Some _ Hpne). cbn [Js.to_str].
  rewrite runJXAsTerminal_eq. cbn [snd].
  destruct (Js.truthy (Js.or_default (Spec.build spec) "")); reflexivity.
Qed.

Lemma watchBuildLog_command_witness :
  PipelineExplorer.watchBuildLog (Some sample_build) host0 =
  mkHost (<["Jenkins Log: jenkins-x/jx/master #7" :=
              Terminal.mk 0 "Jenkins Log: jenkins-x/jx/master #7"]> ∅) 1
    [CreateTerminal (Terminal.mk 0 "Jenkins Log: jenkins-x/jx/master #7");
     SendText (Terminal.mk 0 "Jenkins Log: jenkins-x/jx/master #7")
       "jx get build log jenkins-x/jx/master --build 7";
     ShowTerminal (Terminal.mk 0 "Jenkins Log: jenkins-x/jx/master #7")].
Proof.
  rewrite (watchBuildLog_command sample_build "jenkins-x/jx/master" host0).
  - reflexivity.
  - reflexivity.
  - intros H. discriminate H.
Defined.

Lemma truthy_append_slash (a b : string) : Js.truthy (a +:+ "/" +:+ b) = true.
Proof. destruct a; reflexivity. Qed.

Lemma startPipeline_repo_command (owner : OwnerNode.t) (repo : RepoNode.t) (host : Host) :
  PipelineExplorer.startPipeline (Some (StartRepo owner repo)) host =
  with_calls (snd (TerminalCache.getOrCreate "Jenkins X" host))
    (command_calls (fst (TerminalCache.getOrCreate "Jenkins X" host))
       ("jx start pipeline " +:+ OwnerNode.folder owner +:+ "/" +:+ RepoNode.repoName repo
          +:+ "/master")).
Proof.
  unfold PipelineExplorer.startPipeline, RepoNode_pipelineName.
  rewrite truthy_append_slash. rewrite runJXAsTerminal_eq. reflexivity.
Qed.

(** Property X29.  [startPipeline] followed by [stopPipeline] on a build with
    pipeline [P] and build [N] sends the start and then the stop command to
    one and the same terminal [Jenkins X]; the stop creates no terminal. *)
Theorem start_then_stop_share_terminal (build : BuildNode.t) (pipelineName buildNumber : string)
    (host : Host) :
  Spec.pipeline (BuildNode.pipelineSpec build) = Some pipelineName -> pipelineName <> "" ->
  Spec.build (BuildNode.pipelineSpec build) = Some buildNumber -> buildNumber <> "" ->
  PipelineExplorer.stopPipeline (Some build)
    (PipelineExplorer.startPipeline (Some (StartBuild build)) host) =
  with_calls (snd (TerminalCache.getOrCreate "Jenkins X" host))
    (command_calls (fst (TerminalCache.getOrCreate "Jenkins X" host))
       ("jx start pipeline " +:+ pipelineName) ++
     command_calls (fst (TerminalCache.getOrCreate "Jenkins X" host))
       ("jx stop pipeline " +:+ pipelineName +:+ " --build " +:+ buildNumber)).
Proof.
  intros Hp Hpne Hb Hbne.
  rewrite (stopPipeline_unfold build pipelineName buildNumber _ Hp Hpne Hb Hbne).
  rewrite (runJXAsTerminal_eq _ "Jenkins X" (PipelineExplorer.startPipeline _ _)). cbn [snd].
  unfold PipelineExplorer.startPipeline, BuildNode.pipelineName.
  rewrite Hp, (or_default_Some _ _ Hpne), (proj2 (truthy_true _) Hpne).
  rewrite runJXAsTerminal_eq. cbn [snd].
  set (created := TerminalCache.getOrCreate "Jenkins X" host).
  assert (Hcached : TerminalCache.getOrCreate "Jenkins X"
            (with_calls (snd created)
               (command_calls (fst created) ("jx " +:+ join " " ["start"; "pipeline"; pipelineName])))
          = (fst created,
             with_calls (snd created)
               (command_calls (fst created)
                  ("jx " +:+ join " " ["start"; "pipeline"; pipelineName])))).
  { unfold TerminalCache.getOrCreate at 1. cbn [with_calls terminals].
    unfold created. rewrite getOrCreate_cached. reflexivity. }
  rewrite Hcached. cbn [fst snd]. unfold with_calls. cbn [terminals next_terminal calls].
  rewrite <- app_assoc. reflexivity.
Qed.

Lemma start_then_stop_share_terminal_witness :
  PipelineExplorer.stopPipeline (Some sample_build)
    (PipelineExplorer.startPipeline (Some (StartBuild sample_build)) host0) =
  mkHost (<["Jenkins X" := Terminal.mk 0 "Jenkins X"]> ∅) 1
    [CreateTerminal (Terminal.mk 0 "Jenkins X");
     SendText (Terminal.mk 0 "Jenkins X") "jx start pipeline jenkins-x/jx/master";
     ShowTerminal (Terminal.mk 0 "Jenkins X");
     SendText (Terminal.mk 0 "Jenkins X") "jx stop pipeline jenkins-x/jx/master --build 7";
     ShowTerminal (Terminal.mk 0 "Jenkins X")].
Proof.
  rewrite (start_then_stop_share_terminal sample_build "jenkins-x/jx/master" "7" host0).
  - reflexivity.
  - reflexivity.
  - intros H. discriminate H.
  - reflexivity.
  - intros H. discriminate H.
Defined.
(** ** Opening URLs *)

Lemma open_spec_url_getter (field : Spec.t -> option string) (build : BuildNode.t)
    (host : Host) :
  field Spec.empty = None ->
  PipelineExplorer.open_spec_url field (Some build) host =
  if Js.truthy (Js.or_default (field (BuildNode.pipelineSpec build)) "")
  then with_calls host [OpenUrl (Js.or_default (field (BuildNode.pipelineSpec build)) "")]
  else host.
Proof.
  intros Hempty. unfold PipelineExplorer.open_spec_url, BuildNode.pipelineSpec.
  destruct (BuildNode.pipeline build) as [pipeline|]; [|rewrite Hempty; reflexivity].
  destruct (Activity.spec pipeline) as [spec|]; [|rewrite Hempty; reflexivity].
  unfold openUrl, Js.or_default.
  destruct (Js.truthy_opt (field spec)) eqn:E; [|reflexivity].
  destruct (field spec) as [u|]; simpl in E |- *; [|discriminate E].
  rewrite E. reflexivity.
Qed.

Lemma open_commands_follow_getters (build : BuildNode.t) (host : Host) :
  PipelineExplorer.openPipelineLogURL (Some build) host =
    (if Js.truthy (BuildNode.buildLogsUrl build)
     then with_calls host [OpenUrl (BuildNode.buildLogsUrl build)] else host) /\
  PipelineExplorer.openRepositoryURL (Some build) host =
    (if Js.truthy (BuildNode.gitUrl build)
     then with_calls host [OpenUrl (BuildNode.gitUrl build)] else host) /\
  PipelineExplorer.openResource (Some build) host =
    (if Js.truthy (BuildNode.buildUrl build)
     then with_calls host [OpenUrl (BuildNode.buildUrl build)] else host).
Proof.
  split; [|split]; apply open_spec_url_getter; reflexivity.
Qed.

Lemma contextValue_hasUrls (build : BuildNode.t) :
  BuildNode.contextValue build = "vsJenkinsX.pipelines.build.hasUrls" \/
  BuildNode.contextValue build = "vsJenkinsX.pipelines.build.hasUrls.Running" ->
  Js.truthy (BuildNode.buildLogsUrl build) = true /\
  Js.truthy (BuildNode.buildUrl build) = true /\
  Js.truthy (BuildNode.gitUrl build) = true.
Proof.
  unfold BuildNode.contextValue.
  destruct (Js.truthy (BuildNode.buildLogsUrl build)); simpl;
    [destruct (Js.truthy (BuildNode.buildUrl build)); simpl;
     [destruct (Js.truthy (BuildNode.gitUrl build)); simpl|]|].
  1: intros _; repeat split.
  all: destruct (String.eqb (BuildNode.status build) "Running");
    intros [H|H]; discriminate H.
Qed.

(** Property X30.  A build whose context value says [hasUrls] has its three URLs,
    and each of [openPipelineLogURL], [openRepositoryURL] and [openResource]
    opens the respective one, and nothing else. *)
Theorem hasUrls_build_opens_every_url (build : BuildNode.t) (host : Host) :
  BuildNode.contextValue build = "vsJenkinsX.pipelines.build.hasUrls" \/
  BuildNode.contextValue build = "vsJenkinsX.pipelines.build.hasUrls.Running" ->
  BuildNode.buildLogsUrl build <> "" /\ BuildNode.gitUrl build <> "" /\
  BuildNode.buildUrl build <> "" /\
  PipelineExplorer.openPipelineLogURL (Some build) host =
    with_calls host [OpenUrl (BuildNode.buildLogsUrl build)] /\
  PipelineExplorer.openRepositoryURL (Some build) host =
    with_calls host [OpenUrl (BuildNode.gitUrl build)] /\
  PipelineExplorer.openResource (Some build) host =
    with_calls host [OpenUrl (BuildNode.buildUrl build)].
Proof.
  intros H. destruct (contextValue_hasUrls build H) as (Hlogs & Hbuild & Hgit).
  split; [apply truthy_true; exact Hlogs|].
  split; [apply truthy_true; exact Hgit|].
  split; [apply truthy_true; exact Hbuild|].
  unfold PipelineExplorer.openPipelineLogURL, PipelineExplorer.openRepositoryURL,
    PipelineExplorer.openResource.
  rewrite !open_spec_url_getter by reflexivity.
  fold (BuildNode.buildLogsUrl build). fold (BuildNode.gitUrl build).
  fold (BuildNode.buildUrl build).
  rewrite Hlogs, Hbuild, Hgit. repeat split.
Qed.

Lemma hasUrls_build_opens_every_url_witness :
  PipelineExplorer.openPipelineLogURL (Some sample_build_with_urls) host0 =
    with_calls host0 [OpenUrl "http://jenkins/logs/7"] /\
  PipelineExplorer.openRepositoryURL (Some sample_build_with_urls) host0 =
    with_calls host0 [OpenUrl "https://github.com/jenkins-x/jx"] /\
  PipelineExplorer.openResource (Some sample_build_with_urls) host0 =
    with_calls host0 [OpenUrl "http://jenkins/job/7"].
Proof.
  destruct (hasUrls_build_opens_every_url sample_build_with_urls host0)
    as (_ & _ & _ & Hlogs & Hgit & Hbuild).
  - right. reflexivity.
  - split; [exact Hlogs | split; [exact Hgit | exact Hbuild]].
Defined.

Lemma open_commands_never_open_empty_url (host : Host) (call : host_call) :
  (forall stage, call ∈ calls (PipelineExplorer.openStageNodeUrl stage host) ->
     call ∈ calls host \/ exists url, call = OpenUrl url /\ url <> "") /\
  (forall build, call ∈ calls (PipelineExplorer.openPipelineLogURL build host) ->
     call ∈ calls host \/ exists url, call = OpenUrl url /\ url <> "") /\
  (forall build, call ∈ calls (PipelineExplorer.openRepositoryURL build host) ->
     call ∈ calls host \/ exists url, call = OpenUrl url /\ url <> "") /\
  (forall build, call ∈ calls (PipelineExplorer.openResource build host) ->
     call ∈ calls host \/ exists url, call = OpenUrl url /\ url <> "").
Proof.
  assert (Hopen : forall u, call ∈ calls (openUrl u host) ->
            call ∈ calls host \/ exists url, call = OpenUrl url /\ url <> "").
  { intros u. unfold openUrl. destruct (Js.truthy_opt u) eqn:E; [|left; assumption].
    simpl. rewrite elem_of_app, list_elem_of_singleton. intros [H|H]; [left; exact H|].
    right. exists (Js.to_str u). split; [exact H|].
    destruct u as [s|]; simpl in E |- *; [apply truthy_true; exact E | discriminate E]. }
  assert (Hspec : forall field build,
            call ∈ calls (PipelineExplorer.open_spec_url field build host) ->
            call ∈ calls host \/ exists url, call = OpenUrl url /\ url <> "").
  { intros field [build|]; simpl; [|left; assumption].
    destruct (BuildNode.pipeline build) as [pipeline|]; [|left; assumption].
    destruct (Activity.spec pipeline) as [spec|]; [|left; assumption].
    apply Hopen. }
  split; [|split; [|split]]; try apply Hspec.
  intros [stage|]; simpl; [apply Hopen | left; assumption].
Qed.
(** ** Every registered build is found by its resource *)

Lemma first_answer_is_Some {A B : Type} (f : A -> option B) (children : list A) (child : A) :
  child ∈ children -> is_Some (f child) -> is_Some (first_answer f children).
Proof.
  intros Hin Hsome. induction Hin as [child rest|child other rest Hin IH]; simpl.
  - destruct Hsome as [answer ->]. eauto.
  - destruct (f other); [eauto | exact (IH Hsome)].
Qed.

Lemma mapValuesInKeyOrder_elem_of {V : Type} (nodes : gmap string V) (key : string) (value : V) :
  nodes !! key = Some value -> value ∈ mapValuesInKeyOrder nodes.
Proof.
  intros Hkey. unfold mapValuesInKeyOrder. rewrite copy_keys_loop, lookup_loop. simpl.
  rewrite list_elem_of_omap. exists key. split; [|exact Hkey].
  rewrite (sort_Permutation Js.default_compare). rewrite list_elem_of_fmap.
  exists (key, value). split; [reflexivity|]. apply elem_of_map_to_list. exact Hkey.
Qed.

Lemma RepoNode_getChildren_elem_of (this : RepoNode.t) (key : string) (build : BuildNode.t) :
  JsMap.get key (RepoNode.nodes this) = Some build -> build ∈ RepoNode.getChildren this.
Proof.
  intros Hget. apply get_Some_In in Hget.
  unfold RepoNode.getChildren. rewrite copy_loop. simpl.
  rewrite (sort_Permutation RepoNode.compareBuilds). unfold JsMap.values.
  rewrite list_elem_of_In, in_map_iff. exists (key, build). split; [reflexivity | exact Hget].
Qed.

Lemma same_object_refl (uri : Uri.t) : Uri.same_object uri uri = true.
Proof. unfold Uri.same_object. apply Nat.eqb_refl. Qed.

(** Property X5.  Every build registered in the tree is reachable by its
    resource: the search from the root answers with a node, and the node has
    the resource of the build. *)
Theorem nodeForUri_finds_build (m : PipelineModel.t) (folder repoName buildNumber : string)
    (build : BuildNode.t) :
  find_build m folder repoName buildNumber = Some build ->
  exists found,
    nodeForUri (BuildNode.resource build) (ModelN m) = Some found /\
    Uri.same_object (resource found) (BuildNode.resource build) = true.
Proof.
  unfold find_build.
  destruct (PipelineModel.nodes m !! folder) as [owner|] eqn:Howner; [|discriminate].
  destruct (OwnerNode.nodes owner !! repoName) as [repo|] eqn:Hrepo; [|discriminate].
  intros Hbuild. set (uri := BuildNode.resource build).
  assert (Hb : is_Some (nodeForUri_build uri build)).
  { unfold nodeForUri_build, uri. rewrite same_object_refl. eauto. }
  assert (Hr : is_Some (nodeForUri_repo uri repo)).
  { unfold nodeForUri_repo. destruct (Uri.same_object (RepoNode.resource repo) uri); [eauto|].
    apply (first_answer_is_Some _ _ build); [|exact Hb].
    exact (RepoNode_getChildren_elem_of _ _ _ Hbuild). }
  assert (Ho : is_Some (nodeForUri_owner uri owner)).
  { unfold nodeForUri_owner. destruct (Uri.same_object (OwnerNode.resource owner) uri); [eauto|].
    apply (first_answer_is_Some _ _ repo); [|exact Hr].
    exact (mapValuesInKeyOrder_elem_of _ _ _ Hrepo). }
  assert (Hm : is_Some (nodeForUri uri (ModelN m))).
  { simpl. unfold nodeForUri_model.
    destruct (Uri.same_object (PipelineModel.resource m) uri); [eauto|].
    apply (first_answer_is_Some _ _ owner); [|exact Ho].
    exact (mapValuesInKeyOrder_elem_of _ _ _ Howner). }
  destruct Hm as [found Hfound]. exists found. split; [exact Hfound|].
  simpl in Hfound. unfold nodeForUri_model in Hfound.
  destruct (Uri.same_object (PipelineModel.resource m) uri) eqn:E.
  - injection Hfound as <-. exact E.
  - apply first_answer_Some in Hfound as (child & _ & Hchild).
    exact (nodeForUri_owner_answer _ _ _ Hchild).
Qed.

Lemma nodeForUri_finds_build_witness :
  exists found,
    nodeForUri (Uri.mk 3 "localhost/jenkins-x/jx/42") (ModelN (fst after_build_test))
      = Some found /\
    Uri.same_object (resource found) (Uri.mk 3 "localhost/jenkins-x/jx/42") = true.
Proof.
  destruct (find_build (fst after_build_test) "jenkins-x" "jx" "42") as [build|] eqn:Hfind;
    [|vm_compute in Hfind; discriminate Hfind].
  assert (Hresource : BuildNode.resource build = Uri.mk 3 "localhost/jenkins-x/jx/42").
  { vm_compute in Hfind. injection Hfind as <-. reflexivity. }
  rewrite <- Hresource.
  exact (nodeForUri_finds_build (fst after_build_test) "jenkins-x" "jx" "42" build Hfind).
Defined.
